(** * Interview availability engine: shallow embedding and verification

    Embeds [interviews/views.py] and [interviews/serializers.py] of the
    candidate_fyi take-home project: ISO-8601 parsing of busy blocks, the
    sweep that merges busy schedules into common-free windows, the half-hour
    ceiling, the workday test and the [InterviewAvailabilityView.get] handler;
    and the mock schedule provider of [services/mock_availability.py], with
    its random draws made explicit.

    Python values are modelled as the code uses them:
    - an aware [datetime] is its wall clock in microseconds since
      0001-01-01T00:00:00 together with its UTC offset; comparison, [max],
      [min] and sorting go through the UTC instant, arithmetic through the
      wall clock, and every result outside year 1..9999 raises
      [OverflowError];
    - a [timedelta] is a number of microseconds;
    - a busy block is a dict from keys to Python values ([gmap]);
    - exceptions are the [Raise] branch of [result]. *)

From Stdlib Require Import ZArith Lia Bool Ascii String.
From stdpp Require Import base tactics option list sorting gmap strings pretty.

Local Open Scope Z_scope.

(** ** Python runtime model *)

Module Py.

(** [Diverged] is not a Python exception: it marks a loop of the model
    running out of fuel, which the termination lemmas rule out. *)
Inductive exn := ValueError | OverflowError | Diverged.

Inductive result (A : Type) :=
  | Ok (a : A)
  | Raise (e : exn).
Arguments Ok {A} a.
Arguments Raise {A} e.

#[global] Instance result_ret : MRet result := λ A a, Ok a.
#[global] Instance result_bind : MBind result := λ A B f m,
  match m with Ok a => f a | Raise e => Raise e end.

(** Values a JSON-like dict can hold. *)
Inductive pyval :=
  | PyNone
  | PyStr (s : string)
  | PyInt (n : Z).

(** [bool(v)]: None, the empty string and 0 are falsy. *)
Definition truthy (v : pyval) : bool :=
  match v with
  | PyNone => false
  | PyStr s => negb (String.eqb s EmptyString)
  | PyInt n => negb (n =? 0)
  end.

(** [a or b] *)
Definition py_or (a b : pyval) : pyval := if truthy a then a else b.

(** [d.get(k)] *)
Definition dict_get (d : gmap string pyval) (k : string) : pyval :=
  default PyNone (d !! k).

(** Truth value of an int. *)
Definition truthy_int (n : Z) : bool := negb (n =? 0).

(** *** datetime and timedelta *)

Definition US_PER_SECOND : Z := 1000000.
Definition US_PER_MINUTE : Z := 60 * US_PER_SECOND.
Definition US_PER_HOUR : Z := 60 * US_PER_MINUTE.
Definition US_PER_DAY : Z := 24 * US_PER_HOUR.

(** First wall-clock value past [datetime.max] (9999-12-31T23:59:59.999999);
    3652059 is [date.max.toordinal()]. *)
Definition MAX_WALL : Z := 3652059 * US_PER_DAY.

Record datetime := mkdatetime { wall : Z; utcoffset : Z }.

Definition timedelta := Z.

Definition timedelta_minutes (m : Z) : timedelta := m * US_PER_MINUTE.
Definition timedelta_hours (h : Z) : timedelta := h * US_PER_HOUR.
Definition timedelta_days (d : Z) : timedelta := d * US_PER_DAY.

(** [timedelta(minutes=m)] for an [m] that is not a constant: the
    constructor raises OverflowError beyond 999999999 days. *)
Definition timedelta_of_minutes (m : Z) : result timedelta :=
  let td := m * US_PER_MINUTE in
  if (-999999999 * US_PER_DAY <=? td) && (td <? 1000000000 * US_PER_DAY)
  then Ok td else Raise OverflowError.

(** The UTC instant an aware datetime denotes. *)
Definition utc (d : datetime) : Z := wall d - utcoffset d.

Definition in_range (w : Z) : bool := (0 <=? w) && (w <? MAX_WALL).

(** A datetime object Python can hold. *)
Definition valid_datetime (d : datetime) : Prop :=
  0 <= wall d < MAX_WALL ∧ - US_PER_DAY < utcoffset d < US_PER_DAY.

Definition dt_microsecond (d : datetime) : Z := wall d `mod` US_PER_SECOND.
Definition dt_second (d : datetime) : Z := (wall d `div` US_PER_SECOND) `mod` 60.
Definition dt_minute (d : datetime) : Z := (wall d `div` US_PER_MINUTE) `mod` 60.
Definition dt_hour (d : datetime) : Z := (wall d `div` US_PER_HOUR) `mod` 24.

(** Aware datetimes compare by instant. *)
Definition dt_ltb (a b : datetime) : bool := utc a <? utc b.
Definition dt_leb (a b : datetime) : bool := utc a <=? utc b.
Definition dt_eqb (a b : datetime) : bool := utc a =? utc b.

(** [max(a, b)] and [min(a, b)] return the first argument on a tie. *)
Definition py_max (a b : datetime) : datetime := if dt_ltb a b then b else a.
Definition py_min (a b : datetime) : datetime := if dt_ltb b a then b else a.

(** [d + td] *)
Definition dt_add (d : datetime) (td : timedelta) : result datetime :=
  let w := wall d + td in
  if in_range w then Ok (mkdatetime w (utcoffset d)) else Raise OverflowError.

(** [d - td] *)
Definition dt_sub (d : datetime) (td : timedelta) : result datetime :=
  dt_add d (- td).

(** [d.astimezone(timezone.utc)] *)
Definition astimezone_utc (d : datetime) : result datetime :=
  if in_range (utc d) then Ok (mkdatetime (utc d) 0) else Raise OverflowError.

(** [d.replace(second=0, microsecond=0)] *)
Definition replace_second_microsecond (d : datetime) : datetime :=
  mkdatetime (wall d - wall d `mod` US_PER_MINUTE) (utcoffset d).

(** [d.replace(hour=h, minute=0, second=0, microsecond=0)] *)
Definition replace_hour (d : datetime) (h : Z) : result datetime :=
  if (0 <=? h) && (h <=? 23)
  then Ok (mkdatetime (wall d - wall d `mod` US_PER_DAY + h * US_PER_HOUR)
                      (utcoffset d))
  else Raise ValueError.

End Py.
Import Py.

(** ** views.py: time helpers *)

Definition HALF_HOUR : timedelta := timedelta_minutes 30.
Definition DEFAULT_SEARCH_DAYS : Z := 7.
Definition DEFAULT_START_HOUR : Z := 9.
Definition DEFAULT_END_HOUR : Z := 17.

(** [intersect_half_open_interval] *)
Definition intersect_half_open_interval (start1 end1 start2 end2 : datetime)
  : option (datetime * datetime) :=
  let start := py_max start1 start2 in
  let end_ := py_min end1 end2 in
  if dt_ltb start end_ then Some (start, end_) else None.

(** [ceil_to_half_hour_boundary] *)
Definition ceil_to_half_hour_boundary (dt : datetime) : result datetime :=
  dt ← astimezone_utc dt;
  dt ← (if truthy_int (dt_second dt) || truthy_int (dt_microsecond dt)
        then dt_add (replace_second_microsecond dt) (timedelta_minutes 1)
        else Ok (replace_second_microsecond dt));
  let remainder := dt_minute dt `mod` 30 in
  if truthy_int remainder
  then dt_add dt (timedelta_minutes (30 - remainder))
  else Ok dt.

(** [is_within_workday_utc] *)
Definition is_within_workday_utc (slot_start slot_end : datetime)
    (workday_start_hour workday_end_hour : Z) : result bool :=
  slot_start ← astimezone_utc slot_start;
  slot_end ← astimezone_utc slot_end;
  day_open ← replace_hour slot_start workday_start_hour;
  day_close ← replace_hour slot_start workday_end_hour;
  Ok (dt_leb day_open slot_start && dt_leb slot_end day_close).

(** *** Library functions the code calls

    [datetime.fromisoformat], [datetime.isoformat] and [datetime.strftime]
    belong to the Python standard library, not to the repository: the
    development is parametric in them.  [fromisoformat] returns the parsed
    wall clock with the offset the string carried, if any ([None] stands for
    ValueError). *)

Record parsed_datetime := mkparsed { parsed_wall : Z; parsed_tzinfo : option Z }.

Class PyStdlib := {
  fromisoformat : string → option parsed_datetime;
  isoformat : datetime → string;
  (** [dt.strftime] at the one format the code uses,
      [%A, %B %d, %Y at %I:%M %p]. *)
  strftime_human : datetime → string;
}.

(** *** str methods *)

Fixpoint str_startswith (prefix s : string) : bool :=
  match prefix, s with
  | EmptyString, _ => true
  | String a p, String b s' => Ascii.eqb a b && str_startswith p s'
  | String _ _, EmptyString => false
  end.

(** [s.endswith("Z")] *)
Fixpoint str_endswith_Z (s : string) : bool :=
  match s with
  | EmptyString => false
  | String c EmptyString => Ascii.eqb c "Z"%char
  | String _ s' => str_endswith_Z s'
  end.

(** [s[:-1]] *)
Fixpoint str_drop_last (s : string) : string :=
  match s with
  | EmptyString => EmptyString
  | String _ EmptyString => EmptyString
  | String c s' => String c (str_drop_last s')
  end.

(** [s.replace("+00:00", "Z")]: leftmost non-overlapping occurrences. *)
Fixpoint str_replace_utc_suffix (fuel : nat) (s : string) : string :=
  match fuel with
  | O => s
  | S fuel =>
      match s with
      | EmptyString => EmptyString
      | String c s' =>
          if str_startswith "+00:00" s
          then String "Z"%char
                 (str_replace_utc_suffix fuel (String.substring 6 (String.length s - 6) s))
          else String c (str_replace_utc_suffix fuel s')
      end
  end.

(** A sweep event [(timestamp, delta)]. *)
Abbreviation event := (datetime * Z)%type.

Section Helpers.
Context `{PyStdlib}.

(** [parse_iso8601] *)
Definition parse_iso8601 (iso_string : pyval) : result datetime :=
  match iso_string with
  | PyStr s =>
      let normalized :=
        if str_endswith_Z s then (str_drop_last s ++ "+00:00")%string else s in
      match fromisoformat normalized with
      | None => Raise ValueError
      | Some dt =>
          match parsed_tzinfo dt with
          | Some off => Ok (mkdatetime (parsed_wall dt) off)
          | None => Ok (mkdatetime (parsed_wall dt) 0)
          end
      end
  | _ => Raise ValueError
  end.

(** [to_iso8601_utc] *)
Definition to_iso8601_utc (dt : datetime) : result string :=
  dt ← astimezone_utc dt;
  let s := isoformat dt in
  Ok (str_replace_utc_suffix (String.length s) s).

(** [format_datetime_human_readable] *)
Definition format_datetime_human_readable (dt_str : pyval) : result string :=
  dt ← parse_iso8601 dt_str;
  Ok (strftime_human dt).

(** One entry of the schedule provider's answer.  [name] and [busy] are the
    keys read with [.get] and a default, so they may be absent. *)
Record person := mkperson {
  interviewerId : Z;
  name : option string;
  busy : option (list (gmap string pyval));
}.

Record busy_display := mkdisplay {
  display_interviewerId : Z;
  display_name : string;
  busyTimes : list (string * string);
}.

(** [block.get("start") or block.get("startTime")] and its [end] twin. *)
Definition raw_start_of (block : gmap string pyval) : pyval :=
  py_or (dict_get block "start") (dict_get block "startTime").
Definition raw_end_of (block : gmap string pyval) : pyval :=
  py_or (dict_get block "end") (dict_get block "endTime").

(** Inner loop of [format_interviewer_busy_times_human_readable]. *)
Fixpoint format_busy_blocks (blocks : list (gmap string pyval))
    (busy_times : list (string * string)) : result (list (string * string)) :=
  match blocks with
  | [] => Ok busy_times
  | block :: rest =>
      let raw_start := raw_start_of block in
      let raw_end := raw_end_of block in
      if truthy raw_start && truthy raw_end then
        start ← format_datetime_human_readable raw_start;
        end_ ← format_datetime_human_readable raw_end;
        format_busy_blocks rest (busy_times ++ [(start, end_)])
      else format_busy_blocks rest busy_times
  end.

(** [format_interviewer_busy_times_human_readable], with [result] the list
    built so far. *)
Fixpoint format_interviewer_busy_times_human_readable_from
    (busy_schedules : list person) (result_ : list busy_display)
    : result (list busy_display) :=
  match busy_schedules with
  | [] => Ok result_
  | p :: rest =>
      times ← format_busy_blocks (default [] (busy p)) [];
      let display :=
        mkdisplay (interviewerId p) (default "Unknown"%string (name p)) times in
      format_interviewer_busy_times_human_readable_from rest (result_ ++ [display])
  end.

Definition format_interviewer_busy_times_human_readable
    (busy_schedules : list person) : result (list busy_display) :=
  format_interviewer_busy_times_human_readable_from busy_schedules [].

(** ** views.py: the busy-timeline merger *)

(** Body of [for block in person.get("busy", [])], threading [events]. *)
Fixpoint collect_block_events (blocks : list (gmap string pyval))
    (search_start search_end : datetime) (events : list event)
    : result (list event) :=
  match blocks with
  | [] => Ok events
  | block :: rest =>
      let raw_start := raw_start_of block in
      let raw_end := raw_end_of block in
      if negb (truthy raw_start) || negb (truthy raw_end)
      then collect_block_events rest search_start search_end events
      else
        busy_start ← parse_iso8601 raw_start;
        busy_end ← parse_iso8601 raw_end;
        if dt_leb busy_end busy_start
        then collect_block_events rest search_start search_end events
        else
          match intersect_half_open_interval busy_start busy_end
                  search_start search_end with
          | Some (s, e) =>
              collect_block_events rest search_start search_end
                (events ++ [(s, 1); (e, -1)])
          | None => collect_block_events rest search_start search_end events
          end
  end.

(** [for person in busy_schedules] *)
Fixpoint collect_events (busy_schedules : list person)
    (search_start search_end : datetime) (events : list event)
    : result (list event) :=
  match busy_schedules with
  | [] => Ok events
  | p :: rest =>
      events ← collect_block_events (default [] (busy p))
                 search_start search_end events;
      collect_events rest search_start search_end events
  end.

(** Order of the sort key [(item[0], item[1])]: tuples compare
    lexicographically, datetimes by instant. *)
Definition key_ltb (a b : event) : bool :=
  (utc a.1 <? utc b.1) || ((utc a.1 =? utc b.1) && (a.2 <? b.2)).

(** [events.sort(key=...)]: a stable ascending sort, here by insertion; an
    event goes in front of the first one whose key is not smaller. *)
Fixpoint insert_event (x : event) (l : list event) : list event :=
  match l with
  | [] => [x]
  | y :: l' => if key_ltb y x then y :: insert_event x l' else x :: l
  end.

Definition sort_events (l : list event) : list event :=
  foldr insert_event [] l.

(** Inner [while i < n and events[i][0] == t]: sums the deltas of the
    leading events at [t] and returns the events from the new [i] on. *)
Fixpoint sum_deltas_at (t : datetime) (delta_sum : Z) (events : list event)
    : Z * list event :=
  match events with
  | (t', d) :: rest =>
      if dt_eqb t' t then sum_deltas_at t (delta_sum + d) rest
      else (delta_sum, events)
  | [] => (delta_sum, [])
  end.

(** Outer [while i < n].  The index [i] is represented by the events from
    position [i] on; [fuel] bounds the number of iterations and [None]
    means it ran out. *)
Fixpoint sweep (fuel : nat) (events : list event) (active_busy : Z)
    (prev_time : datetime) (free_windows : list (datetime * datetime))
    : option (list (datetime * datetime)) :=
  match events with
  | [] => Some free_windows
  | (t, _) :: _ =>
      match fuel with
      | O => None
      | S fuel =>
          let free_windows :=
            if (active_busy =? 0) && dt_ltb prev_time t
            then free_windows ++ [(prev_time, t)] else free_windows in
          let '(delta_sum, rest) := sum_deltas_at t 0 events in
          sweep fuel rest (active_busy + delta_sum) t free_windows
      end
  end.

(** [compute_common_free_windows].  The sweep runs with one unit of fuel
    per event; [Diverged] is never returned (see
    [compute_common_free_windows_terminates]). *)
Definition compute_common_free_windows (busy_schedules : list person)
    (search_start search_end : datetime)
    : result (list (datetime * datetime)) :=
  events ← collect_events busy_schedules search_start search_end [];
  let events := events ++ [(search_start, 0); (search_end, 0)] in
  let events := sort_events events in
  match sweep (length events) events 0 search_start [] with
  | Some free_windows => Ok free_windows
  | None => Raise Diverged
  end.

(** ** serializers.py *)

(** Query parameters after field parsing: [DateTimeField] gives an aware
    datetime, [IntegerField] an int; a parameter that was not sent is absent. *)
Record query_params := mkquery {
  q_start : option datetime;
  q_end : option datetime;
  q_start_hour : option Z;
  q_end_hour : option Z;
}.

Inductive validated :=
  | ValidationError (detail : list (string * string))
  | ValidatedData (vd : query_params).

(** [IntegerField(min_value=0, max_value=23)] *)
Definition hour_field_errors (field : string) (v : option Z)
    : list (string * string) :=
  match v with
  | Some h =>
      if h <? 0 then [(field, "Ensure this value is greater than or equal to 0."%string)]
      else if 23 <? h then [(field, "Ensure this value is less than or equal to 23."%string)]
      else []
  | None => []
  end.

(** [AvailabilityQuerySerializer.validate] *)
Definition validate (attrs : query_params) : validated :=
  let start := q_start attrs in
  let end_ := q_end attrs in
  if match start, end_ with
     | Some start, Some end_ => dt_leb end_ start
     | _, _ => false
     end
  then ValidationError [("end", "end must be after start")%string]
  else
    let sh := q_start_hour attrs in
    let eh := q_end_hour attrs in
    if match sh, eh with
       | Some sh, Some eh => eh <=? sh
       | _, _ => false
       end
    then ValidationError [("end_hour", "end_hour must be after start_hour")%string]
    else ValidatedData attrs.

(** [is_valid]: field validators first, [validate] only when they pass. *)
Definition is_valid (data : query_params) : validated :=
  match hour_field_errors "start_hour" (q_start_hour data)
        ++ hour_field_errors "end_hour" (q_end_hour data) with
  | [] => validate data
  | errors => ValidationError errors
  end.

(** ** views.py: the view *)

(** [InterviewTemplate] row with the ids of its interviewers. *)
Record InterviewTemplate := mktemplate {
  template_id : Z;
  template_name : string;
  template_duration : Z;
  template_interviewers : list Z;
}.

Record payload := mkpayload {
  interviewId : Z;
  payload_name : string;
  durationMinutes : Z;
  interviewers : list (Z * string);
  availableSlots : list (string * string);
  workHours : Z * Z;
  humanReadable_availableSlots : list (string * string);
  humanReadable_interviewerBusyTimes : list busy_display;
  humanReadable_workHours : string;
}.

Inductive body :=
  | ErrorBody (error : string)
  | ErrorDetail (detail : list (string * string))
  | PayloadBody (p : payload).

Record response := mkresponse { data : body; status : Z }.

Definition HTTP_200_OK : Z := 200.
Definition HTTP_400_BAD_REQUEST : Z := 400.
Definition HTTP_404_NOT_FOUND : Z := 404.

(** What the handler reads from outside: the template table, the clock
    (microseconds since 0001-01-01T00:00:00 UTC) and the schedule provider
    [get_free_busy_data]. *)
Record world := mkworld {
  templates : gmap Z InterviewTemplate;
  clock : Z;
  get_free_busy_data : list Z → list person;
}.

(** Calls that leave the handler, in the order they are made. *)
Inductive call :=
  | TemplateGet (id : Z)
  | ClockNow
  | InterviewersAll (id : Z)
  | GetFreeBusyData (interviewer_ids : list Z).

(** A handler step continues with a value, leaves through
    [return Response(...)], or raises. *)
Inductive step (A : Type) :=
  | Next (a : A)
  | Return (r : response)
  | Throw (e : exn).
Arguments Next {A} a.
Arguments Return {A} r.
Arguments Throw {A} e.

Definition handler (A : Type) : Type := list call → step A * list call.

#[global] Instance handler_ret : MRet handler := λ A a trace, (Next a, trace).
#[global] Instance handler_bind : MBind handler := λ A B f m trace,
  match m trace with
  | (Next a, trace') => f a trace'
  | (Return r, trace') => (Return r, trace')
  | (Throw e, trace') => (Throw e, trace')
  end.

Definition perform (c : call) : handler unit :=
  λ trace, (Next tt, trace ++ [c]).
Definition return_response {A} (r : response) : handler A :=
  λ trace, (Return r, trace).
Definition lift {A} (r : result A) : handler A :=
  λ trace, match r with Ok a => (Next a, trace) | Raise e => (Throw e, trace) end.

(** Inner [while slot_start <= last_valid_start]; [fuel] bounds the number
    of iterations. *)
Fixpoint slot_loop (fuel : nat) (slot_start last_valid_start : datetime)
    (duration_delta : timedelta) (workday_start_hour workday_end_hour : Z)
    (available_slots : list (string * string))
    : result (list (string * string)) :=
  if dt_leb slot_start last_valid_start then
    match fuel with
    | O => Raise Diverged
    | S fuel =>
        slot_end ← dt_add slot_start duration_delta;
        within_hours ← is_within_workday_utc slot_start slot_end
                         workday_start_hour workday_end_hour;
        available_slots ←
          (if within_hours : bool then
             start ← to_iso8601_utc slot_start;
             end_ ← to_iso8601_utc slot_end;
             Ok (available_slots ++ [(start, end_)])
           else Ok available_slots);
        slot_start ← dt_add slot_start HALF_HOUR;
        slot_loop fuel slot_start last_valid_start duration_delta
          workday_start_hour workday_end_hour available_slots
    end
  else Ok available_slots.

(** Iterations the inner loop can make from [slot_start], plus one. *)
Definition slot_fuel (slot_start last_valid_start : datetime) : nat :=
  S (Z.to_nat ((utc last_valid_start - utc slot_start) `div` HALF_HOUR + 1)).

(** [for window_start, window_end in free_windows] *)
Fixpoint expand_free_windows (free_windows : list (datetime * datetime))
    (min_slot_start : datetime) (duration_delta : timedelta)
    (workday_start_hour workday_end_hour : Z)
    (available_slots : list (string * string))
    : result (list (string * string)) :=
  match free_windows with
  | [] => Ok available_slots
  | (window_start, window_end) :: rest =>
      slot_start ← ceil_to_half_hour_boundary (py_max window_start min_slot_start);
      last_valid_start ← dt_sub window_end duration_delta;
      available_slots ←
        slot_loop (slot_fuel slot_start last_valid_start) slot_start
          last_valid_start duration_delta workday_start_hour workday_end_hour
          available_slots;
      expand_free_windows rest min_slot_start duration_delta
        workday_start_hour workday_end_hour available_slots
  end.

(** The [human_readable_slots] comprehension. *)
Fixpoint human_readable_slots_of (available_slots : list (string * string))
    : result (list (string * string)) :=
  match available_slots with
  | [] => Ok []
  | s :: rest =>
      start ← format_datetime_human_readable (PyStr s.1);
      end_ ← format_datetime_human_readable (PyStr s.2);
      others ← human_readable_slots_of rest;
      Ok ((start, end_) :: others)
  end.

(** The [interviewer_names] dict comprehension: later entries win. *)
Definition interviewer_names_of (busy_schedules : list person) : gmap Z string :=
  foldl (λ names interviewer,
           <[interviewerId interviewer := default "Unknown"%string (name interviewer)]> names)
        ∅ busy_schedules.

(** [InterviewAvailabilityView.get] *)
Definition get (w : world) (request : query_params) (id : Z) : handler response :=
  (* 1) Load template *)
  _ ← perform (TemplateGet id);
  template ← match templates w !! id with
              | Some template => mret template
              | None => return_response
                          (mkresponse (ErrorBody "Interview template not found")
                                      HTTP_404_NOT_FOUND)
              end;
  let duration_minutes := template_duration template in
  duration_delta ← lift (timedelta_of_minutes duration_minutes);
  (* 2) Validate query params with serializer *)
  vd ← match is_valid request with
        | ValidatedData vd => mret vd
        | ValidationError detail =>
            return_response (mkresponse (ErrorDetail detail) HTTP_400_BAD_REQUEST)
        end;
  (* Time range + 24h rule *)
  _ ← perform ClockNow;
  let now_utc := mkdatetime (clock w) 0 in
  earliest_allowed ← lift (dt_add now_utc (timedelta_hours 24));
  (* Defaults applied after validation *)
  search_start ← lift (astimezone_utc (default earliest_allowed (q_start vd)));
  search_end ← lift (match q_end vd with
                      | Some end_ => astimezone_utc end_
                      | None =>
                          end_ ← dt_add search_start (timedelta_days DEFAULT_SEARCH_DAYS);
                          astimezone_utc end_
                      end);
  if dt_leb search_end search_start then
    return_response (mkresponse (ErrorBody "end must be after start")
                                HTTP_400_BAD_REQUEST)
  else
  let workday_start_hour := default DEFAULT_START_HOUR (q_start_hour vd) in
  let workday_end_hour := default DEFAULT_END_HOUR (q_end_hour vd) in
  if workday_end_hour <=? workday_start_hour then
    return_response (mkresponse (ErrorBody "end_hour must be after start_hour")
                                HTTP_400_BAD_REQUEST)
  else
  min_slot_start ← lift (ceil_to_half_hour_boundary
                            (py_max search_start earliest_allowed));
  (* 3) Busy data for all interviewers *)
  _ ← perform (InterviewersAll id);
  let interviewer_ids := template_interviewers template in
  _ ← perform (GetFreeBusyData interviewer_ids);
  let busy_schedules := get_free_busy_data w interviewer_ids in
  (* 4) Compute common-free windows *)
  free_windows ← lift (compute_common_free_windows busy_schedules
                          search_start search_end);
  (* 5) Expand free windows into aligned slots *)
  available_slots ← lift (expand_free_windows free_windows min_slot_start
                             duration_delta workday_start_hour workday_end_hour []);
  (* Human-readable mirrors *)
  human_readable_slots ← lift (human_readable_slots_of available_slots);
  human_readable_busy ← lift (format_interviewer_busy_times_human_readable
                                 busy_schedules);
  let interviewer_names := interviewer_names_of busy_schedules in
  let payload_ := mkpayload
    (template_id template)
    (template_name template)
    duration_minutes
    ((λ p, (p, default "Unknown"%string (interviewer_names !! p))) <$> interviewer_ids)
    available_slots
    (workday_start_hour, workday_end_hour)
    human_readable_slots
    human_readable_busy
    (pretty workday_start_hour ++ ":00 - " ++ pretty workday_end_hour ++ ":00")%string in
  mret (mkresponse (PayloadBody payload_) HTTP_200_OK).

(** Runs a handler from an empty call log: the response, or the exception
    that escaped, and the calls made. *)
Definition run (h : handler response) : result response * list call :=
  match h [] with
  | (Next r, trace) => (Ok r, trace)
  | (Return r, trace) => (Ok r, trace)
  | (Throw e, trace) => (Raise e, trace)
  end.

End Helpers.

(** The UTC datetime on day number [day] (0 is 0001-01-01) at
    [h:m:s.us]. *)
Definition at_time (day h m s us : Z) : datetime :=
  mkdatetime (day * US_PER_DAY + h * US_PER_HOUR + m * US_PER_MINUTE
              + s * US_PER_SECOND + us) 0.

(** ** A reference instance of the library functions

    Used for concrete runs only: the calendar arithmetic of CPython's
    [datetime] module, [fromisoformat] on the strings [isoformat] emits
    ([YYYY-MM-DD?HH:MM:SS], optional [.ffffff], optional [+HH:MM] or
    [-HH:MM]), [isoformat] and the one [strftime] format.  The theorems
    below hold for any instance. *)

Module Reference.

Definition is_leap (year : Z) : bool :=
  (year `mod` 4 =? 0) && (negb (year `mod` 100 =? 0) || (year `mod` 400 =? 0)).

Definition days_before_year (year : Z) : Z :=
  let y := year - 1 in y * 365 + y `div` 4 - y `div` 100 + y `div` 400.

Definition days_in_month (year month : Z) : Z :=
  if month =? 2 then (if is_leap year then 29 else 28)
  else if (month =? 4) || (month =? 6) || (month =? 9) || (month =? 11) then 30
  else 31.

Definition DAYS_BEFORE_MONTH (month : Z) : Z :=
  nth (Z.to_nat month) [0; 0; 31; 59; 90; 120; 151; 181; 212; 243; 273; 304; 334] 0.

Definition days_before_month (year month : Z) : Z :=
  DAYS_BEFORE_MONTH month + (if (2 <? month) && is_leap year then 1 else 0).

Definition ymd2ord (year month day : Z) : Z :=
  days_before_year year + days_before_month year month + day.

(** [_ord2ymd] *)
Definition ord2ymd (n : Z) : Z * Z * Z :=
  let n := n - 1 in
  let n400 := n `div` 146097 in
  let n := n `mod` 146097 in
  let year := n400 * 400 + 1 in
  let n100 := n `div` 36524 in
  let n := n `mod` 36524 in
  let n4 := n `div` 1461 in
  let n := n `mod` 1461 in
  let n1 := n `div` 365 in
  let n := n `mod` 365 in
  let year := year + n100 * 100 + n4 * 4 + n1 in
  if (n1 =? 4) || (n100 =? 4) then (year - 1, 12, 31)
  else
    let leapyear := (n1 =? 3) && (negb (n4 =? 24) || (n100 =? 3)) in
    let month := (n + 50) `div` 32 in
    let preceding :=
      DAYS_BEFORE_MONTH month + (if (2 <? month) && leapyear then 1 else 0) in
    if n <? preceding then
      let month := month - 1 in
      let preceding :=
        preceding - (days_in_month 1 month
                     + (if (month =? 2) && leapyear then 1 else 0)) in
      (year, month, n - preceding + 1)
    else (year, month, n - preceding + 1).

Definition digit_of (c : ascii) : option Z :=
  let n := Z.of_nat (nat_of_ascii c) in
  if (48 <=? n) && (n <=? 57) then Some (n - 48) else None.

Fixpoint read_digits (n : nat) (acc : Z) (s : string) : option (Z * string) :=
  match n with
  | O => Some (acc, s)
  | S n =>
      match s with
      | String c s' => d ← digit_of c; read_digits n (acc * 10 + d) s'
      | EmptyString => None
      end
  end.

Definition expect (c : ascii) (s : string) : option string :=
  match s with
  | String c' s' => if Ascii.eqb c c' then Some s' else None
  | EmptyString => None
  end.

Definition guard_range (lo v hi : Z) : option unit :=
  if (lo <=? v) && (v <=? hi) then Some tt else None.

(** Optional [.ffffff] *)
Definition read_fraction (s : string) : option (Z * string) :=
  match s with
  | String "."%char s' => read_digits 6 0 s'
  | _ => Some (0, s)
  end.

(** Optional [+HH:MM] or [-HH:MM]; nothing else may follow. *)
Definition read_offset (s : string) : option (option Z) :=
  match s with
  | EmptyString => Some None
  | String sign s' =>
      sgn ← (if Ascii.eqb sign "+"%char then Some 1
             else if Ascii.eqb sign "-"%char then Some (-1) else None);
      '(hh, s') ← read_digits 2 0 s';
      s' ← expect ":"%char s';
      '(mm, s') ← read_digits 2 0 s';
      _ ← guard_range 0 hh 23;
      _ ← guard_range 0 mm 59;
      match s' with
      | EmptyString => Some (Some (sgn * (hh * US_PER_HOUR + mm * US_PER_MINUTE)))
      | _ => None
      end
  end.

Definition fromisoformat_ref (s : string) : option parsed_datetime :=
  '(year, s) ← read_digits 4 0 s;
  s ← expect "-"%char s;
  '(month, s) ← read_digits 2 0 s;
  s ← expect "-"%char s;
  '(day, s) ← read_digits 2 0 s;
  _ ← guard_range 1 year 9999;
  _ ← guard_range 1 month 12;
  _ ← guard_range 1 day (days_in_month year month);
  s ← (match s with String _ s' => Some s' | EmptyString => None end);
  '(hour, s) ← read_digits 2 0 s;
  s ← expect ":"%char s;
  '(minute, s) ← read_digits 2 0 s;
  s ← expect ":"%char s;
  '(second, s) ← read_digits 2 0 s;
  _ ← guard_range 0 hour 23;
  _ ← guard_range 0 minute 59;
  _ ← guard_range 0 second 59;
  '(microsecond, s) ← read_fraction s;
  tz ← read_offset s;
  Some (mkparsed ((ymd2ord year month day - 1) * US_PER_DAY + hour * US_PER_HOUR
                  + minute * US_PER_MINUTE + second * US_PER_SECOND + microsecond)
                 tz).

Definition digit_char (d : Z) : ascii := ascii_of_nat (Z.to_nat (48 + d)).

(** The [n] low decimal digits of [v], zero-padded, in front of [acc]. *)
Fixpoint pad_digits (n : nat) (v : Z) (acc : string) : string :=
  match n with
  | O => acc
  | S n => pad_digits n (v `div` 10) (String (digit_char (v `mod` 10)) acc)
  end.

Definition isoformat_ref (d : datetime) : string :=
  let '(year, month, day) := ord2ymd (wall d `div` US_PER_DAY + 1) in
  let off := Z.abs (utcoffset d) in
  let fraction :=
    if dt_microsecond d =? 0 then EmptyString
    else String "."%char (pad_digits 6 (dt_microsecond d) EmptyString) in
  let sign := if utcoffset d <? 0 then "-"%string else "+"%string in
  (pad_digits 4 year "-" ++ pad_digits 2 month "-" ++ pad_digits 2 day "T"
   ++ pad_digits 2 (dt_hour d) ":" ++ pad_digits 2 (dt_minute d) ":"
   ++ pad_digits 2 (dt_second d) EmptyString
   ++ fraction ++ sign
   ++ pad_digits 2 (off `div` US_PER_HOUR) ":"
   ++ pad_digits 2 ((off `div` US_PER_MINUTE) `mod` 60) EmptyString)%string.

Definition weekday_name (ordinal : Z) : string :=
  nth (Z.to_nat ((ordinal + 6) `mod` 7))
    ["Monday"; "Tuesday"; "Wednesday"; "Thursday"; "Friday"; "Saturday"; "Sunday"]%string
    EmptyString.

Definition month_name (month : Z) : string :=
  nth (Z.to_nat (month - 1))
    ["January"; "February"; "March"; "April"; "May"; "June"; "July"; "August";
     "September"; "October"; "November"; "December"]%string
    EmptyString.

Definition strftime_human_ref (d : datetime) : string :=
  let ordinal := wall d `div` US_PER_DAY + 1 in
  let '(year, month, day) := ord2ymd ordinal in
  let hour12 := if dt_hour d `mod` 12 =? 0 then 12 else dt_hour d `mod` 12 in
  let am_pm := if dt_hour d <? 12 then "AM"%string else "PM"%string in
  (weekday_name ordinal ++ ", " ++ month_name month ++ " "
   ++ pad_digits 2 day ", " ++ pad_digits 4 year " at "
   ++ pad_digits 2 hour12 ":" ++ pad_digits 2 (dt_minute d) " "
   ++ am_pm)%string.

(** [isoformat] of a naive datetime with wall clock [w]. *)
Definition isoformat_naive_ref (w : Z) : string :=
  let d := mkdatetime w 0 in
  let '(year, month, day) := ord2ymd (w `div` US_PER_DAY + 1) in
  let fraction :=
    if dt_microsecond d =? 0 then EmptyString
    else String "."%char (pad_digits 6 (dt_microsecond d) EmptyString) in
  (pad_digits 4 year "-" ++ pad_digits 2 month "-" ++ pad_digits 2 day "T"
   ++ pad_digits 2 (dt_hour d) ":" ++ pad_digits 2 (dt_minute d) ":"
   ++ pad_digits 2 (dt_second d) EmptyString
   ++ fraction)%string.

#[global] Instance cpython : PyStdlib := {|
  fromisoformat := fromisoformat_ref;
  isoformat := isoformat_ref;
  strftime_human := strftime_human_ref;
|}.

End Reference.

(** ** The fixture of tests.py

    2030-01-01, Alice busy 09:30-10:30 and 13:00-13:30, Bob busy 10:00-11:00
    and 15:30-17:00, one 60-minute template with both interviewers. *)

Module Fixture.

Definition block (start end_ : string) : gmap string pyval :=
  {[ "start"%string := PyStr start; "end"%string := PyStr end_ ]}.

Definition alice : person :=
  mkperson 1 (Some "Alice"%string)
    (Some [block "2030-01-01T09:30:00Z" "2030-01-01T10:30:00Z";
           block "2030-01-01T13:00:00Z" "2030-01-01T13:30:00Z"]).

Definition bob : person :=
  mkperson 2 (Some "Bob"%string)
    (Some [block "2030-01-01T10:00:00Z" "2030-01-01T11:00:00Z";
           block "2030-01-01T15:30:00Z" "2030-01-01T17:00:00Z"]).

(** A is busy 10:00-11:00 and B 11:00-12:00. *)
Definition touching : list person :=
  [mkperson 1 (Some "A"%string)
     (Some [block "2030-01-01T10:00:00Z" "2030-01-01T11:00:00Z"]);
   mkperson 2 (Some "B"%string)
     (Some [block "2030-01-01T11:00:00Z" "2030-01-01T12:00:00Z"])].

(** The same blocks under the legacy keys. *)
Definition legacy_block (start end_ : string) : gmap string pyval :=
  {[ "startTime"%string := PyStr start; "endTime"%string := PyStr end_ ]}.

Definition touching_legacy : list person :=
  [mkperson 1 (Some "A"%string)
     (Some [legacy_block "2030-01-01T10:00:00Z" "2030-01-01T11:00:00Z"]);
   mkperson 2 (Some "B"%string)
     (Some [legacy_block "2030-01-01T11:00:00Z" "2030-01-01T12:00:00Z"])].

Definition tech_interview : InterviewTemplate :=
  mktemplate 1 "Tech Interview" 60 [1; 2].

(** 2030-01-01 is day 741077 after 0001-01-01. *)
Definition day_2030_01_01 : Z := 741077.

Definition the_world : world :=
  mkworld {[ 1 := tech_interview ]}
          (wall (at_time (day_2030_01_01 - 30) 8 15 42 123456))
          (λ _, [alice; bob]).

(** The same template with nobody busy, as in the 24-hour test. *)
Definition free_world : world :=
  mkworld {[ 1 := tech_interview ]}
          (wall (at_time (day_2030_01_01 - 30) 8 15 42 123456))
          (λ _, [mkperson 1 (Some "Alice"%string) (Some []);
                 mkperson 2 (Some "Bob"%string) (Some [])]).

(** [start = now + 1h], [end = now + 3d], hours 0-23. *)
Definition request_too_early : query_params :=
  mkquery (Some (at_time (day_2030_01_01 - 30) 9 15 42 123456))
          (Some (at_time (day_2030_01_01 - 27) 8 15 42 123456))
          (Some 0) (Some 23).

(** Only [start_hour=18]: the default end hour 17 is not after it. *)
Definition request_late_start_hour : query_params :=
  mkquery None None (Some 18) None.

(** A provider whose answer holds a start value that is no ISO-8601
    string. *)
Definition broken_world : world :=
  mkworld {[ 1 := tech_interview ]}
          (wall (at_time (day_2030_01_01 - 30) 8 15 42 123456))
          (λ _, [mkperson 1 (Some "Alice"%string)
                   (Some [block "tomorrow" "2030-01-01T10:00:00Z"])]).

(** [start=2030-01-02T10:00:00Z&end=2030-01-01T10:00:00Z] *)
Definition request_end_before_start : query_params :=
  mkquery (Some (at_time (day_2030_01_01 + 1) 10 0 0 0))
          (Some (at_time day_2030_01_01 10 0 0 0)) None None.

(** Only [end] is sent, twelve hours from now. *)
Definition request_lone_end : query_params :=
  mkquery None (Some (at_time (day_2030_01_01 - 30) 20 15 42 123456)) None None.

(** One schedule with a block that ends before it starts, a block with no
    [end] and a start that is no ISO-8601 string, and a valid block. *)
Definition with_malformed : list person :=
  [mkperson 1 (Some "A"%string)
     (Some [block "2030-01-01T12:00:00Z" "2030-01-01T11:00:00Z";
            {[ "start"%string := PyStr "tomorrow" ]};
            block "2030-01-01T10:00:00Z" "2030-01-01T11:00:00Z"])].

Definition request_day (start_hour end_hour : Z) : query_params :=
  mkquery (Some (at_time day_2030_01_01 9 0 0 0))
          (Some (at_time day_2030_01_01 17 0 0 0))
          (Some start_hour) (Some end_hour).

End Fixture.

(** ** services/mock_availability.py

    The provider draws from two generators: the [random] module and
    Faker's own.  Each is read in order; the state is the position in
    both. *)

Module mock_availability.

Record rng_state := mkrng { random_pos : nat; faker_pos : nat }.

Definition rand (A : Type) : Type := rng_state → result A * rng_state.

#[global] Instance rand_ret : MRet rand := λ A a st, (Ok a, st).
#[global] Instance rand_bind : MBind rand := λ A B f m st,
  match m st with
  | (Ok a, st') => f a st'
  | (Raise e, st') => (Raise e, st')
  end.

Definition lift_result {A} (r : result A) : rand A := λ st, (r, st).

(** [date + timedelta(days=n)] on dates as day numbers (0 is 0001-01-01):
    OverflowError from the timedelta constructor or from the sum. *)
Definition date_add (date n : Z) : result Z :=
  let d := date + n in
  if (Z.abs n <=? 999999999) && (0 <=? d) && (d <? 3652059)
  then Ok d else Raise OverflowError.

(** [datetime.combine(date, time(hour, minute))]: a naive datetime, held as
    its wall clock. *)
Definition combine (date hour minute : Z) : result Z :=
  if (0 <=? hour) && (hour <=? 23) && (0 <=? minute) && (minute <=? 59)
  then Ok (date * US_PER_DAY + hour * US_PER_HOUR + minute * US_PER_MINUTE)
  else Raise ValueError.

(** [dt + td] on naive datetimes. *)
Definition naive_add (dt : Z) (td : timedelta) : result Z :=
  if in_range (dt + td) then Ok (dt + td) else Raise OverflowError.

(** [x["start"]], the sort key; every block the generator builds has a
    string there. *)
Definition start_key (block : gmap string pyval) : string :=
  match block !! "start"%string with
  | Some (PyStr s) => s
  | _ => EmptyString
  end.

(** [busy_blocks.sort(key=...)]: stable, ascending in the order of [str]. *)
Fixpoint insert_block (x : gmap string pyval) (l : list (gmap string pyval))
    : list (gmap string pyval) :=
  match l with
  | [] => [x]
  | y :: l' =>
      if String.ltb (start_key y) (start_key x) then y :: insert_block x l'
      else x :: l
  end.

Definition sort_blocks (l : list (gmap string pyval)) : list (gmap string pyval) :=
  foldr insert_block [] l.

Section Generators.

(** [raw n] picks the outcome of call number [n] to the [random] module
    among the values the call may return; [fake_names n] is the [n]-th name
    Faker hands out; [isoformat_naive] is [isoformat] on a naive datetime. *)
Variable raw : nat → nat.
Variable fake_names : nat → string.
Variable isoformat_naive : Z → string.

(** [random.randint(a, b)]: ValueError on an empty range. *)
Definition randint (a b : Z) : rand Z := λ st,
  if b <? a then (Raise ValueError, st)
  else (Ok (a + Z.of_nat (raw (random_pos st)) `mod` (b - a + 1)),
        mkrng (S (random_pos st)) (faker_pos st)).

(** [random.choice(seq)] on a sequence that is not empty. *)
Definition choice (seq : list Z) : rand Z := λ st,
  (Ok (nth (Nat.modulo (raw (random_pos st)) (length seq)) seq 0),
   mkrng (S (random_pos st)) (faker_pos st)).

(** [fake.name()] *)
Definition fake_name : rand string := λ st,
  (Ok (fake_names (faker_pos st)), mkrng (random_pos st) (S (faker_pos st))).

Definition busy_block (start_dt end_dt : Z) : gmap string pyval :=
  {[ "start"%string := PyStr (isoformat_naive start_dt ++ "Z");
     "end"%string := PyStr (isoformat_naive end_dt ++ "Z") ]}.

(** Body of [for _ in range(random.randint(3, 6))], [n] iterations to go. *)
Fixpoint generate_loop (n : nat) (start_date days : Z)
    (busy_blocks : list (gmap string pyval))
    : rand (list (gmap string pyval)) :=
  match n with
  | O => mret busy_blocks
  | S n =>
      day_offset ← randint 0 (days - 1);
      date ← lift_result (date_add start_date day_offset);
      start_hour ← randint 9 (17 - 1);
      start_minute ← choice [0; 5; 10; 15; 20; 25; 30; 35; 40; 45; 50; 55];
      increments ← randint 6 30;
      let duration_minutes := increments * 5 in
      start_dt ← lift_result (combine date start_hour start_minute);
      duration ← lift_result (timedelta_of_minutes duration_minutes);
      end_dt ← lift_result (naive_add start_dt duration);
      max_end_time ← lift_result (combine date 17 0);
      let end_dt := if max_end_time <? end_dt then max_end_time else end_dt in
      let busy_blocks := sort_blocks (busy_blocks ++ [busy_block start_dt end_dt]) in
      generate_loop n start_date days busy_blocks
  end.

(** [generate_busy_blocks] *)
Definition generate_busy_blocks (start_date days : Z)
    : rand (list (gmap string pyval)) :=
  n ← randint 3 6;
  generate_loop (Z.to_nat n) start_date days [].

(** [for id_ in interviewer_ids], with [data] the list built so far. *)
Fixpoint get_free_busy_data_from (interviewer_ids : list Z) (start_date : Z)
    (data : list person) : rand (list person) :=
  match interviewer_ids with
  | [] => mret data
  | id_ :: rest =>
      name ← fake_name;
      busy ← generate_busy_blocks start_date 7;
      get_free_busy_data_from rest start_date
        (data ++ [mkperson id_ (Some name) (Some busy)])
  end.

(** [get_free_busy_data]; [today] is [datetime.utcnow().date()]. *)
Definition get_free_busy_data (today : Z) (interviewer_ids : list Z)
    : rand (list person) :=
  get_free_busy_data_from interviewer_ids today [].

End Generators.

End mock_availability.

(** * Specification vocabulary *)

(** The least multiple of 30 minutes that is not below [u]. *)
Definition half_hour_ceiling (u : Z) : Z :=
  ((u + HALF_HOUR - 1) `div` HALF_HOUR) * HALF_HOUR.

(** The UTC calendar date of an instant, as a day number. *)
Definition utc_date (u : Z) : Z := u `div` US_PER_DAY.

(** [date @ hour:00] *)
Definition date_at_hour (date hour : Z) : Z := date * US_PER_DAY + hour * US_PER_HOUR.

(** Half-open intervals [[a,b)] and [[c,d)] overlap. *)
Definition overlaps (a b c d : Z) : Prop := Z.max a c < Z.min b d.

(** The instant [x] lies in the window [w]. *)
Definition in_window (x : Z) (w : datetime * datetime) : Prop :=
  utc w.1 <= x < utc w.2.

(** Running total the sweep holds once every event at or before [x] is
    applied. *)
Fixpoint delta_count (events : list event) (x : Z) : Z :=
  match events with
  | [] => 0
  | (t, d) :: rest => (if utc t <=? x then d else 0) + delta_count rest x
  end.

(** The two events the merger emits per clipped interval. *)
Definition events_of_intervals (ivs : list (datetime * datetime)) : list event :=
  flat_map (λ iv, [(iv.1, 1); (iv.2, -1)]) ivs.

(** Events in time order. *)
Definition time_le (a b : event) : Prop := utc a.1 <= utc b.1.

(** Events in the order of the sort key: by time, then by delta. *)
Definition key_le (a b : event) : Prop := key_ltb b a = false.

(** Instant of the last event, [prev] when there is none. *)
Definition last_time (prev : Z) (events : list event) : Z :=
  match last events with
  | Some e => utc e.1
  | None => prev
  end.

(** Windows in ascending order from [lo] on: each is non-empty and starts
    no earlier than [lo] and than the end of the one before. *)
Fixpoint windows_from (lo : Z) (ws : list (datetime * datetime)) : Prop :=
  match ws with
  | [] => True
  | w :: ws' => lo <= utc w.1 ∧ utc w.1 < utc w.2 ∧ windows_from (utc w.2) ws'
  end.


Section Vocabulary.
Context `{PyStdlib}.

(** [block] holds the valid busy interval [[a,b)]: both raw values are
    truthy, parse, and [a < b]. *)
Definition block_interval (block : gmap string pyval) (a b : datetime) : Prop :=
  truthy (raw_start_of block) = true ∧ truthy (raw_end_of block) = true
  ∧ parse_iso8601 (raw_start_of block) = Ok a
  ∧ parse_iso8601 (raw_end_of block) = Ok b
  ∧ utc a < utc b.

(** [[a,b)] is a valid busy interval of [p]. *)
Definition busy_interval_of (p : person) (a b : datetime) : Prop :=
  ∃ block, block ∈ default [] (busy p) ∧ block_interval block a b.

(** The input contract of the merger: a block that carries both values
    carries ISO-8601 strings. *)
Definition parseable_block (block : gmap string pyval) : Prop :=
  truthy (raw_start_of block) = true → truthy (raw_end_of block) = true →
  ∃ a b, parse_iso8601 (raw_start_of block) = Ok a
         ∧ parse_iso8601 (raw_end_of block) = Ok b.

Definition parseable (busy_schedules : list person) : Prop :=
  Forall (λ p, Forall parseable_block (default [] (busy p))) busy_schedules.

(** A block the merger drops: a value is missing, or both parse and
    [start >= end]. *)
Definition is_malformed (block : gmap string pyval) : bool :=
  negb (truthy (raw_start_of block)) || negb (truthy (raw_end_of block))
  || match parse_iso8601 (raw_start_of block), parse_iso8601 (raw_end_of block) with
     | Ok a, Ok b => dt_leb b a
     | _, _ => false
     end.

(** The schedules with every malformed block taken out. *)
Definition without_malformed (busy_schedules : list person) : list person :=
  (λ p, mkperson (interviewerId p) (name p)
          (filter (λ block, is_malformed block = false) <$> busy p))
  <$> busy_schedules.

(** A slot and the two strings the view emits for it. *)
Definition rendered (slot : datetime * datetime) (out : string * string) : Prop :=
  to_iso8601_utc slot.1 = Ok out.1 ∧ to_iso8601_utc slot.2 = Ok out.2.

End Vocabulary.



(** Search window and workday hours after the defaults of the view, as
    instants: [start or now + 24h], [end or start + 7 days], 9 and 17. *)
Definition resolved_search_start (request : query_params) (now : Z) : Z :=
  match q_start request with
  | Some start => utc start
  | None => now + timedelta_hours 24
  end.

Definition resolved_search_end (request : query_params) (now : Z) : Z :=
  match q_end request with
  | Some end_ => utc end_
  | None => resolved_search_start request now + timedelta_days 7
  end.

Definition resolved_start_hour (request : query_params) : Z :=
  default 9 (q_start_hour request).

Definition resolved_end_hour (request : query_params) : Z :=
  default 17 (q_end_hour request).

(** The InvalidRange condition. *)
Definition invalid_range (request : query_params) (now : Z) : Prop :=
  resolved_search_end request now <= resolved_search_start request now
  ∨ resolved_end_hour request <= resolved_start_hour request.

(** ** Vocabulary of the further properties *)

(** The windows as pairs of instants. *)
Definition window_instants (ws : list (datetime * datetime)) : list (Z * Z) :=
  (λ w, (utc w.1, utc w.2)) <$> ws.

(** The workday test of a slot [[s, e)] on instants: [s]'s UTC date at the
    start hour is not after [s], and [e] is not after that date at the end
    hour. *)
Definition workday_ok (workday_start_hour workday_end_hour s e : Z) : Prop :=
  date_at_hour (utc_date s) workday_start_hour <= s
  ∧ e <= date_at_hour (utc_date s) workday_end_hour.

(** The instant [x] lies in one of the windows. *)
Definition covered (ws : list (datetime * datetime)) (x : Z) : Prop :=
  ∃ w, w ∈ ws ∧ in_window x w.

(** Non-empty windows in ascending order with an instant between any two. *)
Definition separated_windows (ws : list (datetime * datetime)) : Prop :=
  Forall (λ w, utc w.1 < utc w.2) ws
  ∧ StronglySorted (λ w1 w2 : datetime * datetime, utc w1.2 < utc w2.1) ws.

(** The name the provider's answer gives for interviewer [i]: that of the
    last entry with this id, [Unknown] when the entry has no name or there
    is no entry. *)
Definition provider_name (busy_schedules : list person) (i : Z) : string :=
  match last (filter (λ q, interviewerId q = i) busy_schedules) with
  | Some q => default "Unknown"%string (name q)
  | None => "Unknown"%string
  end.

(** The four calls of a run that reaches the schedule provider. *)
Definition full_call_log (id : Z) (template : InterviewTemplate) : list call :=
  [TemplateGet id; ClockNow; InterviewersAll id;
   GetFreeBusyData (template_interviewers template)].

(** The string holds the character [c]. *)
Fixpoint str_contains_char (c : ascii) (s : string) : bool :=
  match s with
  | EmptyString => false
  | String c' s' => Ascii.eqb c c' || str_contains_char c s'
  end.

(** A block as the mock provider builds it: the two strings of a naive
    start and end on one of the [days] days from [start_date], both on the
    five-minute grid, with 09:00 <= start < end <= 17:00 and at most two and
    a half hours apart. *)
Definition mock_block (isoformat_naive : Z → string) (start_date days : Z)
    (block : gmap string pyval) : Prop :=
  ∃ date start_dt end_dt,
    block = mock_availability.busy_block isoformat_naive start_dt end_dt
    ∧ start_date <= date < start_date + days
    ∧ date * US_PER_DAY + 9 * US_PER_HOUR <= start_dt
    ∧ start_dt < end_dt
    ∧ end_dt <= date * US_PER_DAY + 17 * US_PER_HOUR
    ∧ start_dt `mod` (5 * US_PER_MINUTE) = 0
    ∧ end_dt `mod` (5 * US_PER_MINUTE) = 0
    ∧ end_dt - start_dt <= 150 * US_PER_MINUTE.

(** Blocks in the order of their start strings. *)
Definition start_key_le (a b : gmap string pyval) : Prop :=
  String.leb (mock_availability.start_key a) (mock_availability.start_key b) = true.

(** The datetime arithmetic of the request stays inside what Python can
    hold: the template's duration as a timedelta, [now + 24h], and the two
    ends of the search window after defaults. *)
Definition arithmetic_in_range (w : world) (request : query_params) (id : Z)
    : Prop :=
  (∀ template, templates w !! id = Some template →
     -999999999 * US_PER_DAY <= timedelta_minutes (template_duration template)
     < 1000000000 * US_PER_DAY)
  ∧ 0 <= clock w + timedelta_hours 24 < MAX_WALL
  ∧ 0 <= resolved_search_start request (clock w) < MAX_WALL
  ∧ 0 <= resolved_search_end request (clock w) < MAX_WALL.



Section MoreVocabulary.
Context `{PyStdlib}.

(** Somebody is busy at the instant [x]: a valid busy interval of one of
    the schedules holds it. *)
Definition busy_at (busy_schedules : list person) (x : Z) : Prop :=
  ∃ p a b, p ∈ busy_schedules ∧ busy_interval_of p a b ∧ utc a <= x < utc b.

(** The block carries a start and an end value. *)
Definition has_both_values (block : gmap string pyval) : Prop :=
  truthy (raw_start_of block) = true ∧ truthy (raw_end_of block) = true.

#[global] Instance has_both_values_dec block : Decision (has_both_values block).
Proof. unfold has_both_values. apply _. Defined.

End MoreVocabulary.

(** * Properties *)

Example ceil_docstring_1 :
  ceil_to_half_hour_boundary (at_time 741000 12 0 0 0) = Ok (at_time 741000 12 0 0 0).
Proof. vm_compute. reflexivity. Qed.
Example ceil_docstring_2 :
  ceil_to_half_hour_boundary (at_time 741000 12 0 1 0) = Ok (at_time 741000 12 30 0 0).
Proof. vm_compute. reflexivity. Qed.
Example ceil_docstring_3 :
  ceil_to_half_hour_boundary (at_time 741000 12 30 0 0) = Ok (at_time 741000 12 30 0 0).
Proof. vm_compute. reflexivity. Qed.
Example ceil_docstring_4 :
  ceil_to_half_hour_boundary (at_time 741000 12 30 1 0) = Ok (at_time 741000 13 0 0 0).
Proof. vm_compute. reflexivity. Qed.

(** ** Arithmetic of the half-hour ceiling *)

Ltac unfold_units :=
  unfold HALF_HOUR, timedelta_minutes, timedelta_hours, timedelta_days,
    MAX_WALL, US_PER_DAY, US_PER_HOUR, US_PER_MINUTE, US_PER_SECOND in *.

Ltac bool_to_Prop :=
  repeat match goal with
  | H : _ && _ = true |- _ => apply andb_true_iff in H; destruct H
  | H : _ && _ = false |- _ => apply andb_false_iff in H
  | H : _ || _ = true |- _ => apply orb_true_iff in H
  | H : _ || _ = false |- _ => apply orb_false_iff in H; destruct H
  | H : negb _ = true |- _ => apply negb_true_iff in H
  | H : negb _ = false |- _ => apply negb_false_iff in H
  | H : (_ <=? _) = true |- _ => apply Z.leb_le in H
  | H : (_ <=? _) = false |- _ => apply Z.leb_gt in H
  | H : (_ <? _) = true |- _ => apply Z.ltb_lt in H
  | H : (_ <? _) = false |- _ => apply Z.ltb_ge in H
  | H : (_ =? _) = true |- _ => apply Z.eqb_eq in H
  | H : (_ =? _) = false |- _ => apply Z.eqb_neq in H
  end.

Lemma utc_mkdatetime_0 w : utc (mkdatetime w 0) = w.
Proof. unfold utc. cbn. lia. Qed.

(** A UTC datetime Python can hold is its own [astimezone(timezone.utc)]. *)
Lemma astimezone_utc_valid d :
  valid_datetime d → utcoffset d = 0 → astimezone_utc d = Ok d.
Proof.
  intros [Hw _] Ho. unfold astimezone_utc, in_range, utc. rewrite Ho, Z.sub_0_r.
  destruct (0 <=? wall d) eqn:?, (wall d <? MAX_WALL) eqn:?; bool_to_Prop; try lia.
  cbn. destruct d; cbn in *; by subst.
Qed.

Lemma half_hour_ceiling_ge u : u <= half_hour_ceiling u.
Proof. unfold half_hour_ceiling. unfold_units. Z.div_mod_to_equations. lia. Qed.

Lemma half_hour_ceiling_lt u : half_hour_ceiling u < u + HALF_HOUR.
Proof. unfold half_hour_ceiling. unfold_units. Z.div_mod_to_equations. lia. Qed.

Lemma half_hour_ceiling_mod u : half_hour_ceiling u `mod` HALF_HOUR = 0.
Proof. unfold half_hour_ceiling. apply Z.mod_mul. unfold_units. lia. Qed.

Lemma half_hour_ceiling_fixed u :
  u `mod` HALF_HOUR = 0 → half_hour_ceiling u = u.
Proof.
  unfold half_hour_ceiling. unfold_units. intros. Z.div_mod_to_equations. lia.
Qed.

Lemma half_hour_ceiling_idem u :
  half_hour_ceiling (half_hour_ceiling u) = half_hour_ceiling u.
Proof. apply half_hour_ceiling_fixed, half_hour_ceiling_mod. Qed.

Lemma half_hour_ceiling_mono u v :
  u <= v → half_hour_ceiling u <= half_hour_ceiling v.
Proof.
  unfold half_hour_ceiling. unfold_units. intros.
  apply Z.mul_le_mono_nonneg_r; [lia|].
  apply Z.div_le_mono; lia.
Qed.

(** Closed form of [ceil_to_half_hour_boundary]: it raises exactly when the
    instant, or the boundary above it, leaves the range of [datetime]. *)
Lemma ceil_to_half_hour_boundary_eq dt :
  ceil_to_half_hour_boundary dt =
    if in_range (utc dt) && (half_hour_ceiling (utc dt) <? MAX_WALL)
    then Ok (mkdatetime (half_hour_ceiling (utc dt)) 0)
    else Raise OverflowError.
Proof.
  unfold ceil_to_half_hour_boundary, astimezone_utc.
  destruct (in_range (utc dt)) eqn:Hr; [|reflexivity].
  cbn [mbind result_bind andb].
  generalize dependent (utc dt). intros u Hr.
  unfold in_range in Hr. bool_to_Prop.
  unfold dt_second, dt_microsecond, dt_minute, replace_second_microsecond,
    dt_add, truthy_int, in_range, half_hour_ceiling; cbn [wall utcoffset].
  unfold_units.
  repeat (match goal with
          | |- context [if ?b then _ else _] => destruct b eqn:?
          end; cbn [mbind result_bind wall utcoffset]);
    bool_to_Prop; try reflexivity;
    try (f_equal; f_equal; Z.div_mod_to_equations; lia);
    exfalso; Z.div_mod_to_equations; lia.
Qed.

Lemma ceil_ok dt r :
  ceil_to_half_hour_boundary dt = Ok r →
  wall r = half_hour_ceiling (utc dt) ∧ utcoffset r = 0
  ∧ 0 <= utc dt ∧ wall r < MAX_WALL.
Proof.
  rewrite ceil_to_half_hour_boundary_eq.
  destruct (in_range (utc dt) && (half_hour_ceiling (utc dt) <? MAX_WALL)) eqn:E;
    [|discriminate].
  intros [= <-]. unfold in_range in E. bool_to_Prop. cbn. lia.
Qed.

Lemma ceil_utc dt r :
  ceil_to_half_hour_boundary dt = Ok r → utc r = half_hour_ceiling (utc dt).
Proof. intros Hc. apply ceil_ok in Hc. unfold utc at 1. lia. Qed.

Lemma ceil_raises dt e :
  ceil_to_half_hour_boundary dt = Raise e →
  e = OverflowError ∧ ¬ (0 <= utc dt <= MAX_WALL - HALF_HOUR).
Proof.
  rewrite ceil_to_half_hour_boundary_eq.
  destruct (in_range (utc dt) && (half_hour_ceiling (utc dt) <? MAX_WALL)) eqn:E;
    [discriminate|].
  intros [= <-]. split; [reflexivity|].
  pose proof (half_hour_ceiling_lt (utc dt)).
  unfold in_range in E. bool_to_Prop. intros ?.
  destruct E as [E|E]; bool_to_Prop; [destruct E; bool_to_Prop|];
    unfold_units; lia.
Qed.

(** C9. Idempotent ceiling: whenever [ceil_to_half_hour_boundary x] returns
    [y], applying it to [y] returns [y] again; it fails to return only with
    OverflowError, for an instant outside year 1..9999 or in the last half
    hour of year 9999. *)
Theorem ceil_idempotent (x : datetime) :
  match ceil_to_half_hour_boundary x with
  | Ok y => ceil_to_half_hour_boundary y = Ok y
  | Raise e => e = OverflowError ∧ ¬ (0 <= utc x <= MAX_WALL - HALF_HOUR)
  end.
Proof.
  destruct (ceil_to_half_hour_boundary x) as [y|e] eqn:Hc.
  - pose proof (ceil_ok _ _ Hc) as (Hw & Ho & H0 & Hm).
    pose proof (half_hour_ceiling_ge (utc x)).
    rewrite ceil_to_half_hour_boundary_eq.
    assert (utc y = wall y) as -> by (unfold utc; lia).
    rewrite Hw, half_hour_ceiling_idem, <- Hw.
    unfold in_range.
    destruct (0 <=? wall y) eqn:?, (wall y <? MAX_WALL) eqn:?; bool_to_Prop; try lia.
    cbn. destruct y; cbn in *; congruence.
  - by apply ceil_raises.
Qed.

(** C4. Ceiling residue rule: a UTC instant exactly on a :00/:30 boundary
    is returned unchanged; one whose minute is on a boundary but which
    carries seconds or microseconds moves to the next boundary, 30 minutes
    after its minute; on any day 12:00:00.000 gives 12:00, 12:00:00.001
    gives 12:30 and 12:30:00.001 gives 13:00. *)
Theorem ceil_residue_rule :
  (∀ dt, utcoffset dt = 0 → 0 <= wall dt < MAX_WALL →
         dt_minute dt `mod` 30 = 0 → dt_second dt = 0 → dt_microsecond dt = 0 →
         ceil_to_half_hour_boundary dt = Ok dt)
  ∧ (∀ dt, utcoffset dt = 0 → 0 <= wall dt < MAX_WALL →
           dt_minute dt `mod` 30 = 0 →
           dt_second dt ≠ 0 ∨ dt_microsecond dt ≠ 0 →
           ceil_to_half_hour_boundary dt
           = dt_add (replace_second_microsecond dt) HALF_HOUR)
  ∧ (∀ day, 0 <= day < 3652059 →
            ceil_to_half_hour_boundary (at_time day 12 0 0 0)
            = Ok (at_time day 12 0 0 0)
            ∧ ceil_to_half_hour_boundary (at_time day 12 0 0 1000)
              = Ok (at_time day 12 30 0 0)
            ∧ ceil_to_half_hour_boundary (at_time day 12 30 0 1000)
              = Ok (at_time day 13 0 0 0)).
Proof.
  split; [|split].
  - intros [w o] Ho Hw Hm Hs Hu. cbn in *. subst o.
    rewrite ceil_to_half_hour_boundary_eq.
    unfold utc, in_range, dt_minute, dt_second, dt_microsecond, half_hour_ceiling in *.
    cbn in *. unfold_units. rewrite Z.sub_0_r.
    assert (((w + 30 * (60 * 1000000) - 1) `div` (30 * (60 * 1000000)))
            * (30 * (60 * 1000000)) = w) as -> by (Z.div_mod_to_equations; lia).
    destruct (0 <=? w) eqn:?, (w <? 3652059 * (24 * (60 * (60 * 1000000)))) eqn:?;
      bool_to_Prop; try lia. reflexivity.
  - intros [w o] Ho Hw Hm Hres. cbn in *. subst o.
    rewrite ceil_to_half_hour_boundary_eq.
    unfold utc, in_range, dt_minute, dt_second, dt_microsecond, half_hour_ceiling,
      dt_add, replace_second_microsecond, in_range in *.
    cbn in *. unfold_units. rewrite Z.sub_0_r.
    assert (((w + 30 * (60 * 1000000) - 1) `div` (30 * (60 * 1000000)))
            * (30 * (60 * 1000000))
            = w - w `mod` (60 * 1000000) + 30 * (60 * 1000000)) as ->
      by (Z.div_mod_to_equations; lia).
    destruct (0 <=? w) eqn:?; bool_to_Prop; [|lia].
    destruct (w <? 3652059 * (24 * (60 * (60 * 1000000)))) eqn:?; bool_to_Prop; [|lia].
    destruct (0 <=? w - w `mod` (60 * 1000000) + 30 * (60 * 1000000)) eqn:?;
      bool_to_Prop; [|Z.div_mod_to_equations; lia].
    reflexivity.
  - intros day Hday. rewrite !ceil_to_half_hour_boundary_eq.
    unfold at_time, utc, in_range, half_hour_ceiling. cbn [wall utcoffset].
    unfold_units.
    repeat split;
      (match goal with |- context [if ?b then _ else _] => destruct b eqn:Hb end;
       bool_to_Prop;
       [ f_equal; f_equal; Z.div_mod_to_equations; lia
       | exfalso; destruct Hb as [Hb|Hb]; bool_to_Prop;
         [destruct Hb; bool_to_Prop|]; Z.div_mod_to_equations; lia ]).
Qed.

(** The rule at the three instants of the claim, on 2030-01-01. *)
Lemma ceil_residue_rule_witness :
  ceil_to_half_hour_boundary (at_time 741077 12 0 0 0) = Ok (at_time 741077 12 0 0 0)
  ∧ ceil_to_half_hour_boundary (at_time 741077 12 0 0 1000)
    = dt_add (replace_second_microsecond (at_time 741077 12 0 0 1000)) HALF_HOUR
  ∧ ceil_to_half_hour_boundary (at_time 741077 12 30 0 1000)
    = Ok (at_time 741077 13 0 0 0).
Proof.
  destruct ceil_residue_rule as (Hexact & Hresidue & Hday).
  split; [|split].
  - apply (Hexact (at_time 741077 12 0 0 0));
      [reflexivity | unfold at_time; cbn; unfold_units; lia
      | reflexivity | reflexivity | reflexivity].
  - apply (Hresidue (at_time 741077 12 0 0 1000));
      [reflexivity | unfold at_time; cbn; unfold_units; lia | reflexivity |].
    right. vm_compute. lia.
  - apply (Hday 741077). lia.
Defined.

(** C6. Workday containment: with hours in 0..23 (others make [replace]
    raise ValueError) the test returns true exactly when
    [dayOpen <= s] and [e <= dayClose], both taken on [s]'s UTC date; a slot
    ending exactly at [dayClose] passes and one ending on a later date
    fails. *)
Theorem workday_containment (s e : datetime) (workday_start_hour workday_end_hour : Z) :
  in_range (utc s) = true → in_range (utc e) = true →
  0 <= workday_start_hour <= 23 → 0 <= workday_end_hour <= 23 →
  let day_open := date_at_hour (utc_date (utc s)) workday_start_hour in
  let day_close := date_at_hour (utc_date (utc s)) workday_end_hour in
  ∃ within : bool,
    is_within_workday_utc s e workday_start_hour workday_end_hour = Ok within
    ∧ (within = true ↔ day_open <= utc s ∧ utc e <= day_close)
    ∧ (day_open <= utc s → utc e = day_close → within = true)
    ∧ (utc_date (utc s) < utc_date (utc e) → within = false).
Proof.
  intros Hs He Hsh Heh day_open day_close.
  unfold is_within_workday_utc, astimezone_utc, replace_hour.
  rewrite Hs, He. cbn [mbind result_bind wall utcoffset].
  destruct (0 <=? workday_start_hour) eqn:?, (workday_start_hour <=? 23) eqn:?;
    bool_to_Prop; try lia.
  destruct (0 <=? workday_end_hour) eqn:?, (workday_end_hour <=? 23) eqn:?;
    bool_to_Prop; try lia.
  cbn [andb mbind result_bind].
  eexists. split; [reflexivity|].
  unfold dt_leb. rewrite !utc_mkdatetime_0.
  assert (utc s - utc s `mod` US_PER_DAY = utc_date (utc s) * US_PER_DAY) as Hd.
  { unfold utc_date. unfold_units. Z.div_mod_to_equations. lia. }
  rewrite Hd. fold (date_at_hour (utc_date (utc s)) workday_start_hour).
  fold (date_at_hour (utc_date (utc s)) workday_end_hour).
  fold day_open day_close.
  assert (∀ b, b = true ↔ day_open <= utc s ∧ utc e <= day_close →
               (day_open <= utc s → utc e = day_close → b = true)
               ∧ (utc_date (utc s) < utc_date (utc e) → b = false)) as Hb.
  { intros b Hiff. split.
    - intros. apply Hiff. lia.
    - intros Hlater. destruct b; [|reflexivity].
      destruct Hiff as [Hiff _]. specialize (Hiff eq_refl).
      exfalso. subst day_close. unfold date_at_hour, utc_date in *.
      unfold_units. Z.div_mod_to_equations. lia. }
  split; [|apply Hb];
    (rewrite andb_true_iff, !Z.leb_le; reflexivity).
Qed.

(** 2030-01-01, workday 9-17: the slot 16:00-17:00 passes. *)
Lemma workday_containment_witness :
  ∃ within : bool,
    is_within_workday_utc (at_time 741077 16 0 0 0) (at_time 741077 17 0 0 0) 9 17
    = Ok within
    ∧ (within = true ↔
       date_at_hour (utc_date (utc (at_time 741077 16 0 0 0))) 9
       <= utc (at_time 741077 16 0 0 0)
       ∧ utc (at_time 741077 17 0 0 0)
         <= date_at_hour (utc_date (utc (at_time 741077 16 0 0 0))) 17)
    ∧ (date_at_hour (utc_date (utc (at_time 741077 16 0 0 0))) 9
       <= utc (at_time 741077 16 0 0 0) →
       utc (at_time 741077 17 0 0 0)
       = date_at_hour (utc_date (utc (at_time 741077 16 0 0 0))) 17 →
       within = true)
    ∧ (utc_date (utc (at_time 741077 16 0 0 0))
       < utc_date (utc (at_time 741077 17 0 0 0)) → within = false).
Proof.
  apply (workday_containment (at_time 741077 16 0 0 0) (at_time 741077 17 0 0 0) 9 17);
    [reflexivity | reflexivity | lia | lia].
Defined.

(** ** The sort *)

Lemma insert_event_Permutation x l : insert_event x l ≡ₚ x :: l.
Proof.
  induction l as [|y l IH]; cbn; [done|].
  destruct (key_ltb y x); [|done].
  rewrite IH. apply perm_swap.
Qed.

Lemma sort_events_Permutation l : sort_events l ≡ₚ l.
Proof.
  induction l as [|x l IH]; cbn; [done|].
  fold (sort_events l). by rewrite insert_event_Permutation, IH.
Qed.

Lemma key_ltb_true a b : key_ltb a b = true → time_le a b.
Proof.
  unfold key_ltb, time_le. intros Hk. bool_to_Prop.
  destruct Hk as [Hk|Hk]; bool_to_Prop; lia.
Qed.

Lemma key_ltb_false a b : key_ltb a b = false → time_le b a.
Proof. unfold key_ltb, time_le. intros Hk. bool_to_Prop. lia. Qed.

Lemma insert_event_sorted x l :
  StronglySorted time_le l → StronglySorted time_le (insert_event x l).
Proof.
  induction 1 as [|y l Hl IH Hy]; cbn.
  - repeat constructor.
  - destruct (key_ltb y x) eqn:Hk.
    + constructor; [done|].
      rewrite insert_event_Permutation. constructor; [|done].
      by apply key_ltb_true.
    + apply key_ltb_false in Hk.
      constructor; [by constructor|].
      constructor; [done|].
      eapply Forall_impl; [exact Hy|]. unfold time_le in *. intros; lia.
Qed.

Lemma sort_events_sorted l : StronglySorted time_le (sort_events l).
Proof.
  induction l as [|x l IH]; cbn; [constructor|].
  by apply insert_event_sorted.
Qed.

Lemma key_le_trans a b c : key_le a b → key_le b c → key_le a c.
Proof.
  unfold key_le, key_ltb. intros Hab Hbc. bool_to_Prop.
  apply orb_false_iff. split; [apply Z.ltb_ge|apply andb_false_iff].
  - destruct H0 as [?|?], H2 as [?|?]; bool_to_Prop; lia.
  - destruct H0 as [?|?], H2 as [?|?]; bool_to_Prop;
      first [left; apply Z.eqb_neq; lia | right; apply Z.ltb_ge; lia].
Qed.

Lemma key_ltb_key_le a b : key_ltb a b = true → key_le a b.
Proof.
  unfold key_le, key_ltb. intros Hab. bool_to_Prop.
  apply orb_false_iff. split; [apply Z.ltb_ge|apply andb_false_iff];
    destruct Hab as [?|?]; bool_to_Prop;
    first [lia | left; apply Z.eqb_neq; lia | right; apply Z.ltb_ge; lia].
Qed.

(** The sort puts the events in key order: by time, and at one timestamp
    a decrease before a boundary marker before an increase. *)
Lemma sort_events_key_sorted l : StronglySorted key_le (sort_events l).
Proof.
  induction l as [|x l IH]; cbn; [constructor|]. fold (sort_events l).
  induction IH as [|y l' Hl IH Hy]; cbn.
  - repeat constructor.
  - destruct (key_ltb y x) eqn:Hk.
    + constructor; [done|].
      rewrite insert_event_Permutation. constructor; [|done].
      by apply key_ltb_key_le.
    + constructor; [by constructor|].
      constructor; [done|].
      eapply Forall_impl; [exact Hy|]. intros z Hz. by eapply key_le_trans.
Qed.

(** ** The sweep *)

Lemma delta_count_app l1 l2 x :
  delta_count (l1 ++ l2) x = delta_count l1 x + delta_count l2 x.
Proof. induction l1 as [|[t d] l1 IH]; cbn; lia. Qed.

Lemma delta_count_Permutation l1 l2 x :
  l1 ≡ₚ l2 → delta_count l1 x = delta_count l2 x.
Proof.
  induction 1 as [|[t d]|[t1 d1] [t2 d2]|]; cbn; lia.
Qed.

Lemma delta_count_before l x :
  Forall (λ e : event, x < utc e.1) l → delta_count l x = 0.
Proof.
  induction 1 as [|[t d] l Ht _ IH]; cbn in *; [done|].
  destruct (utc t <=? x) eqn:?; bool_to_Prop; lia.
Qed.

Lemma last_time_cons prev e l :
  last_time prev (e :: l) = last_time (utc e.1) l.
Proof.
  unfold last_time. destruct l as [|e' l]; [done|].
  rewrite last_cons_cons.
  destruct (last (e' :: l)) eqn:E; [done|]. by apply last_None in E.
Qed.

Lemma last_time_ge prev l :
  StronglySorted time_le l → Forall (λ e : event, prev <= utc e.1) l →
  prev <= last_time prev l.
Proof.
  intros Hs. revert prev.
  induction Hs as [|e l Hl IH He]; intros prev Hp.
  - unfold last_time. cbn. lia.
  - rewrite last_time_cons. inversion_clear Hp as [|?? Hpe Hpl].
    etrans; [exact Hpe|]. apply IH.
    eapply Forall_impl; [exact He|]. by unfold time_le.
Qed.

(** The inner loop consumes exactly the events at [t]. *)
Lemma sum_deltas_at_spec t l : ∀ delta_sum,
  StronglySorted time_le l → Forall (λ e : event, utc t <= utc e.1) l →
  ∃ s rest, sum_deltas_at t delta_sum l = (s, rest)
    ∧ StronglySorted time_le rest
    ∧ Forall (λ e : event, utc t < utc e.1) rest
    ∧ (length rest ≤ length l)%nat
    ∧ last_time (utc t) l = last_time (utc t) rest
    ∧ ∀ x, utc t <= x → delta_sum + delta_count l x = s + delta_count rest x.
Proof.
  induction l as [|[t' d] l IH]; intros delta_sum Hs Hge; cbn.
  - eexists _, _. split; [done|]. repeat split; try done; constructor.
  - inversion_clear Hs as [|?? Hl Hhd]. inversion_clear Hge as [|?? Ht' Hge'].
    cbn in Ht'. unfold dt_eqb. destruct (utc t' =? utc t) eqn:Heq; bool_to_Prop.
    + destruct (IH (delta_sum + d) Hl Hge') as (s & rest & -> & ? & ? & ? & Hlast & Hcnt).
      eexists _, _. split; [done|]. repeat split; try done.
      * lia.
      * rewrite last_time_cons. cbn. by rewrite Heq.
      * intros x Hx. rewrite <- Hcnt by done.
        destruct (utc t' <=? x) eqn:?; bool_to_Prop; lia.
    + eexists _, _. split; [done|]. repeat split; try done.
      * by constructor.
      * constructor; [cbn; lia|].
        eapply Forall_impl; [exact Hhd|]. unfold time_le. cbn. intros; lia.
Qed.

Lemma windows_from_weaken lo lo' ws :
  lo' <= lo → windows_from lo ws → windows_from lo' ws.
Proof. destruct ws; cbn; [done|]. intros ? (? & ? & ?). repeat split; [lia|done..]. Qed.

(** The sweep over time-ordered events no earlier than [prev_time]: it ends
    within its fuel and adds exactly the gaps between [prev_time] and the
    last event where the running count is zero. *)
Lemma sweep_spec fuel : ∀ events active_busy prev_time free_windows,
  StronglySorted time_le events →
  Forall (λ e : event, utc prev_time <= utc e.1) events →
  (length events ≤ fuel)%nat →
  ∃ ws, sweep fuel events active_busy prev_time free_windows
        = Some (free_windows ++ ws)
    ∧ windows_from (utc prev_time) ws
    ∧ ∀ x, (∃ w, w ∈ ws ∧ in_window x w) ↔
           (utc prev_time <= x < last_time (utc prev_time) events
            ∧ active_busy + delta_count events x = 0).
Proof.
  induction fuel as [|fuel IH]; intros events active prev fw Hs Hge Hlen.
  - destruct events; [|cbn in Hlen; lia].
    exists []. cbn. rewrite app_nil_r. split; [done|]. split; [done|].
    intros x. unfold last_time. cbn. split.
    + intros (w & Hw & _). by apply elem_of_nil in Hw.
    + lia.
  - destruct events as [|[t d] l].
    { exists []. cbn. rewrite app_nil_r. split; [done|]. split; [done|].
      intros x. unfold last_time. cbn. split.
      + intros (w & Hw & _). by apply elem_of_nil in Hw.
      + lia. }
    assert (Forall (λ e : event, utc t <= utc e.1) ((t, d) :: l)) as Hget.
    { constructor; [cbn; lia|]. inversion_clear Hs as [|?? _ Hhd].
      eapply Forall_impl; [exact Hhd|]. by unfold time_le. }
    inversion Hs as [|?? Hsl Hhd]; subst.
    inversion Hget as [|?? _ Hgetl]; subst.
    destruct (sum_deltas_at_spec t l (0 + d) Hsl Hgetl)
      as (s & rest & Hsum & Hrs & Hrgt & Hrlen & Hlast & Hcnt').
    assert (sum_deltas_at t 0 ((t, d) :: l) = (s, rest)) as Hsum'.
    { cbn. unfold dt_eqb. by rewrite Z.eqb_refl. }
    assert (∀ x, utc t <= x →
                 0 + delta_count ((t, d) :: l) x = s + delta_count rest x) as Hcnt.
    { intros x Hx. rewrite <- Hcnt' by done. cbn.
      destruct (utc t <=? x) eqn:?; bool_to_Prop; lia. }
    cbn [sweep]. rewrite Hsum'.
    assert (utc prev <= utc t) as Hpt by (by inversion_clear Hge).
    assert (∀ x, x < utc t → delta_count ((t, d) :: l) x = 0) as Hbefore.
    { intros x Hx. apply delta_count_before.
      eapply Forall_impl; [exact Hget|]. cbn. intros; lia. }
    assert (last_time (utc prev) ((t, d) :: l) = last_time (utc t) rest) as Hlt.
    { rewrite <- Hlast. by rewrite last_time_cons. }
    assert (utc t <= last_time (utc t) rest) as Htl.
    { apply last_time_ge; [done|]. eapply Forall_impl; [exact Hrgt|]. cbn; intros; lia. }
    set (fw' := if (active =? 0) && dt_ltb prev t then fw ++ [(prev, t)] else fw).
    destruct (IH rest (active + s) t fw' Hrs) as (ws & Hsw & Hwf & Hcov).
    { eapply Forall_impl; [exact Hrgt|]. cbn; intros; lia. }
    { cbn in Hlen. lia. }
    rewrite Hsw. subst fw'. unfold dt_ltb.
    destruct ((active =? 0) && (utc prev <? utc t)) eqn:Hgap; bool_to_Prop.
    + exists ((prev, t) :: ws). split; [by rewrite <- app_assoc|].
      split; [cbn; repeat split; [lia|done..]|].
      intros x. rewrite Hlt. split.
      * intros (w & Hw & Hx). apply elem_of_cons in Hw as [->|Hw].
        -- unfold in_window in Hx. cbn in Hx. rewrite Hbefore by lia. lia.
        -- destruct (proj1 (Hcov x)) as [Hr Hz]; [by eauto|].
           pose proof (Hcnt x ltac:(lia)). lia.
      * intros [Hr Hz]. destruct (decide (x < utc t)) as [Hx|Hx].
        -- exists (prev, t). split; [left|]. unfold in_window. cbn. lia.
        -- destruct (proj2 (Hcov x)) as (w & Hw & Hxw).
           { pose proof (Hcnt x ltac:(lia)). lia. }
           exists w. split; [by right|done].
    + exists ws. split; [done|].
      split; [by eapply windows_from_weaken|].
      intros x. rewrite Hlt. split.
      * intros (w & Hw & Hx). destruct (proj1 (Hcov x)) as [Hr Hz]; [by eauto|].
        pose proof (Hcnt x ltac:(lia)). lia.
      * intros [Hr Hz]. apply Hcov.
        destruct (decide (x < utc t)) as [Hx|Hx].
        -- exfalso. rewrite Hbefore in Hz by lia.
           destruct Hgap as [Hgap|Hgap]; bool_to_Prop; lia.
        -- pose proof (Hcnt x ltac:(lia)). lia.
Qed.

Lemma last_time_elem prev l e :
  StronglySorted time_le l → e ∈ l → utc e.1 <= last_time prev l.
Proof.
  intros Hs. revert prev. induction Hs as [|e' l Hl IH He]; intros prev Hin.
  - by apply elem_of_nil in Hin.
  - rewrite last_time_cons. apply elem_of_cons in Hin as [->|Hin].
    + apply last_time_ge; [done|]. eapply Forall_impl; [exact He|]. by unfold time_le.
    + by apply IH.
Qed.

Lemma last_time_in prev l :
  l ≠ [] → ∃ e, e ∈ l ∧ last_time prev l = utc e.1.
Proof.
  intros Hne. unfold last_time. destruct (last l) as [e|] eqn:Hl.
  - exists e. split; [|done]. by eapply last_Some_elem_of.
  - by apply last_None in Hl.
Qed.

Lemma windows_from_sorted lo ws :
  windows_from lo ws →
  Forall (λ w, lo <= utc w.1 ∧ utc w.1 < utc w.2) ws
  ∧ StronglySorted (λ w1 w2 : datetime * datetime, utc w1.2 <= utc w2.1) ws
  ∧ StronglySorted (λ w1 w2 : datetime * datetime, utc w1.1 < utc w2.1) ws.
Proof.
  revert lo. induction ws as [|w ws IH]; intros lo; cbn.
  - intros _. repeat split; constructor.
  - intros (Hlo & Hw & Hrest). destruct (IH _ Hrest) as (Hall & Hs1 & Hs2).
    repeat split.
    + constructor; [done|]. eapply Forall_impl; [exact Hall|]. cbn. intros; lia.
    + constructor; [done|]. eapply Forall_impl; [exact Hall|]. cbn. intros; lia.
    + constructor; [done|]. eapply Forall_impl; [exact Hall|]. cbn. intros; lia.
Qed.

(** The running count of the merger's events is the number of clipped
    intervals around [x]. *)
Lemma delta_count_intervals ivs x :
  Forall (λ iv : datetime * datetime, utc iv.1 < utc iv.2) ivs →
  0 <= delta_count (events_of_intervals ivs) x
  ∧ (delta_count (events_of_intervals ivs) x = 0 ↔
     ∀ iv, iv ∈ ivs → ¬ in_window x iv).
Proof.
  induction 1 as [|[s e] ivs Hiv _ IH]; cbn in *.
  - split; [lia|]. split; [|done]. intros _ iv Hin. by apply elem_of_nil in Hin.
  - fold (events_of_intervals ivs). destruct IH as [IH0 IHz].
    destruct (utc s <=? x) eqn:?, (utc e <=? x) eqn:?; bool_to_Prop;
      (split; [lia|]); split.
    all: try (intros Hz iv Hin; apply elem_of_cons in Hin as [->|Hin];
              [unfold in_window; cbn; lia | apply IHz; [lia|done]]).
    all: intros Hall;
      try (assert (delta_count (events_of_intervals ivs) x = 0) as ->
             by (apply IHz; intros iv Hin; apply Hall; by right); lia).
    exfalso. apply (Hall (s, e)); [left|]. unfold in_window. cbn. lia.
Qed.

Lemma utc_py_max a b : utc (py_max a b) = Z.max (utc a) (utc b).
Proof. unfold py_max, dt_ltb. destruct (utc a <? utc b) eqn:?; bool_to_Prop; lia. Qed.

Lemma utc_py_min a b : utc (py_min a b) = Z.min (utc a) (utc b).
Proof. unfold py_min, dt_ltb. destruct (utc b <? utc a) eqn:?; bool_to_Prop; lia. Qed.

Lemma intersect_half_open_interval_Some a b c d s e :
  intersect_half_open_interval a b c d = Some (s, e) →
  utc s = Z.max (utc a) (utc c) ∧ utc e = Z.min (utc b) (utc d) ∧ utc s < utc e.
Proof.
  unfold intersect_half_open_interval, dt_ltb.
  destruct (utc (py_max a c) <? utc (py_min b d)) eqn:Hlt; [|done].
  intros [= <- <-]. bool_to_Prop. by rewrite <- utc_py_max, <- utc_py_min.
Qed.

Lemma intersect_half_open_interval_None a b c d :
  intersect_half_open_interval a b c d = None →
  Z.min (utc b) (utc d) <= Z.max (utc a) (utc c).
Proof.
  unfold intersect_half_open_interval, dt_ltb.
  destruct (utc (py_max a c) <? utc (py_min b d)) eqn:Hlt; [done|].
  intros _. bool_to_Prop. by rewrite <- utc_py_max, <- utc_py_min.
Qed.

Section Merger.
Context `{PyStdlib}.

(** What the block loop appends: two events per valid busy interval that
    meets the search window, clipped to it. *)
Lemma collect_block_events_spec blocks search_start search_end : ∀ events,
  Forall parseable_block blocks →
  ∃ ivs,
    collect_block_events blocks search_start search_end events
    = Ok (events ++ events_of_intervals ivs)
    ∧ Forall (λ iv : datetime * datetime,
                (utc search_start <= utc iv.1 ∧ utc iv.1 < utc iv.2
                 ∧ utc iv.2 <= utc search_end)
                ∧ ∃ block a b, block ∈ blocks ∧ block_interval block a b) ivs
    ∧ ∀ x, utc search_start <= x < utc search_end →
           ((∃ iv, iv ∈ ivs ∧ in_window x iv) ↔
            ∃ block a b, block ∈ blocks ∧ block_interval block a b
                         ∧ utc a <= x < utc b).
Proof.
  induction blocks as [|block blocks IH]; intros events Hp.
  - exists []. cbn. rewrite app_nil_r. split; [done|]. split; [constructor|].
    intros x _. split.
    + intros (iv & Hin & _). by apply elem_of_nil in Hin.
    + intros (b & ? & ? & Hin & _). by apply elem_of_nil in Hin.
  - inversion_clear Hp as [|?? Hblock Hrest].
    assert (∀ ivs,
              Forall (λ iv : datetime * datetime,
                (utc search_start <= utc iv.1 ∧ utc iv.1 < utc iv.2
                 ∧ utc iv.2 <= utc search_end)
                ∧ ∃ block a b, block ∈ blocks ∧ block_interval block a b) ivs →
              Forall (λ iv : datetime * datetime,
                (utc search_start <= utc iv.1 ∧ utc iv.1 < utc iv.2
                 ∧ utc iv.2 <= utc search_end)
                ∧ ∃ block' a b, block' ∈ block :: blocks
                                ∧ block_interval block' a b) ivs) as Hmono.
    { intros ivs Hall. eapply Forall_impl; [exact Hall|].
      intros iv (? & b' & a & b & ? & ?). split; [done|].
      exists b', a, b. split; [by right|done]. }
    cbn [collect_block_events].
    destruct (negb (truthy (raw_start_of block)) || negb (truthy (raw_end_of block)))
      eqn:Hmissing.
    { (* a value is missing: the block is skipped *)
      destruct (IH events Hrest) as (ivs & -> & Hall & Hcov).
      exists ivs. split; [done|]. split; [by apply Hmono|].
      intros x Hx. rewrite (Hcov x Hx). split.
      - intros (b' & a & b & ? & ?). exists b', a, b. split; [by right|done].
      - intros (b' & a & b & Hin & Hiv & ?).
        apply elem_of_cons in Hin as [->|Hin]; [|by eauto 6].
        exfalso. destruct Hiv as (Hts & Hte & _). rewrite Hts, Hte in Hmissing.
        discriminate. }
    bool_to_Prop.
    destruct (Hblock) as (a & b & Ha & Hb); [done..|].
    rewrite Ha, Hb. cbn [mbind result_bind].
    assert (∀ a' b', block_interval block a' b' → a' = a ∧ b' = b) as Huniq.
    { intros a' b' (_ & _ & Ha' & Hb' & _). split; congruence. }
    unfold dt_leb. destruct (utc b <=? utc a) eqn:Hdegenerate; bool_to_Prop.
    { (* start >= end: the block is skipped *)
      destruct (IH events Hrest) as (ivs & -> & Hall & Hcov).
      exists ivs. split; [done|]. split; [by apply Hmono|].
      intros x Hx. rewrite (Hcov x Hx). split.
      - intros (b' & a' & b'' & ? & ?). exists b', a', b''. split; [by right|done].
      - intros (b' & a' & b'' & Hin & Hiv & ?).
        apply elem_of_cons in Hin as [->|Hin]; [|by eauto 6].
        exfalso. destruct (Huniq _ _ Hiv) as [-> ->].
        destruct Hiv as (_ & _ & _ & _ & ?). lia. }
    assert (block_interval block a b) as Hiv by (by repeat split).
    destruct (intersect_half_open_interval a b search_start search_end)
      as [[s e]|] eqn:Hint.
    + apply intersect_half_open_interval_Some in Hint as (Hs & He & Hse).
      destruct (IH (events ++ [(s, 1); (e, -1)]) Hrest) as (ivs & -> & Hall & Hcov).
      exists ((s, e) :: ivs). split; [by rewrite <- app_assoc|]. split.
      * constructor; [|by apply Hmono]. cbn. split; [lia|].
        exists block, a, b. split; [left|done].
      * intros x Hx. split.
        -- intros (iv & Hin & Hxin). apply elem_of_cons in Hin as [->|Hin].
           ++ exists block, a, b. split; [left|]. split; [done|].
              unfold in_window in Hxin. cbn in Hxin. lia.
           ++ destruct (proj1 (Hcov x Hx)) as (b' & a' & b'' & ? & ?); [by eauto|].
              exists b', a', b''. split; [by right|done].
        -- intros (b' & a' & b'' & Hin & Hiv' & Hxin).
           apply elem_of_cons in Hin as [->|Hin].
           ++ destruct (Huniq _ _ Hiv') as [-> ->].
              exists (s, e). split; [left|]. unfold in_window. cbn. lia.
           ++ destruct (proj2 (Hcov x Hx)) as (iv & ? & ?); [by eauto 6|].
              exists iv. split; [by right|done].
    + apply intersect_half_open_interval_None in Hint.
      destruct (IH events Hrest) as (ivs & -> & Hall & Hcov).
      exists ivs. split; [done|]. split; [by apply Hmono|].
      intros x Hx. rewrite (Hcov x Hx). split.
      * intros (b' & a' & b'' & ? & ?). exists b', a', b''. split; [by right|done].
      * intros (b' & a' & b'' & Hin & Hiv' & ?).
        apply elem_of_cons in Hin as [->|Hin]; [|by eauto 6].
        exfalso. destruct (Huniq _ _ Hiv') as [-> ->]. lia.
Qed.

Lemma events_of_intervals_app ivs1 ivs2 :
  events_of_intervals (ivs1 ++ ivs2)
  = events_of_intervals ivs1 ++ events_of_intervals ivs2.
Proof. unfold events_of_intervals. apply flat_map_app. Qed.

Lemma collect_events_spec busy_schedules search_start search_end : ∀ events,
  parseable busy_schedules →
  ∃ ivs,
    collect_events busy_schedules search_start search_end events
    = Ok (events ++ events_of_intervals ivs)
    ∧ Forall (λ iv : datetime * datetime,
                (utc search_start <= utc iv.1 ∧ utc iv.1 < utc iv.2
                 ∧ utc iv.2 <= utc search_end)
                ∧ ∃ p a b, p ∈ busy_schedules ∧ busy_interval_of p a b) ivs
    ∧ ∀ x, utc search_start <= x < utc search_end →
           ((∃ iv, iv ∈ ivs ∧ in_window x iv) ↔
            ∃ p a b, p ∈ busy_schedules ∧ busy_interval_of p a b
                     ∧ utc a <= x < utc b).
Proof.
  induction busy_schedules as [|p ps IH]; intros events Hp.
  - exists []. cbn. rewrite app_nil_r. split; [done|]. split; [constructor|].
    intros x _. split.
    + intros (iv & Hin & _). by apply elem_of_nil in Hin.
    + intros (b & ? & ? & Hin & _). by apply elem_of_nil in Hin.
  - inversion_clear Hp as [|?? Hblocks Hrest]. cbn [collect_events].
    destruct (collect_block_events_spec (default [] (busy p)) search_start
                search_end events Hblocks) as (ivs1 & -> & Hall1 & Hcov1).
    cbn [mbind result_bind].
    destruct (IH (events ++ events_of_intervals ivs1) Hrest)
      as (ivs2 & -> & Hall2 & Hcov2).
    exists (ivs1 ++ ivs2). split; [by rewrite events_of_intervals_app, app_assoc|].
    split.
    + apply Forall_app. split.
      * eapply Forall_impl; [exact Hall1|].
        intros iv (? & block & a & b & ? & ?). split; [done|].
        exists p, a, b. split; [left|]. by exists block.
      * eapply Forall_impl; [exact Hall2|].
        intros iv (? & p' & a & b & ? & ?). split; [done|].
        exists p', a, b. split; [by right|done].
    + intros x Hx. split.
      * intros (iv & Hin & Hxin). apply elem_of_app in Hin as [Hin|Hin].
        -- destruct (proj1 (Hcov1 x Hx)) as (block & a & b & ? & ? & ?); [by eauto|].
           exists p, a, b. split; [left|]. split; [by exists block|done].
        -- destruct (proj1 (Hcov2 x Hx)) as (p' & a & b & ? & ? & ?); [by eauto|].
           exists p', a, b. split; [by right|done].
      * intros (p' & a & b & Hin & Hiv & Hxin).
        apply elem_of_cons in Hin as [->|Hin].
        -- destruct Hiv as (block & ? & ?).
           destruct (proj2 (Hcov1 x Hx)) as (iv & ? & ?); [by eauto 6|].
           exists iv. split; [|done]. apply elem_of_app. by left.
        -- destruct (proj2 (Hcov2 x Hx)) as (iv & ? & ?); [by eauto 6|].
           exists iv. split; [|done]. apply elem_of_app. by right.
Qed.

(** With no event but the two boundary markers the sweep returns the whole
    search window. *)
Lemma compute_common_free_windows_no_events busy_schedules search_start search_end :
  collect_events busy_schedules search_start search_end [] = Ok [] →
  utc search_start < utc search_end →
  compute_common_free_windows busy_schedules search_start search_end
  = Ok [(search_start, search_end)].
Proof.
  intros Hc Hlt. unfold compute_common_free_windows. rewrite Hc.
  assert ((utc search_end <? utc search_start) = false) as H1 by (apply Z.ltb_ge; lia).
  assert ((utc search_end =? utc search_start) = false) as H2 by (apply Z.eqb_neq; lia).
  assert ((utc search_start <? utc search_end) = true) as H3 by (apply Z.ltb_lt; lia).
  cbn. unfold key_ltb. cbn. rewrite H1, H2. cbn.
  unfold dt_ltb, dt_eqb. rewrite Z.ltb_irrefl, Z.eqb_refl, H2, H3. cbn.
  unfold dt_eqb. by rewrite Z.eqb_refl.
Qed.

(** The merger on a non-empty search window and parseable schedules:
    ascending disjoint windows covering exactly the instants of the window
    where nobody is busy. *)
Lemma merger_spec (busy_schedules : list person)
    (search_start search_end : datetime) :
  utc search_start < utc search_end →
  parseable busy_schedules →
  ∃ free_windows,
    compute_common_free_windows busy_schedules search_start search_end
    = Ok free_windows
    ∧ Forall (λ w, utc w.1 < utc w.2) free_windows
    ∧ StronglySorted (λ w1 w2 : datetime * datetime, utc w1.1 < utc w2.1)
        free_windows
    ∧ StronglySorted (λ w1 w2 : datetime * datetime, utc w1.2 <= utc w2.1)
        free_windows
    ∧ (∀ x, (∃ w, w ∈ free_windows ∧ in_window x w) ↔
            (utc search_start <= x < utc search_end
             ∧ ∀ p a b, p ∈ busy_schedules → busy_interval_of p a b →
                 ¬ (Z.max (utc a) (utc search_start) <= x
                    < Z.min (utc b) (utc search_end))))
    ∧ ((∀ p a b, p ∈ busy_schedules → ¬ busy_interval_of p a b) →
       free_windows = [(search_start, search_end)]).
Proof.
  intros Hlt Hp.
  destruct (collect_events_spec busy_schedules search_start search_end [] Hp)
    as (ivs & Hc & Hall & Hcov).
  rewrite app_nil_l in Hc.
  set (E0 := events_of_intervals ivs ++ [(search_start, 0); (search_end, 0)]).
  assert (Forall (λ e : event, utc search_start <= utc e.1 <= utc search_end) E0)
    as Hbounds.
  { subst E0. apply Forall_app. split.
    - clear -Hall. induction Hall as [|[s e] ivs [Hb _] _ IH]; cbn in *.
      + constructor.
      + constructor; [cbn; lia|]. constructor; [cbn; lia|]. done.
    - constructor; [cbn; lia|]. constructor; [cbn; lia|]. constructor. }
  pose proof (sort_events_sorted E0) as Hsorted.
  pose proof (sort_events_Permutation E0) as Hperm.
  assert (Forall (λ e : event, utc search_start <= utc e.1 <= utc search_end)
            (sort_events E0)) as Hbounds' by (by rewrite Hperm).
  destruct (sweep_spec (length (sort_events E0)) (sort_events E0) 0 search_start [])
    as (ws & Hsw & Hwf & Hsweep).
  { done. }
  { eapply Forall_impl; [exact Hbounds'|]. cbn. intros; lia. }
  { done. }
  assert (last_time (utc search_start) (sort_events E0) = utc search_end) as Hlast.
  { assert ((search_end, 0) ∈ sort_events E0) as Hin.
    { rewrite Hperm. subst E0. apply elem_of_app. right. right. left. }
    pose proof (last_time_elem (utc search_start) _ _ Hsorted Hin) as Hge.
    destruct (last_time_in (utc search_start) (sort_events E0)) as (e & He & Heq).
    { intros Hnil. rewrite Hnil in Hin. by apply elem_of_nil in Hin. }
    rewrite Forall_forall in Hbounds'. specialize (Hbounds' _ He).
    cbn in *. lia. }
  assert (∀ x, delta_count (sort_events E0) x
               = delta_count (events_of_intervals ivs) x) as Hcount.
  { intros x. rewrite (delta_count_Permutation _ _ x Hperm). subst E0.
    rewrite delta_count_app. cbn.
    destruct (utc search_start <=? x), (utc search_end <=? x); lia. }
  assert (Forall (λ iv : datetime * datetime, utc iv.1 < utc iv.2) ivs) as Hne.
  { eapply Forall_impl; [exact Hall|]. cbn. intros iv [? _]. lia. }
  exists ws.
  assert (compute_common_free_windows busy_schedules search_start search_end
          = Ok ws) as Hcompute.
  { unfold compute_common_free_windows. rewrite Hc. cbn [mbind result_bind].
    fold E0. by rewrite Hsw. }
  split; [done|].
  destruct (windows_from_sorted _ _ Hwf) as (Hnonempty & Hdisjoint & Hascending).
  split; [|split; [done|split; [done|split]]].
  - eapply Forall_impl; [exact Hnonempty|]. cbn. intros; lia.
  - intros x. rewrite Hsweep, Hlast, Hcount.
    destruct (delta_count_intervals ivs x Hne) as [_ Hzero].
    split.
    + intros [Hx Hz]. split; [done|]. intros p a b Hin Hiv Hclip.
      assert (delta_count (events_of_intervals ivs) x = 0) as Hz' by lia.
      destruct (proj2 (Hcov x Hx)) as (iv & Hiviv & Hxin).
      { exists p, a, b. repeat split; [done|done|lia|lia]. }
      by apply (proj1 Hzero Hz' iv).
    + intros [Hx Hfree]. split; [done|].
      cut (delta_count (events_of_intervals ivs) x = 0); [lia|].
      apply Hzero. intros iv Hin Hxin.
      destruct (proj1 (Hcov x Hx)) as (p & a & b & Hp' & Hiv & Hab); [by eauto|].
      apply (Hfree p a b Hp' Hiv). lia.
  - intros Hnone.
    assert (ivs = []) as ->.
    { destruct ivs as [|iv ivs]; [done|]. exfalso.
      inversion_clear Hall as [|?? [_ (p & a & b & Hin & Hiv)] _].
      by apply (Hnone p a b). }
    cbn in Hc.
    rewrite (compute_common_free_windows_no_events _ _ _ Hc Hlt) in Hcompute.
    congruence.
Qed.

Lemma parse_iso8601_exn v e : parse_iso8601 v = Raise e → e = ValueError.
Proof.
  unfold parse_iso8601. destruct v; try (by intros [= <-]).
  destruct (fromisoformat _) as [dt|]; [|by intros [= <-]].
  by destruct (parsed_tzinfo dt).
Qed.

Lemma collect_block_events_exn blocks search_start search_end : ∀ events e,
  collect_block_events blocks search_start search_end events = Raise e →
  e = ValueError.
Proof.
  induction blocks as [|block blocks IH]; intros events e; cbn; [done|].
  destruct (negb _ || negb _); [by apply IH|].
  destruct (parse_iso8601 (raw_start_of block)) as [a|e1] eqn:Ha; cbn;
    [|intros [= <-]; by eapply parse_iso8601_exn].
  destruct (parse_iso8601 (raw_end_of block)) as [b|e2] eqn:Hb; cbn;
    [|intros [= <-]; by eapply parse_iso8601_exn].
  destruct (dt_leb b a); [by apply IH|].
  destruct (intersect_half_open_interval _ _ _ _) as [[??]|]; by apply IH.
Qed.

Lemma collect_events_exn busy_schedules search_start search_end : ∀ events e,
  collect_events busy_schedules search_start search_end events = Raise e →
  e = ValueError.
Proof.
  induction busy_schedules as [|p ps IH]; intros events e; cbn; [done|].
  destruct (collect_block_events _ _ _ _) as [events'|e'] eqn:Hb; cbn.
  - by apply IH.
  - intros [= <-]. by eapply collect_block_events_exn.
Qed.

Lemma sum_deltas_at_length t l : ∀ delta_sum,
  (length (sum_deltas_at t delta_sum l).2 ≤ length l)%nat.
Proof.
  induction l as [|[t' d] l IH]; intros delta_sum; cbn; [done|].
  destruct (dt_eqb t' t); cbn; [|done]. specialize (IH (delta_sum + d)). lia.
Qed.

(** One unit of fuel per event is enough for the sweep, whatever the
    events. *)
Lemma sweep_fuel fuel : ∀ events active_busy prev_time free_windows,
  (length events ≤ fuel)%nat →
  is_Some (sweep fuel events active_busy prev_time free_windows).
Proof.
  induction fuel as [|fuel IH]; intros events active prev fw Hlen.
  - destruct events; [by eexists|cbn in Hlen; lia].
  - destruct events as [|[t d] l]; [by eexists|]. cbn [sweep].
    destruct (sum_deltas_at t 0 ((t, d) :: l)) as [s rest] eqn:Hsum.
    apply IH.
    cbn in Hsum. unfold dt_eqb in Hsum. rewrite Z.eqb_refl in Hsum.
    pose proof (sum_deltas_at_length t l (0 + d)) as Hl. rewrite Hsum in Hl.
    cbn in Hl, Hlen. lia.
Qed.

(** The merger never runs out of fuel, and raises nothing but the
    ValueError of [parse_iso8601]. *)
Lemma compute_common_free_windows_terminates busy_schedules search_start search_end e :
  compute_common_free_windows busy_schedules search_start search_end = Raise e →
  e = ValueError.
Proof.
  unfold compute_common_free_windows.
  destruct (collect_events busy_schedules search_start search_end []) as [events|e']
    eqn:Hc; cbn [mbind result_bind].
  - set (E := sort_events _).
    destruct (sweep_fuel (length E) E 0 search_start []) as [ws ->]; done.
  - intros [= <-]. by eapply collect_events_exn.
Qed.

(** C2. Merger correctness: for a search window with [searchStart <
    searchEnd] and schedules whose blocks carry ISO-8601 strings, the merger
    returns windows that are non-empty, in strictly ascending order and
    pairwise disjoint, and an instant lies in one of them exactly when it is
    in the search window and in no valid busy interval clipped to it; with
    no valid busy interval (no subject, or no block) the result is the one
    window [(searchStart, searchEnd)]. *)
Theorem merger_correct (busy_schedules : list person)
    (search_start search_end : datetime) :
  utc search_start < utc search_end →
  parseable busy_schedules →
  ∃ free_windows,
    compute_common_free_windows busy_schedules search_start search_end
    = Ok free_windows
    ∧ Forall (λ w, utc w.1 < utc w.2) free_windows
    ∧ StronglySorted (λ w1 w2 : datetime * datetime, utc w1.1 < utc w2.1)
        free_windows
    ∧ StronglySorted (λ w1 w2 : datetime * datetime, utc w1.2 <= utc w2.1)
        free_windows
    ∧ (∀ x, (∃ w, w ∈ free_windows ∧ in_window x w) ↔
            (utc search_start <= x < utc search_end
             ∧ ∀ p a b, p ∈ busy_schedules → busy_interval_of p a b →
                 ¬ (Z.max (utc a) (utc search_start) <= x
                    < Z.min (utc b) (utc search_end))))
    ∧ ((∀ p a b, p ∈ busy_schedules → ¬ busy_interval_of p a b) →
       free_windows = [(search_start, search_end)]).
Proof. apply merger_spec. Qed.

(** C3 as amended. Touching intervals leave no gap: when A is busy [[a,m)]
    and B is busy [[m,b)], both inside the search window, every returned
    window lies wholly before [a] or wholly after [b]; so the instant [m]
    is in no window and no window starts or ends at [m]. *)
Theorem touching_intervals_no_gap (busy_schedules : list person)
    (search_start search_end : datetime) (pA pB : person) (a m m' b : datetime) :
  utc search_start < utc search_end →
  parseable busy_schedules →
  pA ∈ busy_schedules → pB ∈ busy_schedules →
  busy_interval_of pA a m → busy_interval_of pB m' b → utc m = utc m' →
  utc search_start <= utc a → utc b <= utc search_end →
  ∃ free_windows,
    compute_common_free_windows busy_schedules search_start search_end
    = Ok free_windows
    ∧ ∀ w, w ∈ free_windows →
        (utc w.2 <= utc a ∨ utc b <= utc w.1)
        ∧ ¬ in_window (utc m) w ∧ utc w.1 ≠ utc m ∧ utc w.2 ≠ utc m.
Proof.
  intros Hlt Hp HA HB HivA HivB Hm Ha Hb.
  destruct (merger_spec busy_schedules search_start search_end Hlt Hp)
    as (ws & Hc & Hne & _ & _ & Hcov & _).
  exists ws. split; [done|]. intros w Hw.
  assert (utc a < utc m) as Ham by (by destruct HivA as (? & _ & _ & _ & _ & _ & ?)).
  assert (utc m' < utc b) as Hmb by (by destruct HivB as (? & _ & _ & _ & _ & _ & ?)).
  rewrite Forall_forall in Hne. specialize (Hne w Hw). cbn in Hne.
  assert (utc w.2 <= utc a ∨ utc b <= utc w.1) as Hside.
  { destruct (decide (utc w.2 <= utc a)) as [|Hn1]; [by left|].
    destruct (decide (utc b <= utc w.1)) as [|Hn2]; [by right|].
    exfalso. set (x := Z.max (utc w.1) (utc a)).
    destruct (proj1 (Hcov x)) as [Hx Hfree].
    { exists w. split; [done|]. unfold in_window. subst x. lia. }
    destruct (decide (x < utc m)).
    - apply (Hfree pA a m HA HivA). subst x. lia.
    - apply (Hfree pB m' b HB HivB). subst x. lia. }
  split; [done|]. unfold in_window. lia.
Qed.

(** ** Malformed and legacy blocks *)

(** Taking the blocks with a missing value or with [start >= end] out of the
    schedules changes nothing in what the merger returns or raises. *)
Lemma compute_common_free_windows_without_malformed (busy_schedules : list person)
    (search_start search_end : datetime) :
  compute_common_free_windows busy_schedules search_start search_end
  = compute_common_free_windows (without_malformed busy_schedules)
      search_start search_end.
Proof.
  assert (∀ blocks events,
            collect_block_events blocks search_start search_end events
            = collect_block_events
                (filter (λ block, is_malformed block = false) blocks)
                search_start search_end events) as Hblocks.
  { induction blocks as [|block blocks IH]; intros events; [done|].
    rewrite filter_cons. destruct (decide (is_malformed block = false)) as [Hok|Hbad].
    - cbn [collect_block_events].
      destruct (negb _ || negb _); [by apply IH|].
      destruct (parse_iso8601 (raw_start_of block)); cbn; [|done].
      destruct (parse_iso8601 (raw_end_of block)); cbn; [|done].
      destruct (dt_leb _ _); [by apply IH|].
      destruct (intersect_half_open_interval _ _ _ _) as [[??]|]; by apply IH.
    - rewrite <- IH. cbn [collect_block_events].
      apply not_false_is_true in Hbad. unfold is_malformed in Hbad.
      destruct (negb _ || negb _); [done|]. cbn in Hbad.
      destruct (parse_iso8601 (raw_start_of block)); cbn; [|done].
      destruct (parse_iso8601 (raw_end_of block)); cbn; [|done].
      by rewrite Hbad. }
  assert (∀ bs events,
            collect_events bs search_start search_end events
            = collect_events (without_malformed bs) search_start search_end events)
    as Hpersons.
  { induction bs as [|p ps IH]; intros events; [done|]. cbn.
    destruct (busy p) as [blocks|]; cbn.
    - rewrite <- Hblocks.
      destruct (collect_block_events _ _ _ _); cbn; [by apply IH|done].
    - by apply IH. }
  unfold compute_common_free_windows. by rewrite Hpersons.
Qed.







End Merger.

(** The fixture meets the hypotheses of the merger theorem. *)
Lemma fixture_parseable : parseable [Fixture.alice; Fixture.bob].
Proof.
  repeat constructor; intros _ _; eexists _, _; split; vm_compute; reflexivity.
Qed.

Lemma merger_correct_witness :
  ∃ free_windows,
    compute_common_free_windows [Fixture.alice; Fixture.bob]
      (at_time 741077 9 0 0 0) (at_time 741077 17 0 0 0) = Ok free_windows
    ∧ Forall (λ w, utc w.1 < utc w.2) free_windows
    ∧ StronglySorted (λ w1 w2 : datetime * datetime, utc w1.1 < utc w2.1)
        free_windows
    ∧ StronglySorted (λ w1 w2 : datetime * datetime, utc w1.2 <= utc w2.1)
        free_windows
    ∧ (∀ x, (∃ w, w ∈ free_windows ∧ in_window x w) ↔
            (utc (at_time 741077 9 0 0 0) <= x < utc (at_time 741077 17 0 0 0)
             ∧ ∀ p a b, p ∈ [Fixture.alice; Fixture.bob] → busy_interval_of p a b →
                 ¬ (Z.max (utc a) (utc (at_time 741077 9 0 0 0)) <= x
                    < Z.min (utc b) (utc (at_time 741077 17 0 0 0)))))
    ∧ ((∀ p a b, p ∈ [Fixture.alice; Fixture.bob] → ¬ busy_interval_of p a b) →
       free_windows = [(at_time 741077 9 0 0 0, at_time 741077 17 0 0 0)]).
Proof.
  apply (merger_correct [Fixture.alice; Fixture.bob]
           (at_time 741077 9 0 0 0) (at_time 741077 17 0 0 0)).
  - vm_compute. reflexivity.
  - apply fixture_parseable.
Defined.

(** The windows of the fixture, as the docstring of the test lists them. *)
Example fixture_free_windows :
  compute_common_free_windows [Fixture.alice; Fixture.bob]
    (at_time 741077 9 0 0 0) (at_time 741077 17 0 0 0)
  = Ok [(at_time 741077 9 0 0 0, at_time 741077 9 30 0 0);
        (at_time 741077 11 0 0 0, at_time 741077 13 0 0 0);
        (at_time 741077 13 30 0 0, at_time 741077 15 30 0 0)].
Proof. vm_compute. reflexivity. Qed.

(** C3, as stated, fails: with A busy 10:00-11:00 and B busy 11:00-12:00
    inside the search window 09:00-17:00 the merger returns 09:00-10:00 and
    12:00-17:00; 11:00 is in neither and no window starts or ends there. *)
Lemma tie_break_counterexample :
  ∃ free_windows,
    compute_common_free_windows Fixture.touching
      (at_time 741077 9 0 0 0) (at_time 741077 17 0 0 0) = Ok free_windows
    ∧ ¬ (∃ w, w ∈ free_windows ∧ in_window (utc (at_time 741077 11 0 0 0)) w)
    ∧ ¬ (∃ w, w ∈ free_windows
              ∧ (utc w.1 = utc (at_time 741077 11 0 0 0)
                 ∨ utc w.2 = utc (at_time 741077 11 0 0 0))).
Proof.
  exists [(at_time 741077 9 0 0 0, at_time 741077 10 0 0 0);
          (at_time 741077 12 0 0 0, at_time 741077 17 0 0 0)].
  split; [vm_compute; reflexivity|]. split.
  - intros (w & Hw & Hin). unfold in_window in Hin.
    repeat (apply elem_of_cons in Hw as [->|Hw]); [| |by apply elem_of_nil in Hw];
      vm_compute in Hin; destruct Hin as [H1 H2]; by (apply H1 || apply H2).
  - intros (w & Hw & Hb).
    repeat (apply elem_of_cons in Hw as [->|Hw]); [| |by apply elem_of_nil in Hw];
      vm_compute in Hb; destruct Hb as [Hb|Hb]; discriminate.
Qed.

(** ** The slot expander *)

Lemma dt_add_Ok d td r :
  dt_add d td = Ok r →
  wall r = wall d + td ∧ utcoffset r = utcoffset d ∧ utc r = utc d + td
  ∧ 0 <= wall r < MAX_WALL.
Proof.
  unfold dt_add, in_range.
  destruct ((0 <=? wall d + td) && (wall d + td <? MAX_WALL)) eqn:E; [|done].
  intros [= <-]. bool_to_Prop. unfold utc. cbn. lia.
Qed.

Lemma dt_add_exn d td e : dt_add d td = Raise e → e = OverflowError.
Proof. unfold dt_add. destruct (in_range _); [done|]. by intros [= <-]. Qed.

Lemma astimezone_utc_Ok d r :
  astimezone_utc d = Ok r →
  utc r = utc d ∧ utcoffset r = 0 ∧ wall r = utc d ∧ 0 <= utc d < MAX_WALL.
Proof.
  unfold astimezone_utc, in_range.
  destruct ((0 <=? utc d) && (utc d <? MAX_WALL)) eqn:E; [|done].
  intros [= <-]. bool_to_Prop. rewrite utc_mkdatetime_0. cbn. lia.
Qed.

Lemma astimezone_utc_exn d e : astimezone_utc d = Raise e → e = OverflowError.
Proof. unfold astimezone_utc. destruct (in_range _); [done|]. by intros [= <-]. Qed.

Lemma timedelta_of_minutes_Ok m td :
  timedelta_of_minutes m = Ok td → td = timedelta_minutes m.
Proof.
  unfold timedelta_of_minutes, timedelta_minutes.
  destruct (_ && _); [|done]. by intros [= <-].
Qed.

Lemma timedelta_of_minutes_exn m e :
  timedelta_of_minutes m = Raise e → e = OverflowError.
Proof.
  unfold timedelta_of_minutes. destruct (_ && _); [done|]. by intros [= <-].
Qed.

Section Expander.
Context `{PyStdlib}.

(** What the inner loop appends: the rendering of slots that start on the
    30-minute grid from [slot_start], no later than [last_valid_start], last
    [duration_delta] and pass the workday test. *)
Lemma slot_loop_spec fuel : ∀ slot_start last_valid_start duration_delta
    workday_start_hour workday_end_hour available_slots out,
  slot_loop fuel slot_start last_valid_start duration_delta
    workday_start_hour workday_end_hour available_slots = Ok out →
  ∃ slots new,
    out = available_slots ++ new
    ∧ Forall2 rendered slots new
    ∧ Forall (λ slot : datetime * datetime,
                utc slot_start <= utc slot.1 <= utc last_valid_start
                ∧ utc slot.2 = utc slot.1 + duration_delta
                ∧ ((utc slot.1 - utc slot_start) `mod` HALF_HOUR = 0)
                ∧ is_within_workday_utc slot.1 slot.2
                    workday_start_hour workday_end_hour = Ok true) slots.
Proof.
  induction fuel as [|fuel IH];
    intros slot_start last dur wsh weh acc out; cbn [slot_loop]; unfold dt_leb.
  - destruct (utc slot_start <=? utc last); [done|].
    intros [= <-]. exists [], []. rewrite app_nil_r. repeat split; constructor.
  - destruct (utc slot_start <=? utc last) eqn:Hle; bool_to_Prop.
    2:{ intros [= <-]. exists [], []. rewrite app_nil_r. repeat split; constructor. }
    destruct (dt_add slot_start dur) as [slot_end|] eqn:Hend; cbn; [|done].
    destruct (is_within_workday_utc slot_start slot_end wsh weh)
      as [within|] eqn:Hwithin; cbn; [|done].
    apply dt_add_Ok in Hend as (_ & _ & Hend & _).
    assert (∀ slots, Forall (λ slot : datetime * datetime,
                utc slot_start + HALF_HOUR <= utc slot.1 <= utc last
                ∧ utc slot.2 = utc slot.1 + dur
                ∧ ((utc slot.1 - (utc slot_start + HALF_HOUR)) `mod` HALF_HOUR = 0)
                ∧ is_within_workday_utc slot.1 slot.2 wsh weh = Ok true) slots →
              Forall (λ slot : datetime * datetime,
                utc slot_start <= utc slot.1 <= utc last
                ∧ utc slot.2 = utc slot.1 + dur
                ∧ ((utc slot.1 - utc slot_start) `mod` HALF_HOUR = 0)
                ∧ is_within_workday_utc slot.1 slot.2 wsh weh = Ok true) slots)
      as Hshift.
    { intros slots Hall. eapply Forall_impl; [exact Hall|].
      intros slot (? & ? & Hmod & ?). repeat split; try done.
      - unfold_units. lia.
      - lia.
      - revert Hmod. unfold_units. intros. Z.div_mod_to_equations. lia. }
    destruct within.
    + destruct (to_iso8601_utc slot_start) as [start|] eqn:Hs; cbn; [|done].
      destruct (to_iso8601_utc slot_end) as [end_|] eqn:He; cbn; [|done].
      destruct (dt_add slot_start HALF_HOUR) as [next|] eqn:Hnext; cbn; [|done].
      apply dt_add_Ok in Hnext as (_ & _ & Hnext & _).
      intros Hloop. apply IH in Hloop as (slots & new & -> & Hr & Hall).
      exists ((slot_start, slot_end) :: slots), ((start, end_) :: new).
      split; [by rewrite <- app_assoc|]. split; [by constructor|].
      constructor.
      * cbn. rewrite Z.sub_diag. repeat split; try done; lia.
      * apply Hshift. by rewrite <- Hnext.
    + destruct (dt_add slot_start HALF_HOUR) as [next|] eqn:Hnext; cbn; [|done].
      apply dt_add_Ok in Hnext as (_ & _ & Hnext & _).
      intros Hloop. apply IH in Hloop as (slots & new & -> & Hr & Hall).
      exists slots, new. split; [done|]. split; [done|].
      apply Hshift. by rewrite <- Hnext.
Qed.

(** What the window loop appends: every slot lies in one of the windows,
    starts on a half-hour boundary no earlier than [min_slot_start], lasts
    [duration_delta] and ends inside its window when the duration is
    positive. *)
Lemma expand_free_windows_spec free_windows : ∀ min_slot_start duration_delta
    workday_start_hour workday_end_hour available_slots out,
  expand_free_windows free_windows min_slot_start duration_delta
    workday_start_hour workday_end_hour available_slots = Ok out →
  ∃ slots new,
    out = available_slots ++ new
    ∧ Forall2 rendered slots new
    ∧ Forall (λ slot : datetime * datetime,
                (∃ w, w ∈ free_windows ∧ utc w.1 <= utc slot.1
                      ∧ utc slot.1 + duration_delta <= utc w.2)
                ∧ utc min_slot_start <= utc slot.1
                ∧ utc slot.2 = utc slot.1 + duration_delta
                ∧ utc slot.1 `mod` HALF_HOUR = 0
                ∧ is_within_workday_utc slot.1 slot.2
                    workday_start_hour workday_end_hour = Ok true) slots.
Proof.
  induction free_windows as [|[window_start window_end] rest IH];
    intros mss dur wsh weh acc out; cbn [expand_free_windows].
  - intros [= <-]. exists [], []. rewrite app_nil_r. repeat split; constructor.
  - destruct (ceil_to_half_hour_boundary (py_max window_start mss))
      as [slot_start|] eqn:Hceil; cbn [mbind result_bind]; [|done].
    unfold dt_sub.
    destruct (dt_add window_end (- dur)) as [last|] eqn:Hlast; cbn [mbind result_bind]; [|done].
    destruct (slot_loop (slot_fuel slot_start last) slot_start last dur wsh weh acc)
      as [acc'|] eqn:Hloop; cbn [mbind result_bind]; [|done].
    intros Hrest. apply IH in Hrest as (slots2 & new2 & -> & Hr2 & Hall2).
    apply slot_loop_spec in Hloop as (slots1 & new1 & -> & Hr1 & Hall1).
    apply ceil_utc in Hceil. rewrite utc_py_max in Hceil.
    apply dt_add_Ok in Hlast as (_ & _ & Hlast & _).
    pose proof (half_hour_ceiling_ge (Z.max (utc window_start) (utc mss))).
    pose proof (half_hour_ceiling_mod (Z.max (utc window_start) (utc mss))) as Hmod.
    rewrite <- Hceil in *.
    exists (slots1 ++ slots2), (new1 ++ new2).
    split; [by rewrite app_assoc|]. split; [by apply Forall2_app|].
    apply Forall_app. split.
    + eapply Forall_impl; [exact Hall1|].
      intros slot (? & ? & Hgrid & ?). repeat split; try done.
      * exists (window_start, window_end). split; [left|]. cbn. lia.
      * lia.
      * revert Hgrid Hmod. unfold_units. intros. Z.div_mod_to_equations. lia.
    + eapply Forall_impl; [exact Hall2|].
      intros slot ((w & ? & ?) & ?). split; [|done].
      exists w. split; [by right|done].
Qed.

End Expander.

(** ** The view *)

Lemma is_valid_ValidatedData request vd :
  is_valid request = ValidatedData vd → vd = request.
Proof.
  unfold is_valid, validate.
  destruct (_ ++ _); [|done].
  repeat match goal with |- context [if ?b then _ else _] => destruct b end;
    try done. by intros [= <-].
Qed.

Section View.
Context `{PyStdlib}.

Ltac unfold_handler H :=
  unfold mbind, mret, handler_bind, handler_ret, result_bind, perform,
    return_response, lift in H;
  lazy beta iota zeta in H.

Ltac destruct_scrutinee H :=
  match type of H with
  | context [match ?x with _ => _ end] =>
      lazymatch x with
      | context [match _ with _ => _ end] => fail
      | _ => destruct x eqn:?
      end
  end; lazy beta iota zeta in H.

(** A merger that returned has parsed every block carrying both values. *)
Lemma collect_block_events_Ok blocks search_start search_end : ∀ events out,
  collect_block_events blocks search_start search_end events = Ok out →
  Forall parseable_block blocks.
Proof.
  induction blocks as [|block blocks IH]; intros events out; cbn; [constructor|].
  destruct (negb (truthy (raw_start_of block)) || negb (truthy (raw_end_of block)))
    eqn:Hmissing.
  { intros Hc. constructor; [|by eapply IH].
    intros Hs He. rewrite Hs, He in Hmissing. discriminate. }
  destruct (parse_iso8601 (raw_start_of block)) as [a|] eqn:Ha; cbn; [|done].
  destruct (parse_iso8601 (raw_end_of block)) as [b|] eqn:Hb; cbn; [|done].
  intros Hc. constructor; [by intros _ _; exists a, b|].
  destruct (dt_leb b a); [by eapply IH|].
  destruct (intersect_half_open_interval _ _ _ _) as [[??]|]; by eapply IH.
Qed.

Lemma collect_events_Ok busy_schedules search_start search_end : ∀ events out,
  collect_events busy_schedules search_start search_end events = Ok out →
  parseable busy_schedules.
Proof.
  induction busy_schedules as [|p ps IH]; intros events out; cbn; [constructor|].
  destruct (collect_block_events _ _ _ _) as [events'|] eqn:Hb; cbn; [|done].
  intros Hc. constructor; [by eapply collect_block_events_Ok|by eapply IH].
Qed.

Lemma compute_common_free_windows_Ok busy_schedules search_start search_end ws :
  compute_common_free_windows busy_schedules search_start search_end = Ok ws →
  parseable busy_schedules.
Proof.
  unfold compute_common_free_windows.
  destruct (collect_events _ _ _ _) as [events|] eqn:Hc; cbn; [|done].
  intros _. by eapply collect_events_Ok.
Qed.

(** What a run that answers with a payload has gone through. *)
Lemma get_payload w request id r trace p :
  run (get w request id) = (Ok r, trace) → data r = PayloadBody p →
  ∃ template duration_delta earliest_allowed search_start search_end
    min_slot_start free_windows,
    templates w !! id = Some template
    ∧ duration_delta = timedelta_minutes (template_duration template)
    ∧ dt_add (mkdatetime (clock w) 0) (timedelta_hours 24) = Ok earliest_allowed
    ∧ utc search_start < utc search_end
    ∧ ceil_to_half_hour_boundary (py_max search_start earliest_allowed)
      = Ok min_slot_start
    ∧ compute_common_free_windows
        (get_free_busy_data w (template_interviewers template))
        search_start search_end = Ok free_windows
    ∧ expand_free_windows free_windows min_slot_start duration_delta
        (resolved_start_hour request) (resolved_end_hour request) []
      = Ok (availableSlots p)
    ∧ durationMinutes p = template_duration template
    ∧ workHours p = (resolved_start_hour request, resolved_end_hour request)
    ∧ status r = HTTP_200_OK
    ∧ trace = [TemplateGet id; ClockNow; InterviewersAll id;
               GetFreeBusyData (template_interviewers template)].
Proof.
  unfold run, get. intros Hrun Hp.
  unfold_handler Hrun.
  repeat (destruct_scrutinee Hrun; try discriminate);
    injection Hrun as <- <-; cbn in Hp; try discriminate;
    injection Hp as <-; cbn [availableSlots durationMinutes workHours status];
    match goal with Hv : is_valid _ = ValidatedData _ |- _ =>
      apply is_valid_ValidatedData in Hv; subst end;
    match goal with Ht : timedelta_of_minutes _ = Ok _ |- _ =>
      apply timedelta_of_minutes_Ok in Ht; subst end;
    unfold dt_leb in *; bool_to_Prop;
    eexists _, _, _, _, _, _, _;
    do 10 (split; [first [eassumption | reflexivity]|]); reflexivity.
Qed.

(** C1. All-free invariant: when the view answers with a payload, the
    emitted strings render slots [[s, s + durationMinutes)], and no valid busy
    interval of any schedule the provider returned overlaps any of them. *)
Theorem all_free_invariant (w : world) (request : query_params) (id : Z)
    (r : response) (trace : list call) (p : payload) :
  run (get w request id) = (Ok r, trace) → data r = PayloadBody p →
  ∃ template slots,
    templates w !! id = Some template
    ∧ Forall2 rendered slots (availableSlots p)
    ∧ ∀ s e, (s, e) ∈ slots →
        utc e = utc s + timedelta_minutes (durationMinutes p)
        ∧ ∀ person a b,
            person ∈ get_free_busy_data w (template_interviewers template) →
            busy_interval_of person a b →
            ¬ overlaps (utc a) (utc b) (utc s) (utc e).
Proof.
  intros Hrun Hp.
  destruct (get_payload _ _ _ _ _ _ Hrun Hp)
    as (template & dur & ea & ss & se & mss & fw & Ht & -> & _ & Hlt & _
        & Hfw & Hexp & Hdur & _).
  apply expand_free_windows_spec in Hexp as (slots & new & Hnew & Hr & Hall).
  rewrite app_nil_l in Hnew. subst new.
  exists template, slots. split; [done|]. split; [done|].
  intros s e Hin. rewrite Forall_forall in Hall.
  destruct (Hall _ Hin) as ((win & Hwin & Hws & Hwe) & _ & Hend & _).
  cbn in *. rewrite Hdur. split; [done|].
  intros person a b Hperson Hiv Hover.
  pose proof (compute_common_free_windows_Ok _ _ _ _ Hfw) as Hparse.
  destruct (merger_spec _ ss se Hlt Hparse) as (ws & Hc & _ & _ & _ & Hcov & _).
  rewrite Hfw in Hc. injection Hc as <-.
  unfold overlaps in Hover.
  destruct (proj1 (Hcov (Z.max (utc a) (utc s)))) as [Hx Hfree].
  { exists win. split; [done|]. unfold in_window. lia. }
  apply (Hfree person a b Hperson Hiv). lia.
Qed.

(** C5. Notice floor: when the view answers with a payload, every emitted
    slot starts at or after [ceil_to_half_hour_boundary(now + 24h)], whatever
    [start] the request carried. *)
Theorem notice_floor (w : world) (request : query_params) (id : Z)
    (r : response) (trace : list call) (p : payload) :
  run (get w request id) = (Ok r, trace) → data r = PayloadBody p →
  ∃ slots earliest_allowed floor,
    Forall2 rendered slots (availableSlots p)
    ∧ dt_add (mkdatetime (clock w) 0) (timedelta_hours 24) = Ok earliest_allowed
    ∧ ceil_to_half_hour_boundary earliest_allowed = Ok floor
    ∧ ∀ s e, (s, e) ∈ slots → utc floor <= utc s.
Proof.
  intros Hrun Hp.
  destruct (get_payload _ _ _ _ _ _ Hrun Hp)
    as (template & dur & ea & ss & se & mss & fw & _ & _ & Hea & _ & Hmss
        & _ & Hexp & _).
  apply expand_free_windows_spec in Hexp as (slots & new & Hnew & Hr & Hall).
  rewrite app_nil_l in Hnew. subst new.
  pose proof (dt_add_Ok _ _ _ Hea) as (_ & Hoff & _ & Hrange). cbn in Hoff.
  assert (utc ea = wall ea) as Hutc by (unfold utc; lia).
  pose proof (ceil_ok _ _ Hmss) as (Hw & Ho & _ & Hmax).
  pose proof (ceil_utc _ _ Hmss) as Hmssu. rewrite utc_py_max in Hw, Hmssu.
  pose proof (half_hour_ceiling_mono (utc ea) (Z.max (utc ss) (utc ea))
                ltac:(lia)) as Hmono.
  assert (ceil_to_half_hour_boundary ea
          = Ok (mkdatetime (half_hour_ceiling (utc ea)) 0)) as Hfloor.
  { rewrite ceil_to_half_hour_boundary_eq. unfold in_range.
    destruct (0 <=? utc ea) eqn:?, (utc ea <? MAX_WALL) eqn:?,
             (half_hour_ceiling (utc ea) <? MAX_WALL) eqn:?;
      bool_to_Prop; try lia. done. }
  exists slots, ea, (mkdatetime (half_hour_ceiling (utc ea)) 0).
  split; [done|]. split; [done|]. split; [done|].
  intros s e Hin. rewrite Forall_forall in Hall.
  destruct (Hall _ Hin) as (_ & Hge & _). cbn in Hge.
  rewrite utc_mkdatetime_0. lia.
Qed.

Ltac collect_facts :=
  repeat match goal with
  | Hv : is_valid _ = ValidatedData _ |- _ =>
      apply is_valid_ValidatedData in Hv; subst
  | Hd : dt_add _ _ = Ok _ |- _ => apply dt_add_Ok in Hd as (? & ? & ? & ?)
  | Hd : dt_add _ _ = Raise _ |- _ => apply dt_add_exn in Hd
  | Ha : astimezone_utc _ = Ok _ |- _ =>
      apply astimezone_utc_Ok in Ha as (? & ? & ? & ?)
  | Ha : astimezone_utc _ = Raise _ |- _ => apply astimezone_utc_exn in Ha
  | Ht : timedelta_of_minutes _ = Raise _ |- _ =>
      apply timedelta_of_minutes_exn in Ht
  end.

(** *** Termination *)

Lemma is_within_workday_utc_exn s e wsh weh x :
  is_within_workday_utc s e wsh weh = Raise x → x ≠ Diverged.
Proof.
  unfold is_within_workday_utc, astimezone_utc, replace_hour.
  repeat (match goal with |- context [if ?b then _ else _] => destruct b end;
          cbn [mbind result_bind]); try done; by intros [= <-].
Qed.

Lemma to_iso8601_utc_exn d x : to_iso8601_utc d = Raise x → x ≠ Diverged.
Proof.
  unfold to_iso8601_utc, astimezone_utc. destruct (in_range _); cbn; [done|].
  by intros [= <-].
Qed.

Lemma ceil_to_half_hour_boundary_exn d x :
  ceil_to_half_hour_boundary d = Raise x → x ≠ Diverged.
Proof. intros Hc. apply ceil_raises in Hc as [-> _]. done. Qed.

(** The inner loop ends within [slot_fuel] iterations. *)
Lemma slot_loop_exn fuel : ∀ slot_start last_valid_start duration_delta
    workday_start_hour workday_end_hour available_slots x,
  slot_loop fuel slot_start last_valid_start duration_delta
    workday_start_hour workday_end_hour available_slots = Raise x →
  (Z.to_nat ((utc last_valid_start - utc slot_start) `div` HALF_HOUR + 1) < fuel)%nat →
  x ≠ Diverged.
Proof.
  induction fuel as [|fuel IH]; intros slot_start last dur wsh weh acc x;
    [intros _ ?; lia|].
  cbn [slot_loop]. unfold dt_leb.
  destruct (utc slot_start <=? utc last) eqn:Hle; [|done]. bool_to_Prop.
  destruct (dt_add slot_start dur) as [slot_end|] eqn:Hend; cbn [mbind result_bind];
    [|intros [= <-] _; apply dt_add_exn in Hend as ->; done].
  destruct (is_within_workday_utc slot_start slot_end wsh weh) as [within|] eqn:Hw;
    cbn [mbind result_bind];
    [|intros [= <-] _; by eapply is_within_workday_utc_exn].
  assert (∀ next, dt_add slot_start HALF_HOUR = Ok next →
            (Z.to_nat ((utc last - utc slot_start) `div` HALF_HOUR + 1) < S fuel)%nat →
            (Z.to_nat ((utc last - utc next) `div` HALF_HOUR + 1) < fuel)%nat)
    as Hmeasure.
  { intros next Hnext Hfuel. apply dt_add_Ok in Hnext as (_ & _ & -> & _).
    revert Hfuel. unfold_units. intros.
    assert ((utc last - (utc slot_start + 30 * (60 * 1000000)))
              `div` (30 * (60 * 1000000)) + 1
            = (utc last - utc slot_start) `div` (30 * (60 * 1000000)))
      as -> by (Z.div_mod_to_equations; lia).
    assert (0 <= (utc last - utc slot_start) `div` (30 * (60 * 1000000)))
      by (Z.div_mod_to_equations; lia).
    lia. }
  destruct within.
  - destruct (to_iso8601_utc slot_start) as [start|] eqn:Hs; cbn [mbind result_bind];
      [|intros [= <-] _; by eapply to_iso8601_utc_exn].
    destruct (to_iso8601_utc slot_end) as [end_|] eqn:He; cbn [mbind result_bind];
      [|intros [= <-] _; by eapply to_iso8601_utc_exn].
    destruct (dt_add slot_start HALF_HOUR) as [next|] eqn:Hnext;
      cbn [mbind result_bind];
      [|intros [= <-] _; apply dt_add_exn in Hnext as ->; done].
    intros Hloop Hfuel. eapply IH; [exact Hloop|]. by apply Hmeasure.
  - cbn [mbind result_bind].
    destruct (dt_add slot_start HALF_HOUR) as [next|] eqn:Hnext;
      cbn [mbind result_bind];
      [|intros [= <-] _; apply dt_add_exn in Hnext as ->; done].
    intros Hloop Hfuel. eapply IH; [exact Hloop|]. by apply Hmeasure.
Qed.

Lemma expand_free_windows_exn free_windows : ∀ min_slot_start duration_delta
    workday_start_hour workday_end_hour available_slots x,
  expand_free_windows free_windows min_slot_start duration_delta
    workday_start_hour workday_end_hour available_slots = Raise x →
  x ≠ Diverged.
Proof.
  induction free_windows as [|[window_start window_end] rest IH];
    intros mss dur wsh weh acc x; cbn [expand_free_windows]; [done|].
  destruct (ceil_to_half_hour_boundary (py_max window_start mss))
    as [slot_start|] eqn:Hceil; cbn [mbind result_bind];
    [|intros [= <-]; by eapply ceil_to_half_hour_boundary_exn].
  unfold dt_sub.
  destruct (dt_add window_end (- dur)) as [last|] eqn:Hlast; cbn [mbind result_bind];
    [|intros [= <-]; apply dt_add_exn in Hlast as ->; done].
  destruct (slot_loop (slot_fuel slot_start last) slot_start last dur wsh weh acc)
    as [acc'|] eqn:Hloop; cbn [mbind result_bind].
  - by apply IH.
  - intros [= <-]. eapply slot_loop_exn; [exact Hloop|]. unfold slot_fuel. lia.
Qed.

Lemma format_datetime_human_readable_exn v x :
  format_datetime_human_readable v = Raise x → x ≠ Diverged.
Proof.
  unfold format_datetime_human_readable.
  destruct (parse_iso8601 v) eqn:Hp; cbn; [done|].
  intros [= <-]. by apply parse_iso8601_exn in Hp as ->.
Qed.

Lemma human_readable_slots_of_exn slots x :
  human_readable_slots_of slots = Raise x → x ≠ Diverged.
Proof.
  induction slots as [|s slots IH]; cbn [human_readable_slots_of]; [done|].
  destruct (format_datetime_human_readable (PyStr s.1)) eqn:H1;
    cbn [mbind result_bind];
    [|intros [= <-]; by eapply format_datetime_human_readable_exn].
  destruct (format_datetime_human_readable (PyStr s.2)) eqn:H2;
    cbn [mbind result_bind];
    [|intros [= <-]; by eapply format_datetime_human_readable_exn].
  destruct (human_readable_slots_of slots); cbn [mbind result_bind]; [done|].
  intros [= <-]. by apply IH.
Qed.

Lemma format_busy_blocks_exn blocks : ∀ busy_times x,
  format_busy_blocks blocks busy_times = Raise x → x ≠ Diverged.
Proof.
  induction blocks as [|block blocks IH]; intros times x; cbn; [done|].
  destruct (truthy _ && truthy _); [|by apply IH].
  destruct (format_datetime_human_readable (raw_start_of block)) eqn:H1; cbn;
    [|intros [= <-]; by eapply format_datetime_human_readable_exn].
  destruct (format_datetime_human_readable (raw_end_of block)) eqn:H2; cbn;
    [|intros [= <-]; by eapply format_datetime_human_readable_exn].
  by apply IH.
Qed.

Lemma format_interviewer_busy_times_human_readable_exn busy_schedules x :
  format_interviewer_busy_times_human_readable busy_schedules = Raise x →
  x ≠ Diverged.
Proof.
  unfold format_interviewer_busy_times_human_readable. generalize (@nil busy_display).
  induction busy_schedules as [|p ps IH]; intros acc; cbn; [done|].
  destruct (format_busy_blocks (default [] (busy p)) []) eqn:Hb; cbn.
  - by apply IH.
  - intros [= <-]. by eapply format_busy_blocks_exn.
Qed.

(** The view always ends: whatever escapes it is a Python exception, never
    the fuel of a loop running out. *)
Lemma get_terminates (w : world) (request : query_params) (id : Z)
    (x : exn) (trace : list call) :
  run (get w request id) = (Raise x, trace) → x ≠ Diverged.
Proof.
  unfold run, get. intros Hrun.
  unfold_handler Hrun.
  repeat (destruct_scrutinee Hrun; try discriminate);
    injection Hrun as <- <-; collect_facts; subst; try done.
  all: first
    [ by eapply ceil_to_half_hour_boundary_exn
    | by eapply expand_free_windows_exn
    | by eapply human_readable_slots_of_exn
    | by eapply format_interviewer_busy_times_human_readable_exn
    | match goal with
      | Hc : compute_common_free_windows _ _ _ = Raise _ |- _ =>
          apply compute_common_free_windows_terminates in Hc as ->; done
      end ].
Qed.

End View.

(** ** Runs of the fixture *)

(** The two happy-path tests of tests.py. *)
Example fixture_slots_9_17 :
  ∃ r trace p,
    run (get Fixture.the_world (Fixture.request_day 9 17) 1) = (Ok r, trace)
    ∧ data r = PayloadBody p
    ∧ availableSlots p
      = [("2030-01-01T11:00:00Z", "2030-01-01T12:00:00Z");
         ("2030-01-01T11:30:00Z", "2030-01-01T12:30:00Z");
         ("2030-01-01T12:00:00Z", "2030-01-01T13:00:00Z");
         ("2030-01-01T13:30:00Z", "2030-01-01T14:30:00Z");
         ("2030-01-01T14:00:00Z", "2030-01-01T15:00:00Z");
         ("2030-01-01T14:30:00Z", "2030-01-01T15:30:00Z")]%string.
Proof. eexists _, _, _. split; [vm_compute; reflexivity|]. split; reflexivity. Qed.

Example fixture_slots_10_12 :
  ∃ r trace p,
    run (get Fixture.the_world (Fixture.request_day 10 12) 1) = (Ok r, trace)
    ∧ data r = PayloadBody p
    ∧ availableSlots p
      = [("2030-01-01T11:00:00Z", "2030-01-01T12:00:00Z")]%string.
Proof. eexists _, _, _. split; [vm_compute; reflexivity|]. split; reflexivity. Qed.

(** The first happy-path test: six slots, none overlapping a busy block. *)
Lemma all_free_invariant_witness :
  ∃ r trace p,
    run (get Fixture.the_world (Fixture.request_day 9 17) 1) = (Ok r, trace)
    ∧ data r = PayloadBody p
    ∧ length (availableSlots p) = 6%nat
    ∧ ∃ template slots,
        templates Fixture.the_world !! 1 = Some template
        ∧ Forall2 rendered slots (availableSlots p)
        ∧ ∀ s e, (s, e) ∈ slots →
            utc e = utc s + timedelta_minutes (durationMinutes p)
            ∧ ∀ person a b,
                person ∈ get_free_busy_data Fixture.the_world
                           (template_interviewers template) →
                busy_interval_of person a b →
                ¬ overlaps (utc a) (utc b) (utc s) (utc e).
Proof.
  eexists _, _, _. split; [vm_compute; reflexivity|].
  split; [reflexivity|]. split; [reflexivity|].
  eapply (all_free_invariant Fixture.the_world (Fixture.request_day 9 17) 1);
    [vm_compute; reflexivity | reflexivity].
Defined.

(** The 24-hour test: nobody busy, [start = now + 1h]; the clock reads
    2029-12-02T08:15:42.123456, so the floor is 2029-12-03T08:30. *)
Lemma notice_floor_witness :
  ∃ r trace p,
    run (get Fixture.free_world Fixture.request_too_early 1) = (Ok r, trace)
    ∧ data r = PayloadBody p
    ∧ head (availableSlots p)
      = Some ("2029-12-03T08:30:00Z", "2029-12-03T09:30:00Z")%string
    ∧ ∃ slots earliest_allowed floor,
        Forall2 rendered slots (availableSlots p)
        ∧ dt_add (mkdatetime (clock Fixture.free_world) 0) (timedelta_hours 24)
          = Ok earliest_allowed
        ∧ ceil_to_half_hour_boundary earliest_allowed = Ok floor
        ∧ ∀ s e, (s, e) ∈ slots → utc floor <= utc s.
Proof.
  eexists _, _, _. split; [vm_compute; reflexivity|].
  split; [reflexivity|]. split; [reflexivity|].
  eapply (notice_floor Fixture.free_world Fixture.request_too_early 1);
    [vm_compute; reflexivity | reflexivity].
Defined.

Lemma touching_parseable : parseable Fixture.touching.
Proof.
  repeat constructor; intros _ _; eexists _, _; split; vm_compute; reflexivity.
Qed.

(** A busy 10:00-11:00 and B busy 11:00-12:00 inside 09:00-17:00. *)
Lemma touching_intervals_no_gap_witness :
  ∃ free_windows,
    compute_common_free_windows Fixture.touching
      (at_time 741077 9 0 0 0) (at_time 741077 17 0 0 0) = Ok free_windows
    ∧ ∀ w, w ∈ free_windows →
        (utc w.2 <= utc (at_time 741077 10 0 0 0)
         ∨ utc (at_time 741077 12 0 0 0) <= utc w.1)
        ∧ ¬ in_window (utc (at_time 741077 11 0 0 0)) w
        ∧ utc w.1 ≠ utc (at_time 741077 11 0 0 0)
        ∧ utc w.2 ≠ utc (at_time 741077 11 0 0 0).
Proof.
  apply (touching_intervals_no_gap Fixture.touching
           (at_time 741077 9 0 0 0) (at_time 741077 17 0 0 0)
           (mkperson 1 (Some "A"%string)
              (Some [Fixture.block "2030-01-01T10:00:00Z" "2030-01-01T11:00:00Z"]))
           (mkperson 2 (Some "B"%string)
              (Some [Fixture.block "2030-01-01T11:00:00Z" "2030-01-01T12:00:00Z"]))
           (at_time 741077 10 0 0 0) (at_time 741077 11 0 0 0)
           (at_time 741077 11 0 0 0) (at_time 741077 12 0 0 0)).
  - vm_compute. reflexivity.
  - apply touching_parseable.
  - left.
  - right. left.
  - eexists. split; [left|]. repeat split; vm_compute; reflexivity.
  - eexists. split; [left|]. repeat split; vm_compute; reflexivity.
  - reflexivity.
  - vm_compute. discriminate.
  - vm_compute. discriminate.
Defined.

(** Legacy blocks give the windows of their [start]/[end] twins. *)
Example legacy_blocks_windows :
  compute_common_free_windows Fixture.touching_legacy
    (at_time 741077 9 0 0 0) (at_time 741077 17 0 0 0)
  = compute_common_free_windows Fixture.touching
      (at_time 741077 9 0 0 0) (at_time 741077 17 0 0 0).
Proof. vm_compute. reflexivity. Qed.

(** * Further properties of the time helpers *)

(** X1. [ceil_to_half_hour_boundary] returns the least half-hour boundary that
    is not before its argument: a UTC datetime with minute 0 or 30 and no
    seconds or microseconds, less than 30 minutes after the argument, and
    below every other boundary that is not before the argument. *)
Theorem ceil_least_boundary (dt r : datetime) :
  ceil_to_half_hour_boundary dt = Ok r →
  utcoffset r = 0
  ∧ (dt_minute r = 0 ∨ dt_minute r = 30)
  ∧ dt_second r = 0 ∧ dt_microsecond r = 0
  ∧ utc dt <= utc r < utc dt + HALF_HOUR
  ∧ ∀ boundary, boundary `mod` HALF_HOUR = 0 → utc dt <= boundary →
                utc r <= boundary.
Proof.
  intros Hc. pose proof (ceil_utc _ _ Hc) as Hu.
  apply ceil_ok in Hc as (Hw & Ho & H0 & Hmax).
  pose proof (half_hour_ceiling_ge (utc dt)).
  pose proof (half_hour_ceiling_lt (utc dt)).
  pose proof (half_hour_ceiling_mod (utc dt)) as Hmod.
  rewrite <- Hw in Hmod.
  split; [done|].
  unfold dt_minute, dt_second, dt_microsecond.
  repeat split; try lia.
  - revert Hmod. unfold_units. intros. Z.div_mod_to_equations. lia.
  - revert Hmod. unfold_units. intros. Z.div_mod_to_equations. lia.
  - revert Hmod. unfold_units. intros. Z.div_mod_to_equations. lia.
  - intros boundary Hb Hle. rewrite Hu. revert Hb.
    unfold half_hour_ceiling. unfold_units. intros. Z.div_mod_to_equations. lia.
Qed.

Lemma ceil_least_boundary_witness :
  utcoffset (at_time 741077 12 30 0 0) = 0
  ∧ (dt_minute (at_time 741077 12 30 0 0) = 0
     ∨ dt_minute (at_time 741077 12 30 0 0) = 30)
  ∧ dt_second (at_time 741077 12 30 0 0) = 0
  ∧ dt_microsecond (at_time 741077 12 30 0 0) = 0
  ∧ utc (at_time 741077 12 0 0 1000) <= utc (at_time 741077 12 30 0 0)
    < utc (at_time 741077 12 0 0 1000) + HALF_HOUR
  ∧ ∀ boundary, boundary `mod` HALF_HOUR = 0 →
                utc (at_time 741077 12 0 0 1000) <= boundary →
                utc (at_time 741077 12 30 0 0) <= boundary.
Proof.
  apply (ceil_least_boundary (at_time 741077 12 0 0 1000) (at_time 741077 12 30 0 0)).
  vm_compute. reflexivity.
Defined.

(** X2. [ceil_to_half_hour_boundary] is monotone: where it returns for an
    instant it returns for every earlier instant of the datetime range, with
    a result that is not later. *)
Theorem ceil_monotone (x y ry : datetime) :
  ceil_to_half_hour_boundary y = Ok ry → 0 <= utc x <= utc y →
  ∃ rx, ceil_to_half_hour_boundary x = Ok rx ∧ utc rx <= utc ry.
Proof.
  intros Hy Hxy. pose proof (ceil_utc _ _ Hy) as Hu.
  apply ceil_ok in Hy as (Hw & Ho & H0 & Hmax).
  pose proof (half_hour_ceiling_mono (utc x) (utc y) ltac:(lia)) as Hmono.
  pose proof (half_hour_ceiling_ge (utc y)).
  exists (mkdatetime (half_hour_ceiling (utc x)) 0).
  rewrite ceil_to_half_hour_boundary_eq, utc_mkdatetime_0. unfold in_range.
  destruct (0 <=? utc x) eqn:?, (utc x <? MAX_WALL) eqn:?,
           (half_hour_ceiling (utc x) <? MAX_WALL) eqn:?;
    bool_to_Prop; try lia.
  split; [done|lia].
Qed.

Lemma ceil_monotone_witness :
  ∃ rx, ceil_to_half_hour_boundary (at_time 741077 11 59 59 0) = Ok rx
        ∧ utc rx <= utc (at_time 741077 12 30 0 0).
Proof.
  apply (ceil_monotone (at_time 741077 11 59 59 0) (at_time 741077 12 0 0 1000)
           (at_time 741077 12 30 0 0)).
  - vm_compute. reflexivity.
  - vm_compute. split; discriminate.
Defined.

(** X3. [intersect_half_open_interval] returns a non-empty interval holding
    exactly the instants of both arguments, and None exactly when they share
    no instant. *)
Theorem intersect_pointwise (start1 end1 start2 end2 : datetime) :
  match intersect_half_open_interval start1 end1 start2 end2 with
  | Some (s, e) =>
      utc s < utc e
      ∧ ∀ x, utc s <= x < utc e ↔
             (utc start1 <= x < utc end1 ∧ utc start2 <= x < utc end2)
  | None =>
      ∀ x, ¬ (utc start1 <= x < utc end1 ∧ utc start2 <= x < utc end2)
  end.
Proof.
  destruct (intersect_half_open_interval start1 end1 start2 end2) as [[s e]|] eqn:Hi.
  - apply intersect_half_open_interval_Some in Hi as (Hs & He & Hlt).
    split; [done|]. intros x. lia.
  - apply intersect_half_open_interval_None in Hi. intros x. lia.
Qed.

(** * Further properties of the merger *)

Lemma sum_deltas_at_incl t l : ∀ delta_sum e,
  e ∈ (sum_deltas_at t delta_sum l).2 → e ∈ l.
Proof.
  induction l as [|[t' d] l IH]; intros delta_sum e; cbn; [done|].
  destruct (dt_eqb t' t); cbn; [|done].
  intros Hin. right. by eapply IH.
Qed.

(** Every window the sweep adds runs from [prev_time] or an event's
    timestamp to an event's timestamp. *)
Lemma sweep_endpoints fuel : ∀ events active_busy prev_time free_windows out,
  sweep fuel events active_busy prev_time free_windows = Some out →
  ∃ ws, out = free_windows ++ ws
    ∧ Forall (λ w : datetime * datetime,
                (w.1 = prev_time ∨ ∃ d, (w.1, d) ∈ events)
                ∧ ∃ d, (w.2, d) ∈ events) ws.
Proof.
  induction fuel as [|fuel IH]; intros events active prev fw out.
  - destruct events as [|[t d] l]; [|done]. intros [= <-].
    exists []. by rewrite app_nil_r.
  - destruct events as [|[t d] l].
    { intros [= <-]. exists []. by rewrite app_nil_r. }
    cbn [sweep].
    destruct (sum_deltas_at t 0 ((t, d) :: l)) as [s rest] eqn:Hsum.
    intros Hsw. apply IH in Hsw as (ws & -> & Hall).
    assert (∀ e, e ∈ rest → e ∈ (t, d) :: l) as Hincl.
    { intros e He. apply (sum_deltas_at_incl t _ 0). by rewrite Hsum. }
    assert (Forall (λ w : datetime * datetime,
                (w.1 = prev ∨ ∃ d0, (w.1, d0) ∈ (t, d) :: l)
                ∧ ∃ d0, (w.2, d0) ∈ (t, d) :: l) ws) as Hall'.
    { eapply Forall_impl; [exact Hall|]. intros w [Hl (d2 & Hr)]. split.
      - right. destruct Hl as [->|(d1 & Hl)]; [exists d; left|exists d1; by apply Hincl].
      - exists d2. by apply Hincl. }
    destruct ((active =? 0) && dt_ltb prev t).
    + exists ((prev, t) :: ws). split; [by rewrite <- app_assoc|].
      constructor; [|done]. cbn. split; [by left|]. exists d. left.
    + by exists ws.
Qed.

Lemma StronglySorted_strengthen {A} (R R' : A → A → Prop) (l : list A) :
  StronglySorted R l →
  (∀ x y, x ∈ l → y ∈ l → R x y → R' x y) →
  StronglySorted R' l.
Proof.
  induction 1 as [|x l Hl IH Hx]; intros Himpl; [constructor|].
  constructor.
  - apply IH. intros y z Hy Hz. apply Himpl; by right.
  - rewrite Forall_forall in Hx. apply Forall_forall. intros y Hy.
    apply Himpl; [left|by right|by apply Hx].
Qed.

Section MergerMore.
Context `{PyStdlib}.

(** Where each collected event comes from: a valid busy interval, clipped
    to the search window. *)
Lemma collect_block_events_origin blocks search_start search_end : ∀ events out,
  collect_block_events blocks search_start search_end events = Ok out →
  ∃ ivs, out = events ++ events_of_intervals ivs
    ∧ Forall (λ iv : datetime * datetime,
                ∃ block a b, block ∈ blocks ∧ block_interval block a b
                  ∧ utc iv.1 = Z.max (utc a) (utc search_start)
                  ∧ utc iv.2 = Z.min (utc b) (utc search_end)
                  ∧ utc iv.1 < utc iv.2) ivs.
Proof.
  induction blocks as [|block blocks IH]; intros events out;
    cbn [collect_block_events].
  - intros [= <-]. exists []. by rewrite app_nil_r.
  - assert (∀ events',
              collect_block_events blocks search_start search_end events' = Ok out →
              ∃ ivs, out = events' ++ events_of_intervals ivs
                ∧ Forall (λ iv : datetime * datetime,
                    ∃ block' a b, block' ∈ block :: blocks
                      ∧ block_interval block' a b
                      ∧ utc iv.1 = Z.max (utc a) (utc search_start)
                      ∧ utc iv.2 = Z.min (utc b) (utc search_end)
                      ∧ utc iv.1 < utc iv.2) ivs) as IH'.
    { intros events' Hc. apply IH in Hc as (ivs & -> & Hall).
      exists ivs. split; [done|]. eapply Forall_impl; [exact Hall|].
      intros iv (b' & a & b & ? & ?). exists b', a, b. split; [by right|done]. }
    destruct (negb (truthy (raw_start_of block)) || negb (truthy (raw_end_of block)))
      eqn:Hmissing; [by apply IH'|]. bool_to_Prop.
    destruct (parse_iso8601 (raw_start_of block)) as [a|] eqn:Ha;
      cbn [mbind result_bind]; [|done].
    destruct (parse_iso8601 (raw_end_of block)) as [b|] eqn:Hb;
      cbn [mbind result_bind]; [|done].
    unfold dt_leb. destruct (utc b <=? utc a) eqn:Hdeg; [by apply IH'|].
    bool_to_Prop.
    destruct (intersect_half_open_interval a b search_start search_end)
      as [[s e]|] eqn:Hint; [|by apply IH'].
    apply intersect_half_open_interval_Some in Hint as (Hs & He & Hse).
    intros Hc. apply IH' in Hc as (ivs & -> & Hall).
    exists ((s, e) :: ivs). split; [by rewrite <- app_assoc|].
    constructor; [|done]. exists block, a, b. cbn.
    split; [left|]. split; [by repeat split|]. done.
Qed.

Lemma collect_events_origin busy_schedules search_start search_end : ∀ events out,
  collect_events busy_schedules search_start search_end events = Ok out →
  ∃ ivs, out = events ++ events_of_intervals ivs
    ∧ Forall (λ iv : datetime * datetime,
                ∃ p a b, p ∈ busy_schedules ∧ busy_interval_of p a b
                  ∧ utc iv.1 = Z.max (utc a) (utc search_start)
                  ∧ utc iv.2 = Z.min (utc b) (utc search_end)
                  ∧ utc iv.1 < utc iv.2) ivs.
Proof.
  induction busy_schedules as [|p ps IH]; intros events out; cbn [collect_events].
  - intros [= <-]. exists []. by rewrite app_nil_r.
  - destruct (collect_block_events (default [] (busy p)) search_start search_end
                events) as [events'|] eqn:Hb; cbn [mbind result_bind]; [|done].
    apply collect_block_events_origin in Hb as (ivs1 & -> & Hall1).
    intros Hc. apply IH in Hc as (ivs2 & -> & Hall2).
    exists (ivs1 ++ ivs2). split; [by rewrite events_of_intervals_app, app_assoc|].
    apply Forall_app. split.
    + eapply Forall_impl; [exact Hall1|].
      intros iv (block & a & b & ? & ? & ?). exists p, a, b.
      split; [left|]. split; [by exists block|done].
    + eapply Forall_impl; [exact Hall2|].
      intros iv (p' & a & b & ? & ?). exists p', a, b. split; [by right|done].
Qed.

Lemma elem_of_events_of_intervals (e : event) ivs :
  e ∈ events_of_intervals ivs →
  ∃ iv, iv ∈ ivs ∧ (e = (iv.1, 1) ∨ e = (iv.2, -1)).
Proof.
  induction ivs as [|iv ivs IH]; cbn; [by intros ?%elem_of_nil|].
  intros Hin. apply elem_of_cons in Hin as [->|Hin].
  { exists iv. split; [left|by left]. }
  apply elem_of_cons in Hin as [->|Hin].
  { exists iv. split; [left|by right]. }
  destruct (IH Hin) as (iv' & ? & ?). exists iv'. split; [by right|done].
Qed.

(** Maximality of the returned windows. *)
Lemma windows_maximal_spec (busy_schedules : list person)
    (search_start search_end : datetime) (free_windows : list (datetime * datetime)) :
  utc search_start < utc search_end →
  compute_common_free_windows busy_schedules search_start search_end
  = Ok free_windows →
  Forall (λ w : datetime * datetime,
            (utc w.1 = utc search_start ∨ busy_at busy_schedules (utc w.1 - 1))
            ∧ (utc w.2 = utc search_end ∨ busy_at busy_schedules (utc w.2)))
    free_windows
  ∧ StronglySorted (λ w1 w2 : datetime * datetime, utc w1.2 < utc w2.1)
      free_windows.
Proof.
  intros Hlt Hcompute.
  pose proof (compute_common_free_windows_Ok _ _ _ _ Hcompute) as Hparse.
  destruct (merger_spec busy_schedules search_start search_end Hlt Hparse)
    as (ws & Hc & Hne & _ & Hsorted & Hcov & _).
  rewrite Hcompute in Hc. injection Hc as <-.
  (* a window holds no busy instant *)
  assert (∀ w x, w ∈ free_windows → in_window x w →
                 utc search_start <= x < utc search_end
                 ∧ ¬ busy_at busy_schedules x) as Hfree.
  { intros w x Hw Hx. destruct (proj1 (Hcov x)) as [Hr Hno]; [by eauto|].
    split; [done|]. intros (p & a & b & Hp & Hiv & Hab).
    apply (Hno p a b Hp Hiv). lia. }
  rewrite Forall_forall in Hne.
  (* endpoints are timestamps of events *)
  unfold compute_common_free_windows in Hcompute.
  destruct (collect_events busy_schedules search_start search_end [])
    as [events|] eqn:Hcollect; cbn [mbind result_bind] in Hcompute; [|done].
  apply collect_events_origin in Hcollect as (ivs & -> & Horigin).
  rewrite app_nil_l in Hcompute.
  set (E0 := events_of_intervals ivs ++ [(search_start, 0); (search_end, 0)]) in *.
  destruct (sweep (length (sort_events E0)) (sort_events E0) 0 search_start [])
    as [out|] eqn:Hsweep; [|done].
  injection Hcompute as ->.
  apply sweep_endpoints in Hsweep as (ws & Hout & Hends).
  rewrite app_nil_l in Hout. subst ws.
  assert (∀ t d, (t, d) ∈ sort_events E0 →
            utc t = utc search_start ∨ utc t = utc search_end
            ∨ (∃ p a b, p ∈ busy_schedules ∧ busy_interval_of p a b
                 ∧ utc t = Z.max (utc a) (utc search_start)
                 ∧ Z.max (utc a) (utc search_start) < Z.min (utc b) (utc search_end))
            ∨ (∃ p a b, p ∈ busy_schedules ∧ busy_interval_of p a b
                 ∧ utc t = Z.min (utc b) (utc search_end)
                 ∧ Z.max (utc a) (utc search_start) < Z.min (utc b) (utc search_end)))
    as Hevent.
  { intros t d Hin. rewrite sort_events_Permutation in Hin. subst E0.
    apply elem_of_app in Hin as [Hin|Hin].
    - apply elem_of_events_of_intervals in Hin as (iv & Hiv & Hcase).
      rewrite Forall_forall in Horigin.
      destruct (Horigin iv Hiv) as (p & a & b & Hp & Hbusy & H1 & H2 & H12).
      right. right. destruct Hcase as [[= -> ->]|[= -> ->]].
      + left. exists p, a, b. repeat split; [done..|lia].
      + right. exists p, a, b. repeat split; [done..|lia].
    - apply elem_of_cons in Hin as [[= -> ->]|Hin]; [by left|].
      apply elem_of_cons in Hin as [[= -> ->]|Hin]; [by right; left|].
      by apply elem_of_nil in Hin. }
  assert (Forall (λ w : datetime * datetime,
            (utc w.1 = utc search_start ∨ busy_at busy_schedules (utc w.1 - 1))
            ∧ (utc w.2 = utc search_end ∨ busy_at busy_schedules (utc w.2)))
            free_windows) as Hmax.
  { apply Forall_forall. intros w Hw.
    rewrite Forall_forall in Hends. destruct (Hends w Hw) as [Hleft (d2 & Hright)].
    specialize (Hne w Hw). cbn in Hne.
    destruct (Hfree w (utc w.1) Hw ltac:(unfold in_window; lia)) as [Hr1 Hfree1].
    destruct (Hfree w (utc w.2 - 1) Hw ltac:(unfold in_window; lia)) as [Hr2 Hfree2].
    split.
    - destruct Hleft as [->|(d1 & Hleft)]; [by left|].
      destruct (Hevent _ _ Hleft) as [?|[?|[(p & a & b & Hp & Hiv & Ht & Hclip)
                                          |(p & a & b & Hp & Hiv & Ht & Hclip)]]].
      + by left.
      + lia.
      + exfalso. apply Hfree1. exists p, a, b. repeat split; [done..|lia|lia].
      + right. exists p, a, b. repeat split; [done..|lia|lia].
    - destruct (Hevent _ _ Hright) as [?|[?|[(p & a & b & Hp & Hiv & Ht & Hclip)
                                          |(p & a & b & Hp & Hiv & Ht & Hclip)]]].
      + lia.
      + by left.
      + right. exists p, a, b. repeat split; [done..|lia|lia].
      + exfalso. apply Hfree2. exists p, a, b. repeat split; [done..|lia|lia]. }
  split; [done|].
  eapply StronglySorted_strengthen; [exact Hsorted|].
  intros w1 w2 Hw1 Hw2 Hle. cbn in Hle.
  destruct (decide (utc w1.2 < utc w2.1)) as [|Hn]; [done|]. exfalso.
  assert (utc w1.2 = utc w2.1) as Heq by lia.
  pose proof (Hne w2 Hw2) as Hne2. cbn in Hne2.
  destruct (Hfree w2 (utc w2.1) Hw2 ltac:(unfold in_window; lia)) as [Hr Hfree2].
  rewrite Forall_forall in Hmax. destruct (Hmax w1 Hw1) as [_ [Hend|Hbusy]].
  - lia.
  - apply Hfree2. by rewrite <- Heq.
Qed.

(** X4. The returned windows are maximal: each starts at the start of the
    search window or right after an instant at which somebody is busy, each
    ends at the end of the search window or at an instant at which somebody
    is busy, and between two of them lies at least one instant. *)
Theorem windows_maximal (busy_schedules : list person)
    (search_start search_end : datetime) (free_windows : list (datetime * datetime)) :
  utc search_start < utc search_end →
  compute_common_free_windows busy_schedules search_start search_end
  = Ok free_windows →
  Forall (λ w : datetime * datetime,
            (utc w.1 = utc search_start ∨ busy_at busy_schedules (utc w.1 - 1))
            ∧ (utc w.2 = utc search_end ∨ busy_at busy_schedules (utc w.2)))
    free_windows
  ∧ StronglySorted (λ w1 w2 : datetime * datetime, utc w1.2 < utc w2.1)
      free_windows.
Proof. apply windows_maximal_spec. Qed.

End MergerMore.

Lemma windows_maximal_witness :
  Forall (λ w : datetime * datetime,
            (utc w.1 = utc (at_time 741077 9 0 0 0)
             ∨ busy_at [Fixture.alice; Fixture.bob] (utc w.1 - 1))
            ∧ (utc w.2 = utc (at_time 741077 17 0 0 0)
               ∨ busy_at [Fixture.alice; Fixture.bob] (utc w.2)))
    [(at_time 741077 9 0 0 0, at_time 741077 9 30 0 0);
     (at_time 741077 11 0 0 0, at_time 741077 13 0 0 0);
     (at_time 741077 13 30 0 0, at_time 741077 15 30 0 0)]
  ∧ StronglySorted (λ w1 w2 : datetime * datetime, utc w1.2 < utc w2.1)
      [(at_time 741077 9 0 0 0, at_time 741077 9 30 0 0);
       (at_time 741077 11 0 0 0, at_time 741077 13 0 0 0);
       (at_time 741077 13 30 0 0, at_time 741077 15 30 0 0)].
Proof.
  apply (windows_maximal [Fixture.alice; Fixture.bob]
           (at_time 741077 9 0 0 0) (at_time 741077 17 0 0 0)).
  - vm_compute. reflexivity.
  - vm_compute. reflexivity.
Defined.

(** ** The windows are determined by the busy instants *)

Lemma separated_windows_cons (w : datetime * datetime) ws :
  separated_windows (w :: ws) →
  utc w.1 < utc w.2 ∧ Forall (λ v, utc w.2 < utc v.1) ws ∧ separated_windows ws.
Proof.
  intros [Hne Hs]. inversion_clear Hne. inversion_clear Hs.
  repeat split; done.
Qed.

Lemma covered_cons (w : datetime * datetime) ws x :
  covered (w :: ws) x ↔ in_window x w ∨ covered ws x.
Proof.
  unfold covered. split.
  - intros (v & Hin & Hx). apply elem_of_cons in Hin as [->|Hin]; [by left|].
    right. by exists v.
  - intros [Hx|(v & Hin & Hx)]; [exists w; split; [left|done]|].
    exists v. split; [by right|done].
Qed.

Lemma covered_after (w : datetime * datetime) ws x :
  Forall (λ v : datetime * datetime, utc w.2 < utc v.1) ws → covered ws x →
  utc w.2 < x.
Proof.
  intros Hall (v & Hin & Hx). rewrite Forall_forall in Hall.
  specialize (Hall v Hin). unfold in_window in Hx. lia.
Qed.

Lemma head_start_le w r w' r' :
  separated_windows (w :: r) → separated_windows (w' :: r') →
  (∀ x, covered (w :: r) x → covered (w' :: r') x) →
  utc w'.1 <= utc w.1.
Proof.
  intros (Hw & _ & _)%separated_windows_cons (Hw' & Hafter' & _)%separated_windows_cons
    Hincl.
  destruct (proj1 (covered_cons w' r' (utc w.1))) as [Hx|Hx].
  { apply Hincl, covered_cons. left. unfold in_window. lia. }
  - unfold in_window in Hx. lia.
  - pose proof (covered_after _ _ _ Hafter' Hx). lia.
Qed.

Lemma head_end_le w r w' r' :
  separated_windows (w :: r) → separated_windows (w' :: r') →
  utc w.1 = utc w'.1 →
  (∀ x, covered (w' :: r') x → covered (w :: r) x) →
  utc w'.2 <= utc w.2.
Proof.
  intros (Hw & Hafter & _)%separated_windows_cons (Hw' & _ & _)%separated_windows_cons
    Hstart Hincl.
  destruct (decide (utc w'.2 <= utc w.2)) as [|Hn]; [done|]. exfalso.
  destruct (proj1 (covered_cons w r (utc w.2))) as [Hx|Hx].
  { apply Hincl, covered_cons. left. unfold in_window. lia. }
  - unfold in_window in Hx. lia.
  - pose proof (covered_after _ _ _ Hafter Hx). lia.
Qed.

Lemma tail_covered w r w' r' :
  separated_windows (w :: r) →
  utc w.1 = utc w'.1 → utc w.2 = utc w'.2 →
  (∀ x, covered (w :: r) x → covered (w' :: r') x) →
  ∀ x, covered r x → covered r' x.
Proof.
  intros (Hw & Hafter & _)%separated_windows_cons Hstart Hend Hincl x Hx.
  pose proof (covered_after _ _ _ Hafter Hx).
  destruct (proj1 (covered_cons w' r' x)) as [Hx'|Hx']; [|unfold in_window in *; lia|done].
  apply Hincl, covered_cons. by right.
Qed.

(** Two lists of separated windows that cover the same instants have the
    same endpoints. *)
Lemma separated_windows_unique ws : ∀ ws',
  separated_windows ws → separated_windows ws' →
  (∀ x, covered ws x ↔ covered ws' x) →
  window_instants ws = window_instants ws'.
Proof.
  induction ws as [|w r IH]; intros [|w' r'] Hs Hs' Hcov.
  - done.
  - exfalso. apply separated_windows_cons in Hs' as (Hw' & _ & _).
    destruct (proj2 (Hcov (utc w'.1))) as (v & Hin & _); [|by apply elem_of_nil in Hin].
    apply covered_cons. left. unfold in_window. lia.
  - exfalso. apply separated_windows_cons in Hs as (Hw & _ & _).
    destruct (proj1 (Hcov (utc w.1))) as (v & Hin & _); [|by apply elem_of_nil in Hin].
    apply covered_cons. left. unfold in_window. lia.
  - assert (utc w.1 = utc w'.1) as Hstart.
    { pose proof (head_start_le w r w' r' Hs Hs' (λ x, proj1 (Hcov x))).
      pose proof (head_start_le w' r' w r Hs' Hs (λ x, proj2 (Hcov x))). lia. }
    assert (utc w.2 = utc w'.2) as Hend.
    { pose proof (head_end_le w r w' r' Hs Hs' Hstart (λ x, proj2 (Hcov x))).
      pose proof (head_end_le w' r' w r Hs' Hs (eq_sym Hstart) (λ x, proj1 (Hcov x))).
      lia. }
    cbn. rewrite Hstart, Hend. f_equal.
    apply IH.
    + by apply separated_windows_cons in Hs as (_ & _ & ?).
    + by apply separated_windows_cons in Hs' as (_ & _ & ?).
    + intros x. split.
      * by apply (tail_covered w r w' r' Hs Hstart Hend (λ x, proj1 (Hcov x))).
      * by apply (tail_covered w' r' w r Hs' (eq_sym Hstart) (eq_sym Hend)
                    (λ x, proj2 (Hcov x))).
Qed.

Section MergerDetermined.
Context `{PyStdlib}.

Lemma parseable_Permutation bs bs' : bs ≡ₚ bs' → parseable bs → parseable bs'.
Proof. unfold parseable. by intros ->. Qed.

Lemma busy_at_Permutation bs bs' x : bs ≡ₚ bs' → busy_at bs x ↔ busy_at bs' x.
Proof.
  intros Hperm. unfold busy_at. split.
  - intros (p & a & b & Hp & ?). exists p, a, b. split; [by rewrite <- Hperm|done].
  - intros (p & a & b & Hp & ?). exists p, a, b. split; [by rewrite Hperm|done].
Qed.

(** X5. The merger's answer depends only on the instants at which somebody is
    busy inside the search window: two schedule lists that agree on these,
    in particular the same entries in another order, give windows with the
    same endpoints. *)
Theorem windows_determined_by_busy_instants (busy_schedules busy_schedules' : list person)
    (search_start search_end : datetime)
    (free_windows free_windows' : list (datetime * datetime)) :
  utc search_start < utc search_end →
  compute_common_free_windows busy_schedules search_start search_end
  = Ok free_windows →
  compute_common_free_windows busy_schedules' search_start search_end
  = Ok free_windows' →
  (∀ x, utc search_start <= x < utc search_end →
        (busy_at busy_schedules x ↔ busy_at busy_schedules' x)) →
  window_instants free_windows = window_instants free_windows'.
Proof.
  intros Hlt Hc Hc' Hsame.
  assert (∀ bs ws, compute_common_free_windows bs search_start search_end = Ok ws →
            separated_windows ws
            ∧ ∀ x, covered ws x ↔
                   (utc search_start <= x < utc search_end ∧ ¬ busy_at bs x))
    as Hshape.
  { intros bs ws Hcompute.
    pose proof (compute_common_free_windows_Ok _ _ _ _ Hcompute) as Hparse.
    destruct (merger_spec bs search_start search_end Hlt Hparse)
      as (ws0 & Hc0 & Hne & _ & _ & Hcov & _).
    rewrite Hcompute in Hc0. injection Hc0 as <-.
    destruct (windows_maximal_spec bs search_start search_end ws Hlt Hcompute)
      as [_ Hsep].
    split; [by split|]. intros x. unfold covered. rewrite Hcov. split.
    - intros [Hx Hno]. split; [done|]. intros (p & a & b & Hp & Hiv & Hab).
      apply (Hno p a b Hp Hiv). lia.
    - intros [Hx Hno]. split; [done|]. intros p a b Hp Hiv Hclip.
      apply Hno. exists p, a, b. repeat split; [done..|lia|lia]. }
  destruct (Hshape _ _ Hc) as [Hs Hcov]. destruct (Hshape _ _ Hc') as [Hs' Hcov'].
  apply separated_windows_unique; [done..|].
  intros x. rewrite Hcov, Hcov'. split; intros [Hx Hno]; (split; [done|]).
  - by rewrite <- (Hsame x Hx).
  - by rewrite (Hsame x Hx).
Qed.

End MergerDetermined.

(** * Further properties of the slot expander and the view *)

Lemma is_within_workday_utc_Ok s e wsh weh (within : bool) :
  is_within_workday_utc s e wsh weh = Ok within →
  (within = true ↔ workday_ok wsh weh (utc s) (utc e))
  ∧ 0 <= wsh <= 23 ∧ 0 <= weh <= 23.
Proof.
  unfold is_within_workday_utc, astimezone_utc, replace_hour.
  destruct (in_range (utc s)); cbn [mbind result_bind]; [|done].
  destruct (in_range (utc e)); cbn [mbind result_bind]; [|done].
  cbn [wall utcoffset].
  destruct ((0 <=? wsh) && (wsh <=? 23)) eqn:Hsh; cbn [mbind result_bind]; [|done].
  destruct ((0 <=? weh) && (weh <=? 23)) eqn:Heh; cbn [mbind result_bind]; [|done].
  intros [= <-]. bool_to_Prop. split; [|lia].
  unfold dt_leb. rewrite !utc_mkdatetime_0, andb_true_iff, !Z.leb_le.
  assert (utc s - utc s `mod` US_PER_DAY = utc_date (utc s) * US_PER_DAY) as ->.
  { unfold utc_date. unfold_units. Z.div_mod_to_equations. lia. }
  reflexivity.
Qed.

Section ExpanderMore.
Context `{PyStdlib}.

(** The inner loop, in full: the slots it renders are UTC, ascending on the
    grid of [slot_start], and are exactly the grid points up to
    [last_valid_start] that pass the workday test. *)
Lemma slot_loop_full fuel : ∀ slot_start last_valid_start duration_delta
    workday_start_hour workday_end_hour available_slots out,
  slot_loop fuel slot_start last_valid_start duration_delta
    workday_start_hour workday_end_hour available_slots = Ok out →
  utcoffset slot_start = 0 →
  ∃ slots new,
    out = available_slots ++ new
    ∧ Forall2 rendered slots new
    ∧ Forall (λ slot : datetime * datetime,
                utcoffset slot.1 = 0 ∧ utcoffset slot.2 = 0
                ∧ utc slot_start <= utc slot.1 <= utc last_valid_start
                ∧ utc slot.2 = utc slot.1 + duration_delta
                ∧ ((utc slot.1 - utc slot_start) `mod` HALF_HOUR = 0)
                ∧ workday_ok workday_start_hour workday_end_hour
                    (utc slot.1) (utc slot.2)) slots
    ∧ StronglySorted (λ a b : datetime * datetime, utc a.1 < utc b.1) slots
    ∧ ∀ x, utc slot_start <= x <= utc last_valid_start →
           (x - utc slot_start) `mod` HALF_HOUR = 0 →
           workday_ok workday_start_hour workday_end_hour x (x + duration_delta) →
           ∃ slot, slot ∈ slots ∧ utc slot.1 = x.
Proof.
  induction fuel as [|fuel IH];
    intros slot_start last dur wsh weh acc out; cbn [slot_loop]; unfold dt_leb.
  - destruct (utc slot_start <=? utc last) eqn:Hle; [done|]. bool_to_Prop.
    intros [= <-] _. exists [], []. rewrite app_nil_r.
    repeat split; try constructor. intros x ?. lia.
  - destruct (utc slot_start <=? utc last) eqn:Hle; bool_to_Prop.
    2:{ intros [= <-] _. exists [], []. rewrite app_nil_r.
        repeat split; try constructor. intros x ?. lia. }
    destruct (dt_add slot_start dur) as [slot_end|] eqn:Hend;
      cbn [mbind result_bind]; [|done].
    destruct (is_within_workday_utc slot_start slot_end wsh weh)
      as [within|] eqn:Hwithin; cbn [mbind result_bind]; [|done].
    apply dt_add_Ok in Hend as (_ & Hendoff & Hend & _).
    apply is_within_workday_utc_Ok in Hwithin as [Hwithin _].
    intros Hloop Hoff.
    assert (∃ acc' next,
              dt_add slot_start HALF_HOUR = Ok next
              ∧ slot_loop fuel next last dur wsh weh acc' = Ok out
              ∧ ((within = true ∧ ∃ start end_,
                    rendered (slot_start, slot_end) (start, end_)
                    ∧ acc' = acc ++ [(start, end_)])
                 ∨ (within = false ∧ acc' = acc))) as (acc' & next & Hnext & Hrec & Hacc).
    { destruct within.
      - destruct (to_iso8601_utc slot_start) as [start|] eqn:Hs;
          cbn [mbind result_bind] in Hloop; [|done].
        destruct (to_iso8601_utc slot_end) as [end_|] eqn:He;
          cbn [mbind result_bind] in Hloop; [|done].
        destruct (dt_add slot_start HALF_HOUR) as [next|] eqn:Hnext;
          cbn [mbind result_bind] in Hloop; [|done].
        exists (acc ++ [(start, end_)]), next. split; [done|]. split; [done|].
        left. split; [done|]. by exists start, end_.
      - cbn [mbind result_bind] in Hloop.
        destruct (dt_add slot_start HALF_HOUR) as [next|] eqn:Hnext;
          cbn [mbind result_bind] in Hloop; [|done].
        exists acc, next. split; [done|]. split; [done|]. by right. }
    apply dt_add_Ok in Hnext as (_ & Hnextoff & Hnext & _).
    apply IH in Hrec as (slots & new & -> & Hr & Hall & Hsorted & Hcomplete);
      [|lia].
    assert (0 < HALF_HOUR) as Hhalf by (unfold_units; lia).
    assert (Forall (λ slot : datetime * datetime,
                utcoffset slot.1 = 0 ∧ utcoffset slot.2 = 0
                ∧ utc slot_start <= utc slot.1 <= utc last
                ∧ utc slot.2 = utc slot.1 + dur
                ∧ ((utc slot.1 - utc slot_start) `mod` HALF_HOUR = 0)
                ∧ workday_ok wsh weh (utc slot.1) (utc slot.2)) slots
            ∧ Forall (λ slot : datetime * datetime, utc slot_start < utc slot.1) slots)
      as [Hall' Hlater].
    { split; (eapply Forall_impl; [exact Hall|]);
        intros slot (? & ? & ? & ? & Hmod & ?); [|lia].
      split; [done|]. split; [done|]. split; [lia|]. split; [done|].
      split; [|done].
      rewrite Hnext in Hmod. revert Hmod. unfold_units. intros.
      Z.div_mod_to_equations. lia. }
    assert (∀ x, utc slot_start < x <= utc last →
                 (x - utc slot_start) `mod` HALF_HOUR = 0 →
                 workday_ok wsh weh x (x + dur) →
                 ∃ slot, slot ∈ slots ∧ utc slot.1 = x) as Hcomplete'.
    { intros x Hx Hmod Hok. apply Hcomplete; [| |done].
      - rewrite Hnext. revert Hmod Hx. unfold_units. intros.
        Z.div_mod_to_equations. lia.
      - rewrite Hnext. revert Hmod. unfold_units. intros.
        Z.div_mod_to_equations. lia. }
    destruct Hacc as [[-> (start & end_ & Hrend & ->)]|[-> ->]].
    + exists ((slot_start, slot_end) :: slots), ((start, end_) :: new).
      split; [by rewrite <- app_assoc|]. split; [by constructor|].
      split; [|split].
      * constructor; [|done]. cbn. rewrite Z.sub_diag.
        split; [done|]. split; [lia|]. split; [lia|]. split; [done|].
        split; [done|]. by apply Hwithin.
      * constructor; [done|]. done.
      * intros x Hx Hmod Hok. destruct (decide (x = utc slot_start)) as [->|Hne].
        -- exists (slot_start, slot_end). split; [left|done].
        -- destruct (Hcomplete' x) as (slot & ? & ?); [lia|done..|].
           exists slot. split; [by right|done].
    + exists slots, new. split; [done|]. split; [done|]. split; [done|].
      split; [done|].
      intros x Hx Hmod Hok. destruct (decide (x = utc slot_start)) as [->|Hne].
      * exfalso. rewrite <- Hend in Hok. apply Hwithin in Hok. done.
      * apply Hcomplete'; [lia|done..].
Qed.

(** The window loop, in full. *)
Lemma expand_free_windows_full free_windows : ∀ min_slot_start duration_delta
    workday_start_hour workday_end_hour available_slots out,
  expand_free_windows free_windows min_slot_start duration_delta
    workday_start_hour workday_end_hour available_slots = Ok out →
  ∃ slots new,
    out = available_slots ++ new
    ∧ Forall2 rendered slots new
    ∧ Forall (λ slot : datetime * datetime,
                utcoffset slot.1 = 0 ∧ utcoffset slot.2 = 0
                ∧ (∃ w, w ∈ free_windows ∧ utc w.1 <= utc slot.1
                        ∧ utc slot.1 + duration_delta <= utc w.2)
                ∧ utc min_slot_start <= utc slot.1
                ∧ utc slot.2 = utc slot.1 + duration_delta
                ∧ utc slot.1 `mod` HALF_HOUR = 0
                ∧ workday_ok workday_start_hour workday_end_hour
                    (utc slot.1) (utc slot.2)) slots
    ∧ (0 < duration_delta →
       StronglySorted (λ w1 w2 : datetime * datetime, utc w1.2 <= utc w2.1)
         free_windows →
       StronglySorted (λ a b : datetime * datetime, utc a.1 < utc b.1) slots)
    ∧ ∀ w x, w ∈ free_windows →
             utc w.1 <= x → utc min_slot_start <= x →
             x + duration_delta <= utc w.2 →
             x `mod` HALF_HOUR = 0 →
             workday_ok workday_start_hour workday_end_hour x (x + duration_delta) →
             ∃ slot, slot ∈ slots ∧ utc slot.1 = x.
Proof.
  induction free_windows as [|[window_start window_end] rest IH];
    intros mss dur wsh weh acc out; cbn [expand_free_windows].
  - intros [= <-]. exists [], []. rewrite app_nil_r.
    repeat split; try constructor. intros w x Hw. by apply elem_of_nil in Hw.
  - destruct (ceil_to_half_hour_boundary (py_max window_start mss))
      as [slot_start|] eqn:Hceil; cbn [mbind result_bind]; [|done].
    unfold dt_sub.
    destruct (dt_add window_end (- dur)) as [last|] eqn:Hlast;
      cbn [mbind result_bind]; [|done].
    destruct (slot_loop (slot_fuel slot_start last) slot_start last dur wsh weh acc)
      as [acc'|] eqn:Hloop; cbn [mbind result_bind]; [|done].
    intros Hrest.
    apply IH in Hrest as (slots2 & new2 & -> & Hr2 & Hall2 & Hsorted2 & Hcomplete2).
    pose proof (ceil_utc _ _ Hceil) as Hcu. rewrite utc_py_max in Hcu.
    apply ceil_ok in Hceil as (_ & Hoff & _).
    apply slot_loop_full in Hloop
      as (slots1 & new1 & -> & Hr1 & Hall1 & Hsorted1 & Hcomplete1); [|done].
    apply dt_add_Ok in Hlast as (_ & _ & Hlast & _).
    pose proof (half_hour_ceiling_ge (Z.max (utc window_start) (utc mss))) as Hge.
    pose proof (half_hour_ceiling_mod (Z.max (utc window_start) (utc mss))) as Hmod.
    rewrite <- Hcu in Hge, Hmod.
    assert (Forall (λ slot : datetime * datetime,
                utcoffset slot.1 = 0 ∧ utcoffset slot.2 = 0
                ∧ (utc window_start <= utc slot.1 ∧ utc slot.1 + dur <= utc window_end)
                ∧ utc mss <= utc slot.1
                ∧ utc slot.2 = utc slot.1 + dur
                ∧ utc slot.1 `mod` HALF_HOUR = 0
                ∧ workday_ok wsh weh (utc slot.1) (utc slot.2)) slots1) as Hall1'.
    { eapply Forall_impl; [exact Hall1|].
      intros slot (? & ? & ? & ? & Hgrid & ?).
      split; [done|]. split; [done|]. split; [lia|]. split; [lia|].
      split; [done|]. split; [|done].
      revert Hgrid Hmod. unfold_units. intros. Z.div_mod_to_equations. lia. }
    exists (slots1 ++ slots2), (new1 ++ new2).
    split; [by rewrite app_assoc|]. split; [by apply Forall2_app|].
    split; [|split].
    + apply Forall_app. split.
      * eapply Forall_impl; [exact Hall1'|].
        intros slot (? & ? & ? & ?). split; [done|]. split; [done|].
        split; [|done].
        exists (window_start, window_end). split; [left|done].
      * eapply Forall_impl; [exact Hall2|].
        intros slot (? & ? & (w & ? & ?) & ?). split; [done|]. split; [done|].
        split; [|done].
        exists w. split; [by right|done].
    + intros Hdur Hws. apply StronglySorted_cons in Hws as [Hafter Hws].
      apply StronglySorted_app_2; [|done|by apply Hsorted2].
      intros s1 s2 Hs1 Hs2.
      rewrite Forall_forall in Hall1'. destruct (Hall1' _ Hs1) as (_ & _ & [_ ?] & _).
      rewrite Forall_forall in Hall2.
      destruct (Hall2 _ Hs2) as (_ & _ & (w & Hw & ? & _) & _).
      rewrite Forall_forall in Hafter. specialize (Hafter w Hw). cbn in Hafter. lia.
    + intros w x Hw Hx1 Hx2 Hx3 Hx4 Hok.
      apply elem_of_cons in Hw as [->|Hw].
      * destruct (Hcomplete1 x) as (slot & ? & ?); [| |done|].
        -- cbn in *. split; [|lia]. rewrite Hcu.
           revert Hx4. unfold half_hour_ceiling. unfold_units. intros.
           Z.div_mod_to_equations. lia.
        -- revert Hx4 Hmod. unfold_units. intros. Z.div_mod_to_equations. lia.
        -- exists slot. split; [|done]. apply elem_of_app. by left.
      * destruct (Hcomplete2 w x) as (slot & ? & ?); [done..|].
        exists slot. split; [|done]. apply elem_of_app. by right.
Qed.

End ExpanderMore.

Section ViewMore.
Context `{PyStdlib}.

Ltac unfold_handler H :=
  unfold mbind, mret, handler_bind, handler_ret, result_bind, perform,
    return_response, lift in H;
  lazy beta iota zeta in H.

Ltac destruct_scrutinee H :=
  match type of H with
  | context [match ?x with _ => _ end] =>
      lazymatch x with
      | context [match _ with _ => _ end] => fail
      | _ => destruct x eqn:?
      end
  end; lazy beta iota zeta in H.

Ltac collect_facts :=
  repeat match goal with
  | Hv : is_valid _ = ValidatedData _ |- _ =>
      apply is_valid_ValidatedData in Hv; subst
  | Hd : dt_add _ _ = Ok _ |- _ => apply dt_add_Ok in Hd as (? & ? & ? & ?)
  | Hd : dt_add _ _ = Raise _ |- _ => apply dt_add_exn in Hd
  | Ha : astimezone_utc _ = Ok _ |- _ =>
      apply astimezone_utc_Ok in Ha as (? & ? & ? & ?)
  | Ha : astimezone_utc _ = Raise _ |- _ => apply astimezone_utc_exn in Ha
  | Ht : timedelta_of_minutes _ = Ok _ |- _ =>
      apply timedelta_of_minutes_Ok in Ht; subst
  | Ht : timedelta_of_minutes _ = Raise _ |- _ =>
      apply timedelta_of_minutes_exn in Ht
  end.

Ltac resolve_window :=
  unfold resolved_search_end, resolved_search_start, resolved_start_hour,
    resolved_end_hour, dt_leb in *;
  bool_to_Prop;
  repeat match goal with
  | Hq : q_end _ = _ |- _ => rewrite Hq in *
  end;
  destruct (q_start _); cbn [default] in *;
  unfold Datatypes.id in *; rewrite ?utc_mkdatetime_0 in *;
  unfold DEFAULT_START_HOUR, DEFAULT_END_HOUR, DEFAULT_SEARCH_DAYS,
    timedelta_hours, timedelta_days in *;
  lia.

(** Everything a run that answers with a payload has computed. *)
Lemma get_payload_full w request id r trace p :
  run (get w request id) = (Ok r, trace) → data r = PayloadBody p →
  ∃ template earliest_allowed search_start search_end min_slot_start free_windows,
    templates w !! id = Some template
    ∧ ceil_to_half_hour_boundary (py_max search_start earliest_allowed)
      = Ok min_slot_start
    ∧ compute_common_free_windows
        (get_free_busy_data w (template_interviewers template))
        search_start search_end = Ok free_windows
    ∧ expand_free_windows free_windows min_slot_start
        (timedelta_minutes (template_duration template))
        (resolved_start_hour request) (resolved_end_hour request) []
      = Ok (availableSlots p)
    ∧ human_readable_slots_of (availableSlots p)
      = Ok (humanReadable_availableSlots p)
    ∧ format_interviewer_busy_times_human_readable
        (get_free_busy_data w (template_interviewers template))
      = Ok (humanReadable_interviewerBusyTimes p)
    ∧ utc earliest_allowed = clock w + timedelta_hours 24
    ∧ utc search_start = resolved_search_start request (clock w)
    ∧ utc search_end = resolved_search_end request (clock w)
    ∧ utc search_start < utc search_end
    ∧ resolved_start_hour request < resolved_end_hour request
    ∧ interviewId p = template_id template
    ∧ payload_name p = template_name template
    ∧ durationMinutes p = template_duration template
    ∧ interviewers p
      = (λ i, (i, default "Unknown"%string
                    (interviewer_names_of
                       (get_free_busy_data w (template_interviewers template))
                     !! i)))
        <$> template_interviewers template
    ∧ workHours p = (resolved_start_hour request, resolved_end_hour request)
    ∧ status r = HTTP_200_OK
    ∧ trace = [TemplateGet id; ClockNow; InterviewersAll id;
               GetFreeBusyData (template_interviewers template)].
Proof.
  unfold run, get. intros Hrun Hp.
  unfold_handler Hrun.
  repeat (destruct_scrutinee Hrun; try discriminate);
    injection Hrun as <- <-; cbn in Hp; try discriminate;
    injection Hp as <-;
    cbn [availableSlots durationMinutes workHours status interviewId payload_name
         interviewers humanReadable_availableSlots
         humanReadable_interviewerBusyTimes];
    collect_facts;
    eexists _, _, _, _, _, _;
    do 6 (split; [first [eassumption | reflexivity]|]);
    (split; [resolve_window|]); (split; [resolve_window|]);
    (split; [resolve_window|]); (split; [resolve_window|]);
    (split; [resolve_window|]);
    do 6 (split; [reflexivity|]); reflexivity.
Qed.

(** The emitted slots, in full. *)
Lemma get_slots_spec w request id r trace p :
  run (get w request id) = (Ok r, trace) → data r = PayloadBody p →
  ∃ template slots,
    templates w !! id = Some template
    ∧ Forall2 rendered slots (availableSlots p)
    ∧ Forall (λ slot : datetime * datetime,
                utcoffset slot.1 = 0 ∧ utcoffset slot.2 = 0
                ∧ utc slot.1 `mod` HALF_HOUR = 0
                ∧ utc slot.2 = utc slot.1 + timedelta_minutes (durationMinutes p)
                ∧ resolved_search_start request (clock w) <= utc slot.1
                ∧ utc slot.2 <= resolved_search_end request (clock w)
                ∧ workday_ok (resolved_start_hour request)
                    (resolved_end_hour request) (utc slot.1) (utc slot.2)) slots
    ∧ (0 < durationMinutes p →
       StronglySorted (λ a b : datetime * datetime, utc a.1 < utc b.1) slots)
    ∧ (0 < durationMinutes p →
       ∀ x, x `mod` HALF_HOUR = 0 →
            resolved_search_start request (clock w) <= x →
            clock w + timedelta_hours 24 <= x →
            x + timedelta_minutes (durationMinutes p)
            <= resolved_search_end request (clock w) →
            (∀ y, x <= y < x + timedelta_minutes (durationMinutes p) →
                  ¬ busy_at (get_free_busy_data w (template_interviewers template)) y) →
            workday_ok (resolved_start_hour request) (resolved_end_hour request)
              x (x + timedelta_minutes (durationMinutes p)) →
            ∃ slot, slot ∈ slots ∧ utc slot.1 = x).
Proof.
  intros Hrun Hp.
  destruct (get_payload_full _ _ _ _ _ _ Hrun Hp)
    as (template & ea & ss & se & mss & fw & Ht & Hmss & Hfw & Hexp & _ & _
        & Hea & Hss & Hse & Hlt & _ & _ & _ & Hdur & _).
  rewrite Hdur, <- Hss, <- Hse.
  set (bs := get_free_busy_data w (template_interviewers template)) in *.
  set (dur := timedelta_minutes (template_duration template)) in *.
  apply expand_free_windows_full in Hexp
    as (slots & new & Hnew & Hr & Hall & Hsorted & Hcomplete).
  rewrite app_nil_l in Hnew. subst new.
  pose proof (compute_common_free_windows_Ok _ _ _ _ Hfw) as Hparse.
  destruct (merger_spec bs ss se Hlt Hparse)
    as (ws & Hc & Hne & _ & Hdisjoint & Hcov & _).
  rewrite Hfw in Hc. injection Hc as <-.
  destruct (windows_maximal_spec bs ss se fw Hlt Hfw) as [Hmax _].
  rewrite Forall_forall in Hne, Hmax.
  assert (∀ win, win ∈ fw → utc ss <= utc win.1 ∧ utc win.2 <= utc se) as Hinside.
  { intros win Hwin. specialize (Hne win Hwin). cbn in Hne.
    destruct (proj1 (Hcov (utc win.1))) as [? _].
    { exists win. split; [done|]. unfold in_window. lia. }
    destruct (proj1 (Hcov (utc win.2 - 1))) as [? _].
    { exists win. split; [done|]. unfold in_window. lia. }
    lia. }
  exists template, slots. split; [done|]. split; [done|]. split; [|split].
  - eapply Forall_impl; [exact Hall|].
    intros slot (? & ? & (win & Hwin & ? & ?) & ? & ? & ? & ?).
    destruct (Hinside win Hwin).
    split; [done|]. split; [done|]. split; [done|]. split; [done|].
    split; [lia|]. split; [lia|]. done.
  - intros Hpos. apply Hsorted; [|done]. subst dur. unfold_units. lia.
  - intros Hpos x Hgrid Hx1 Hx2 Hx3 Hfree Hok.
    assert (0 < dur) as Hdurpos by (subst dur; unfold_units; lia).
    destruct (proj2 (Hcov x)) as (win & Hwin & Hxin).
    { split; [lia|]. intros person a b Hperson Hiv Hclip.
      apply (Hfree x); [lia|]. exists person, a, b. repeat split; [done..|lia|lia]. }
    unfold in_window in Hxin.
    apply (Hcomplete win x Hwin); [lia| | |done..].
    + pose proof (ceil_utc _ _ Hmss) as Hu. rewrite utc_py_max in Hu. rewrite Hu.
      revert Hgrid. unfold half_hour_ceiling. rewrite Hea. unfold_units. intros.
      Z.div_mod_to_equations. lia.
    + destruct (decide (x + dur <= utc win.2)) as [|Hn]; [done|]. exfalso.
      destruct (Hmax win Hwin) as [_ [Hend|Hbusy]]; [lia|].
      apply (Hfree (utc win.2)); [lia|done].
Qed.

(** X6. Alignment: every emitted slot is a pair of UTC datetimes whose start
    has minute 0 or 30 and no seconds or microseconds. *)
Theorem emitted_slots_aligned (w : world) (request : query_params) (id : Z)
    (r : response) (trace : list call) (p : payload) :
  run (get w request id) = (Ok r, trace) → data r = PayloadBody p →
  ∃ slots,
    Forall2 rendered slots (availableSlots p)
    ∧ Forall (λ slot : datetime * datetime,
                utcoffset slot.1 = 0 ∧ utcoffset slot.2 = 0
                ∧ (dt_minute slot.1 = 0 ∨ dt_minute slot.1 = 30)
                ∧ dt_second slot.1 = 0 ∧ dt_microsecond slot.1 = 0) slots.
Proof.
  intros Hrun Hp.
  destruct (get_slots_spec _ _ _ _ _ _ Hrun Hp) as (_ & slots & _ & Hr & Hall & _).
  exists slots. split; [done|]. eapply Forall_impl; [exact Hall|].
  intros slot (Ho1 & Ho2 & Hgrid & _). split; [done|]. split; [done|].
  unfold utc in Hgrid. rewrite Ho1, Z.sub_0_r in Hgrid.
  unfold dt_minute, dt_second, dt_microsecond. revert Hgrid. unfold_units. intros.
  repeat split; Z.div_mod_to_equations; lia.
Qed.

(** X7. Every emitted slot lies inside the search window after defaults. *)
Theorem emitted_slots_within_search_window (w : world) (request : query_params)
    (id : Z) (r : response) (trace : list call) (p : payload) :
  run (get w request id) = (Ok r, trace) → data r = PayloadBody p →
  ∃ slots,
    Forall2 rendered slots (availableSlots p)
    ∧ Forall (λ slot : datetime * datetime,
                resolved_search_start request (clock w) <= utc slot.1
                ∧ utc slot.2 <= resolved_search_end request (clock w)) slots.
Proof.
  intros Hrun Hp.
  destruct (get_slots_spec _ _ _ _ _ _ Hrun Hp) as (_ & slots & _ & Hr & Hall & _).
  exists slots. split; [done|]. eapply Forall_impl; [exact Hall|].
  by intros slot (_ & _ & _ & _ & ? & ? & _).
Qed.

(** X8. Every emitted slot lies inside the workday, taken on the UTC date of
    its start, for the hours of the request or the defaults 9 and 17. *)
Theorem emitted_slots_within_workday (w : world) (request : query_params)
    (id : Z) (r : response) (trace : list call) (p : payload) :
  run (get w request id) = (Ok r, trace) → data r = PayloadBody p →
  ∃ slots,
    Forall2 rendered slots (availableSlots p)
    ∧ Forall (λ slot : datetime * datetime,
                workday_ok (resolved_start_hour request)
                  (resolved_end_hour request) (utc slot.1) (utc slot.2)) slots.
Proof.
  intros Hrun Hp.
  destruct (get_slots_spec _ _ _ _ _ _ Hrun Hp) as (_ & slots & _ & Hr & Hall & _).
  exists slots. split; [done|]. eapply Forall_impl; [exact Hall|].
  by intros slot (_ & _ & _ & _ & _ & _ & ?).
Qed.

(** X9. For a positive duration the emitted slots are in strictly ascending
    order of start: no slot is emitted twice. *)
Theorem emitted_slots_ascending (w : world) (request : query_params)
    (id : Z) (r : response) (trace : list call) (p : payload) :
  run (get w request id) = (Ok r, trace) → data r = PayloadBody p →
  0 < durationMinutes p →
  ∃ slots,
    Forall2 rendered slots (availableSlots p)
    ∧ StronglySorted (λ a b : datetime * datetime, utc a.1 < utc b.1) slots.
Proof.
  intros Hrun Hp Hpos.
  destruct (get_slots_spec _ _ _ _ _ _ Hrun Hp)
    as (_ & slots & _ & Hr & _ & Hsorted & _).
  exists slots. split; [done|]. by apply Hsorted.
Qed.

(** X10. Completeness: for a positive duration, every instant on the half-hour
    grid that is at least 24 hours after the clock reading, whose slot fits
    the search window and the workday and meets no busy instant of the
    fetched schedules, is the start of an emitted slot. *)
Theorem emitted_slots_complete (w : world) (request : query_params)
    (id : Z) (r : response) (trace : list call) (p : payload) :
  run (get w request id) = (Ok r, trace) → data r = PayloadBody p →
  0 < durationMinutes p →
  ∃ template slots,
    templates w !! id = Some template
    ∧ Forall2 rendered slots (availableSlots p)
    ∧ ∀ x, x `mod` HALF_HOUR = 0 →
           resolved_search_start request (clock w) <= x →
           clock w + timedelta_hours 24 <= x →
           x + timedelta_minutes (durationMinutes p)
           <= resolved_search_end request (clock w) →
           (∀ y, x <= y < x + timedelta_minutes (durationMinutes p) →
                 ¬ busy_at (get_free_busy_data w (template_interviewers template)) y) →
           workday_ok (resolved_start_hour request) (resolved_end_hour request)
             x (x + timedelta_minutes (durationMinutes p)) →
           ∃ slot, slot ∈ slots ∧ utc slot.1 = x
                   ∧ utc slot.2 = x + timedelta_minutes (durationMinutes p).
Proof.
  intros Hrun Hp Hpos.
  destruct (get_slots_spec _ _ _ _ _ _ Hrun Hp)
    as (template & slots & Ht & Hr & Hall & _ & Hcomplete).
  exists template, slots. split; [done|]. split; [done|].
  intros x Hgrid Hx1 Hx2 Hx3 Hfree Hok.
  destruct (Hcomplete Hpos x Hgrid Hx1 Hx2 Hx3 Hfree Hok) as (slot & Hin & Hx).
  exists slot. split; [done|]. split; [done|].
  rewrite Forall_forall in Hall. destruct (Hall slot Hin) as (_ & _ & _ & He & _).
  by rewrite He, Hx.
Qed.

End ViewMore.

(** ** Runs of the fixture, again *)

(** Alice and Bob in either order. *)
Lemma windows_determined_by_busy_instants_witness :
  window_instants
    [(at_time 741077 9 0 0 0, at_time 741077 9 30 0 0);
     (at_time 741077 11 0 0 0, at_time 741077 13 0 0 0);
     (at_time 741077 13 30 0 0, at_time 741077 15 30 0 0)]
  = window_instants
      [(at_time 741077 9 0 0 0, at_time 741077 9 30 0 0);
       (at_time 741077 11 0 0 0, at_time 741077 13 0 0 0);
       (at_time 741077 13 30 0 0, at_time 741077 15 30 0 0)].
Proof.
  apply (windows_determined_by_busy_instants
           [Fixture.alice; Fixture.bob] [Fixture.bob; Fixture.alice]
           (at_time 741077 9 0 0 0) (at_time 741077 17 0 0 0)).
  - vm_compute. reflexivity.
  - vm_compute. reflexivity.
  - vm_compute. reflexivity.
  - intros x _. apply busy_at_Permutation, Permutation_swap.
Defined.

Lemma emitted_slots_aligned_witness :
  ∃ r trace p,
    run (get Fixture.the_world (Fixture.request_day 9 17) 1) = (Ok r, trace)
    ∧ data r = PayloadBody p
    ∧ length (availableSlots p) = 6%nat
    ∧ ∃ slots,
        Forall2 rendered slots (availableSlots p)
        ∧ Forall (λ slot : datetime * datetime,
                    utcoffset slot.1 = 0 ∧ utcoffset slot.2 = 0
                    ∧ (dt_minute slot.1 = 0 ∨ dt_minute slot.1 = 30)
                    ∧ dt_second slot.1 = 0 ∧ dt_microsecond slot.1 = 0) slots.
Proof.
  eexists _, _, _. split; [vm_compute; reflexivity|].
  split; [reflexivity|]. split; [reflexivity|].
  eapply (emitted_slots_aligned Fixture.the_world (Fixture.request_day 9 17) 1);
    [vm_compute; reflexivity | reflexivity].
Defined.

Lemma emitted_slots_within_search_window_witness :
  ∃ r trace p,
    run (get Fixture.the_world (Fixture.request_day 9 17) 1) = (Ok r, trace)
    ∧ data r = PayloadBody p
    ∧ length (availableSlots p) = 6%nat
    ∧ ∃ slots,
        Forall2 rendered slots (availableSlots p)
        ∧ Forall (λ slot : datetime * datetime,
                    resolved_search_start (Fixture.request_day 9 17)
                      (clock Fixture.the_world) <= utc slot.1
                    ∧ utc slot.2
                      <= resolved_search_end (Fixture.request_day 9 17)
                           (clock Fixture.the_world)) slots.
Proof.
  eexists _, _, _. split; [vm_compute; reflexivity|].
  split; [reflexivity|]. split; [reflexivity|].
  eapply (emitted_slots_within_search_window
            Fixture.the_world (Fixture.request_day 9 17) 1);
    [vm_compute; reflexivity | reflexivity].
Defined.

(** The second happy-path test: hours 10 to 12 leave one slot. *)
Lemma emitted_slots_within_workday_witness :
  ∃ r trace p,
    run (get Fixture.the_world (Fixture.request_day 10 12) 1) = (Ok r, trace)
    ∧ data r = PayloadBody p
    ∧ length (availableSlots p) = 1%nat
    ∧ ∃ slots,
        Forall2 rendered slots (availableSlots p)
        ∧ Forall (λ slot : datetime * datetime,
                    workday_ok (resolved_start_hour (Fixture.request_day 10 12))
                      (resolved_end_hour (Fixture.request_day 10 12))
                      (utc slot.1) (utc slot.2)) slots.
Proof.
  eexists _, _, _. split; [vm_compute; reflexivity|].
  split; [reflexivity|]. split; [reflexivity|].
  eapply (emitted_slots_within_workday
            Fixture.the_world (Fixture.request_day 10 12) 1);
    [vm_compute; reflexivity | reflexivity].
Defined.

Lemma emitted_slots_ascending_witness :
  ∃ r trace p,
    run (get Fixture.the_world (Fixture.request_day 9 17) 1) = (Ok r, trace)
    ∧ data r = PayloadBody p
    ∧ durationMinutes p = 60
    ∧ ∃ slots,
        Forall2 rendered slots (availableSlots p)
        ∧ StronglySorted (λ a b : datetime * datetime, utc a.1 < utc b.1) slots.
Proof.
  eexists _, _, _. split; [vm_compute; reflexivity|].
  split; [reflexivity|]. split; [reflexivity|].
  eapply (emitted_slots_ascending Fixture.the_world (Fixture.request_day 9 17) 1);
    [vm_compute; reflexivity | reflexivity | reflexivity].
Defined.

Lemma emitted_slots_complete_witness :
  ∃ r trace p,
    run (get Fixture.the_world (Fixture.request_day 9 17) 1) = (Ok r, trace)
    ∧ data r = PayloadBody p
    ∧ durationMinutes p = 60
    ∧ ∃ template slots,
        templates Fixture.the_world !! 1 = Some template
        ∧ Forall2 rendered slots (availableSlots p)
        ∧ ∀ x, x `mod` HALF_HOUR = 0 →
               resolved_search_start (Fixture.request_day 9 17)
                 (clock Fixture.the_world) <= x →
               clock Fixture.the_world + timedelta_hours 24 <= x →
               x + timedelta_minutes (durationMinutes p)
               <= resolved_search_end (Fixture.request_day 9 17)
                    (clock Fixture.the_world) →
               (∀ y, x <= y < x + timedelta_minutes (durationMinutes p) →
                     ¬ busy_at (get_free_busy_data Fixture.the_world
                                  (template_interviewers template)) y) →
               workday_ok (resolved_start_hour (Fixture.request_day 9 17))
                 (resolved_end_hour (Fixture.request_day 9 17))
                 x (x + timedelta_minutes (durationMinutes p)) →
               ∃ slot, slot ∈ slots ∧ utc slot.1 = x
                       ∧ utc slot.2 = x + timedelta_minutes (durationMinutes p).
Proof.
  eexists _, _, _. split; [vm_compute; reflexivity|].
  split; [reflexivity|]. split; [reflexivity|].
  eapply (emitted_slots_complete Fixture.the_world (Fixture.request_day 9 17) 1);
    [vm_compute; reflexivity | reflexivity | reflexivity].
Defined.

(** * Further properties: failure and degenerate inputs of the merger *)

Section MergerEdge.
Context `{PyStdlib}.

Lemma collect_events_Ok_iff busy_schedules search_start search_end :
  match collect_events busy_schedules search_start search_end [] with
  | Ok _ => parseable busy_schedules
  | Raise e => e = ValueError ∧ ¬ parseable busy_schedules
  end.
Proof.
  destruct (collect_events busy_schedules search_start search_end []) as [ev|e] eqn:Hc.
  - by eapply collect_events_Ok.
  - split; [by eapply collect_events_exn|]. intros Hp.
    destruct (collect_events_spec busy_schedules search_start search_end [] Hp)
      as (ivs & Hc' & _).
    rewrite Hc in Hc'. discriminate.
Qed.

Lemma compute_common_free_windows_outcome busy_schedules search_start search_end :
  match compute_common_free_windows busy_schedules search_start search_end with
  | Ok _ => parseable busy_schedules
  | Raise e => e = ValueError ∧ ¬ parseable busy_schedules
  end.
Proof.
  pose proof (collect_events_Ok_iff busy_schedules search_start search_end) as Hc.
  unfold compute_common_free_windows.
  destruct (collect_events busy_schedules search_start search_end []) as [ev|e];
    cbn [mbind result_bind]; [|done].
  set (E := sort_events _).
  by destruct (sweep_fuel (length E) E 0 search_start []) as [ws ->].
Qed.

(** X11. The merger returns exactly on the schedules whose blocks, when they
    carry both values, carry two strings [fromisoformat] accepts; on all
    others it raises ValueError.  The search window plays no part, and the
    sweep always ends. *)
Theorem merger_returns_iff_parseable (busy_schedules : list person)
    (search_start search_end : datetime) :
  match compute_common_free_windows busy_schedules search_start search_end with
  | Ok _ => parseable busy_schedules
  | Raise e => e = ValueError ∧ ¬ parseable busy_schedules
  end.
Proof. apply compute_common_free_windows_outcome. Qed.

(** X12. A search window that is empty gives no window; one that is inverted
    gives the single window from [search_end] to [search_start], whatever
    the busy blocks are. *)
Theorem merger_degenerate_window (busy_schedules : list person)
    (search_start search_end : datetime) :
  parseable busy_schedules →
  utc search_end <= utc search_start →
  compute_common_free_windows busy_schedules search_start search_end
  = Ok (if decide (utc search_end = utc search_start) then []
        else [(search_end, search_start)]).
Proof.
  intros Hp Hle.
  destruct (collect_events_spec busy_schedules search_start search_end [] Hp)
    as (ivs & Hc & Hall & _).
  rewrite app_nil_l in Hc.
  destruct ivs as [|iv ivs].
  2: { apply Forall_cons in Hall as [[? _] _]. lia. }
  unfold compute_common_free_windows. rewrite Hc.
  cbn [events_of_intervals flat_map mbind result_bind app sort_events foldr
       insert_event].
  unfold key_ltb. cbn [fst snd]. rewrite Z.ltb_irrefl, andb_false_r, orb_false_r.
  destruct (decide (utc search_end = utc search_start)) as [Heq|Hne].
  - assert ((utc search_end <? utc search_start) = false) as ->
      by (apply Z.ltb_ge; lia).
    cbn. unfold dt_ltb, dt_eqb. rewrite Z.ltb_irrefl, Z.eqb_refl.
    assert ((utc search_end =? utc search_start) = true) as ->
      by (apply Z.eqb_eq; lia).
    done.
  - assert ((utc search_end <? utc search_start) = true) as Hlt
      by (apply Z.ltb_lt; lia).
    rewrite Hlt. cbn. unfold dt_ltb, dt_eqb.
    assert ((utc search_start <? utc search_end) = false) as ->
      by (apply Z.ltb_ge; lia).
    assert ((utc search_start =? utc search_end) = false) as ->
      by (apply Z.eqb_neq; lia).
    rewrite Z.eqb_refl, Hlt. cbn. unfold dt_eqb. by rewrite Z.eqb_refl.
Qed.

Lemma format_busy_blocks_spec blocks : ∀ busy_times,
  match format_busy_blocks blocks busy_times with
  | Ok out =>
      Forall parseable_block blocks
      ∧ ∃ new, out = busy_times ++ new
          ∧ Forall2 (λ (block : gmap string pyval) (t : string * string),
                       ∃ a b, parse_iso8601 (raw_start_of block) = Ok a
                              ∧ parse_iso8601 (raw_end_of block) = Ok b
                              ∧ t = (strftime_human a, strftime_human b))
              (filter has_both_values blocks) new
  | Raise e => e = ValueError ∧ ¬ Forall parseable_block blocks
  end.
Proof.
  induction blocks as [|block blocks IH]; intros busy_times.
  - cbn. split; [constructor|]. exists []. rewrite app_nil_r. split; [done|].
    constructor.
  - cbn [format_busy_blocks]. rewrite filter_cons.
    destruct (decide (has_both_values block)) as [[Hs He]|Hno].
    + rewrite Hs, He. cbn [andb]. unfold format_datetime_human_readable.
      destruct (parse_iso8601 (raw_start_of block)) as [a|e] eqn:Ha;
        cbn [mbind result_bind].
      2: { split; [by eapply parse_iso8601_exn|]. intros Hall.
           apply Forall_cons in Hall as [Hb _].
           destruct (Hb Hs He) as (? & ? & ? & ?). congruence. }
      destruct (parse_iso8601 (raw_end_of block)) as [b|e] eqn:Hb;
        cbn [mbind result_bind].
      2: { split; [by eapply parse_iso8601_exn|]. intros Hall.
           apply Forall_cons in Hall as [Hb' _].
           destruct (Hb' Hs He) as (? & ? & ? & ?). congruence. }
      specialize (IH (busy_times ++ [(strftime_human a, strftime_human b)])).
      destruct (format_busy_blocks blocks _) as [out|e].
      * destruct IH as (Hall & new & -> & Hnew). split.
        { constructor; [|done]. intros _ _. by exists a, b. }
        exists ((strftime_human a, strftime_human b) :: new).
        rewrite <- app_assoc. split; [done|]. constructor; [|done].
        by exists a, b.
      * destruct IH as [-> Hno]. split; [done|]. intros Hall.
        apply Forall_cons in Hall as [_ ?]. done.
    + assert (truthy (raw_start_of block) && truthy (raw_end_of block) = false)
        as ->.
      { unfold has_both_values in Hno.
        destruct (truthy (raw_start_of block)), (truthy (raw_end_of block));
          try done. by destruct Hno. }
      specialize (IH busy_times).
      destruct (format_busy_blocks blocks busy_times) as [out|e].
      * destruct IH as (Hall & new & -> & Hnew). split.
        { constructor; [|done]. intros Hs He. by destruct Hno. }
        by exists new.
      * destruct IH as [-> Hno']. split; [done|]. intros Hall.
        apply Forall_cons in Hall as [_ ?]. done.
Qed.

Lemma format_interviewer_busy_times_human_readable_from_spec busy_schedules :
  ∀ result_,
  match format_interviewer_busy_times_human_readable_from busy_schedules result_ with
  | Ok out =>
      parseable busy_schedules
      ∧ ∃ new, out = result_ ++ new
          ∧ Forall2 (λ (p : person) (d : busy_display),
                       display_interviewerId d = interviewerId p
                       ∧ display_name d = default "Unknown"%string (name p)
                       ∧ Forall2 (λ (block : gmap string pyval) (t : string * string),
                                    ∃ a b, parse_iso8601 (raw_start_of block) = Ok a
                                           ∧ parse_iso8601 (raw_end_of block) = Ok b
                                           ∧ t = (strftime_human a, strftime_human b))
                           (filter has_both_values (default [] (busy p)))
                           (busyTimes d))
              busy_schedules new
  | Raise e => e = ValueError ∧ ¬ parseable busy_schedules
  end.
Proof.
  induction busy_schedules as [|p ps IH]; intros result_.
  - cbn. split; [constructor|]. exists []. rewrite app_nil_r. split; [done|].
    constructor.
  - cbn [format_interviewer_busy_times_human_readable_from].
    pose proof (format_busy_blocks_spec (default [] (busy p)) []) as Hb.
    destruct (format_busy_blocks (default [] (busy p)) []) as [times|e];
      cbn [mbind result_bind].
    + destruct Hb as (Hall & new & -> & Hnew). rewrite app_nil_l in *.
      match goal with
      | |- context [format_interviewer_busy_times_human_readable_from ps ?r] =>
          specialize (IH r)
      end.
      destruct (format_interviewer_busy_times_human_readable_from ps _) as [out|e].
      * destruct IH as (Hps & new' & -> & Hnew'). split; [by constructor|].
        eexists (_ :: new'). rewrite <- app_assoc. split; [done|].
        constructor; [|done]. done.
      * destruct IH as [-> Hno]. split; [done|]. intros Hall'.
        apply Forall_cons in Hall' as [_ ?]. done.
    + destruct Hb as [-> Hno]. split; [done|]. intros Hall.
      apply Forall_cons in Hall as [? _]. done.
Qed.

(** X13. The human-readable mirror has one entry per schedule, in order, with
    its id and its name or [Unknown], and one pair of times per block that
    carries both values, in order: also for a block whose start is not
    before its end, which the merger ignores. *)
Theorem formatter_mirrors_schedules (busy_schedules : list person)
    (out : list busy_display) :
  format_interviewer_busy_times_human_readable busy_schedules = Ok out →
  Forall2 (λ (p : person) (d : busy_display),
             display_interviewerId d = interviewerId p
             ∧ display_name d = default "Unknown"%string (name p)
             ∧ Forall2 (λ (block : gmap string pyval) (t : string * string),
                          ∃ a b, parse_iso8601 (raw_start_of block) = Ok a
                                 ∧ parse_iso8601 (raw_end_of block) = Ok b
                                 ∧ t = (strftime_human a, strftime_human b))
                 (filter has_both_values (default [] (busy p)))
                 (busyTimes d))
    busy_schedules out.
Proof.
  unfold format_interviewer_busy_times_human_readable. intros Hf.
  pose proof (format_interviewer_busy_times_human_readable_from_spec
                busy_schedules []) as Hspec.
  rewrite Hf in Hspec. destruct Hspec as (_ & new & -> & Hnew). done.
Qed.

(** X14. The formatter and the merger return on the same schedules, and raise
    ValueError on the same ones. *)
Theorem formatter_returns_iff_merger_returns (busy_schedules : list person)
    (search_start search_end : datetime) :
  match format_interviewer_busy_times_human_readable busy_schedules,
        compute_common_free_windows busy_schedules search_start search_end with
  | Ok _, Ok _ => True
  | Raise e, Raise e' => e = ValueError ∧ e' = ValueError
  | _, _ => False
  end.
Proof.
  unfold format_interviewer_busy_times_human_readable.
  pose proof (format_interviewer_busy_times_human_readable_from_spec
                busy_schedules []) as Hf.
  pose proof (collect_events_Ok_iff busy_schedules search_start search_end) as Hc.
  unfold compute_common_free_windows.
  destruct (format_interviewer_busy_times_human_readable_from busy_schedules [])
    as [out|e];
    destruct (collect_events busy_schedules search_start search_end []) as [ev|e'];
    cbn [mbind result_bind].
  - set (E := sort_events _).
    by destruct (sweep_fuel (length E) E 0 search_start []) as [ws ->].
  - destruct Hf as [Hp _], Hc as [_ Hno]. done.
  - destruct Hf as [_ Hno]. done.
  - destruct Hf as [-> _], Hc as [-> _]. done.
Qed.

End MergerEdge.

(** An inverted window over Alice's and Bob's blocks. *)
Lemma merger_degenerate_window_witness :
  compute_common_free_windows [Fixture.alice; Fixture.bob]
    (at_time 741077 17 0 0 0) (at_time 741077 9 0 0 0)
  = Ok [(at_time 741077 9 0 0 0, at_time 741077 17 0 0 0)].
Proof.
  apply (merger_degenerate_window [Fixture.alice; Fixture.bob]
           (at_time 741077 17 0 0 0) (at_time 741077 9 0 0 0)).
  - apply fixture_parseable.
  - vm_compute. discriminate.
Defined.

(** A block that ends before it starts is shown, though the merger drops
    it. *)
Lemma formatter_mirrors_schedules_witness :
  Forall2 (λ (p : person) (d : busy_display),
             display_interviewerId d = interviewerId p
             ∧ display_name d = default "Unknown"%string (name p)
             ∧ Forall2 (λ (block : gmap string pyval) (t : string * string),
                          ∃ a b, parse_iso8601 (raw_start_of block) = Ok a
                                 ∧ parse_iso8601 (raw_end_of block) = Ok b
                                 ∧ t = (strftime_human a, strftime_human b))
                 (filter has_both_values (default [] (busy p)))
                 (busyTimes d))
    [mkperson 7 None
       (Some [Fixture.block "2030-01-01T11:00:00Z" "2030-01-01T10:00:00Z";
              {[ "start"%string := PyStr "2030-01-01T12:00:00Z" ]}])]
    [mkdisplay 7 "Unknown"
       [("Tuesday, January 01, 2030 at 11:00 AM",
         "Tuesday, January 01, 2030 at 10:00 AM")%string]].
Proof.
  apply (formatter_mirrors_schedules
           [mkperson 7 None
              (Some [Fixture.block "2030-01-01T11:00:00Z" "2030-01-01T10:00:00Z";
                     {[ "start"%string := PyStr "2030-01-01T12:00:00Z" ]}])]).
  vm_compute. reflexivity.
Defined.

(** * Further properties: responses, call log and exceptions of the view *)

(** What the serializer has checked when it accepts. *)
Lemma is_valid_accepts request vd :
  is_valid request = ValidatedData vd →
  vd = request
  ∧ (∀ h, q_start_hour request = Some h → 0 <= h <= 23)
  ∧ (∀ h, q_end_hour request = Some h → 0 <= h <= 23)
  ∧ (∀ s e, q_start request = Some s → q_end request = Some e → utc s < utc e)
  ∧ (∀ sh eh, q_start_hour request = Some sh → q_end_hour request = Some eh →
              sh < eh).
Proof.
  unfold is_valid, validate, hour_field_errors, dt_leb.
  destruct (q_start_hour request) as [sh|], (q_end_hour request) as [eh|],
    (q_start request) as [s|], (q_end request) as [e|];
    repeat match goal with
           | |- context [if ?b then _ else _] => destruct b eqn:?
           end; cbn; try done; intros [= <-]; bool_to_Prop;
    (split; [done|]);
    repeat split; intros; simplify_eq; lia.
Qed.

Lemma interviewer_names_of_lookup busy_schedules i :
  interviewer_names_of busy_schedules !! i
  = (λ q, default "Unknown"%string (name q))
    <$> last (filter (λ q, interviewerId q = i) busy_schedules).
Proof.
  unfold interviewer_names_of.
  assert (∀ names : gmap Z string,
            foldl (λ names interviewer,
                     <[interviewerId interviewer
                       := default "Unknown"%string (name interviewer)]> names)
              names busy_schedules !! i
            = match last (filter (λ q, interviewerId q = i) busy_schedules) with
              | Some q => Some (default "Unknown"%string (name q))
              | None => names !! i
              end) as Hgen.
  { induction busy_schedules as [|p ps IH]; intros names; [done|].
    cbn [foldl]. rewrite IH, filter_cons.
    destruct (decide (interviewerId p = i)) as [<-|Hne].
    - rewrite last_cons.
      destruct (last (filter _ ps)); [done|]. by rewrite lookup_insert_eq.
    - destruct (last (filter _ ps)); [done|]. by rewrite lookup_insert_ne. }
  rewrite Hgen. by destruct (last _).
Qed.

Section ViewCases.
Context `{PyStdlib}.

Ltac unfold_handler H :=
  unfold mbind, mret, handler_bind, handler_ret, result_bind, perform,
    return_response, lift in H;
  lazy beta iota zeta in H.

Ltac destruct_scrutinee H :=
  match type of H with
  | context [match ?x with _ => _ end] =>
      lazymatch x with
      | context [match _ with _ => _ end] => fail
      | _ => destruct x eqn:?
      end
  end; lazy beta iota zeta in H.

Ltac collect_facts :=
  repeat match goal with
  | Hv : is_valid _ = ValidatedData _ |- _ =>
      apply is_valid_accepts in Hv as (-> & ? & ? & ? & ?)
  | Hd : dt_add _ _ = Ok _ |- _ => apply dt_add_Ok in Hd as (? & ? & ? & ?)
  | Hd : dt_add _ _ = Raise _ |- _ => apply dt_add_exn in Hd
  | Ha : astimezone_utc _ = Ok _ |- _ =>
      apply astimezone_utc_Ok in Ha as (? & ? & ? & ?)
  | Ha : astimezone_utc _ = Raise _ |- _ => apply astimezone_utc_exn in Ha
  | Ht : timedelta_of_minutes _ = Ok _ |- _ =>
      apply timedelta_of_minutes_Ok in Ht; subst
  | Ht : timedelta_of_minutes _ = Raise _ |- _ =>
      apply timedelta_of_minutes_exn in Ht
  end.

(** X15. The calls that leave the handler come in one fixed order, each at most
    once: the template lookup, then the clock, then the interviewers of the
    template and the schedule provider, which is asked once, for exactly the
    template's interviewer ids.  This holds for every run, whether it
    answers or raises. *)
Theorem call_log_shape (w : world) (request : query_params) (id : Z) :
  match templates w !! id with
  | None => (run (get w request id)).2 = [TemplateGet id]
  | Some template =>
      (run (get w request id)).2 = [TemplateGet id]
      ∨ (run (get w request id)).2 = [TemplateGet id; ClockNow]
      ∨ (run (get w request id)).2
        = [TemplateGet id; ClockNow; InterviewersAll id;
           GetFreeBusyData (template_interviewers template)]
  end.
Proof.
  destruct (run (get w request id)) as [res trace] eqn:Hrun.
  unfold run, get in Hrun. unfold_handler Hrun.
  repeat destruct_scrutinee Hrun; injection Hrun as <- <-; cbn [snd app];
    auto.
Qed.

(** The error answers, read back from a run that answered. *)
Lemma error_responses_classified (w : world) (request : query_params) (id : Z)
    (r : response) (trace : list call) :
  run (get w request id) = (Ok r, trace) →
  match data r with
  | PayloadBody _ => status r = HTTP_200_OK
  | ErrorDetail detail =>
      status r = HTTP_400_BAD_REQUEST
      ∧ is_valid request = ValidationError detail
      ∧ is_Some (templates w !! id)
      ∧ trace = [TemplateGet id]
  | ErrorBody error =>
      (error = "Interview template not found"%string
       ∧ status r = HTTP_404_NOT_FOUND
       ∧ templates w !! id = None
       ∧ trace = [TemplateGet id])
      ∨ (error = "end must be after start"%string
         ∧ status r = HTTP_400_BAD_REQUEST
         ∧ q_start request = None
         ∧ (∃ end_, q_end request = Some end_
                    ∧ utc end_ <= clock w + timedelta_hours 24)
         ∧ trace = [TemplateGet id; ClockNow])
      ∨ (error = "end_hour must be after start_hour"%string
         ∧ status r = HTTP_400_BAD_REQUEST
         ∧ ((∃ h, q_start_hour request = Some h ∧ q_end_hour request = None
                  ∧ 17 <= h <= 23)
            ∨ (∃ h, q_start_hour request = None ∧ q_end_hour request = Some h
                    ∧ 0 <= h <= 9))
         ∧ trace = [TemplateGet id; ClockNow])
  end.
Proof.
  assert (∀ t : list call,
            (∀ h, q_start_hour request = Some h → 0 <= h <= 23) →
            (∀ h, q_end_hour request = Some h → 0 <= h <= 23) →
            (∀ sh eh, q_start_hour request = Some sh →
                      q_end_hour request = Some eh → sh < eh) →
            (default DEFAULT_END_HOUR (q_end_hour request)
             <=? default DEFAULT_START_HOUR (q_start_hour request)) = true →
            ("end_hour must be after start_hour"%string
             = "Interview template not found"%string
             ∧ HTTP_400_BAD_REQUEST = HTTP_404_NOT_FOUND
             ∧ templates w !! id = None ∧ t = [TemplateGet id])
            ∨ ("end_hour must be after start_hour"%string
               = "end must be after start"%string
               ∧ HTTP_400_BAD_REQUEST = HTTP_400_BAD_REQUEST
               ∧ q_start request = None
               ∧ (∃ end_, q_end request = Some end_
                          ∧ utc end_ <= clock w + timedelta_hours 24)
               ∧ t = t)
            ∨ ("end_hour must be after start_hour"%string
               = "end_hour must be after start_hour"%string
               ∧ HTTP_400_BAD_REQUEST = HTTP_400_BAD_REQUEST
               ∧ ((∃ h, q_start_hour request = Some h
                        ∧ q_end_hour request = None ∧ 17 <= h <= 23)
                  ∨ (∃ h, q_start_hour request = None
                          ∧ q_end_hour request = Some h ∧ 0 <= h <= 9))
               ∧ t = t)) as Hhours.
  { intros t Hsh Heh Hboth Hle. right. right. split; [done|]. split; [done|].
    split; [|done]. bool_to_Prop.
    unfold DEFAULT_START_HOUR, DEFAULT_END_HOUR in *.
    destruct (q_start_hour request) as [sh|], (q_end_hour request) as [eh|];
      cbn [default] in *; unfold Datatypes.id in *.
    - specialize (Hboth _ _ eq_refl eq_refl). lia.
    - left. exists sh. specialize (Hsh _ eq_refl).
      split; [done|]. split; [done|]. lia.
    - right. exists eh. specialize (Heh _ eq_refl).
      split; [done|]. split; [done|]. lia.
    - lia. }
  unfold run, get. intros Hrun. unfold_handler Hrun.
  repeat (destruct_scrutinee Hrun; try discriminate);
    injection Hrun as <- <-; cbn [data status app]; try done.
  - (* range guard, [end] sent *)
    collect_facts. right. left. split; [done|]. split; [done|].
    unfold dt_leb in *. bool_to_Prop.
    destruct (q_start request) as [s|] eqn:Hs.
    { exfalso. cbn [default] in *. unfold Datatypes.id in *.
      match goal with
      | Hlt : ∀ s e, _ → _ → utc s < utc e, He : q_end request = Some ?e |- _ =>
          specialize (Hlt _ e eq_refl He)
      end. lia. }
    split; [done|]. split; [|done]. eexists. split; [done|].
    cbn [default] in *. unfold Datatypes.id in *.
    rewrite ?utc_mkdatetime_0 in *. lia.
  - (* hour guard, [end] sent *) collect_facts. by apply Hhours.
  - (* range guard, [end] defaulted: never *)
    collect_facts. exfalso. unfold dt_leb in *. bool_to_Prop.
    unfold DEFAULT_SEARCH_DAYS, timedelta_days in *. unfold_units. lia.
  - (* hour guard, [end] defaulted *) collect_facts. by apply Hhours.
  - (* no template *) left. done.
Qed.

End ViewCases.

(** ** The payload and the exceptions *)

Lemma is_within_workday_utc_raises s e wsh weh x :
  is_within_workday_utc s e wsh weh = Raise x →
  0 <= wsh <= 23 → 0 <= weh <= 23 → x = OverflowError.
Proof.
  unfold is_within_workday_utc, astimezone_utc, replace_hour. intros Hw ? ?.
  assert ((0 <=? wsh) && (wsh <=? 23) = true) as Hsh
    by (apply andb_true_iff; split; apply Z.leb_le; lia).
  assert ((0 <=? weh) && (weh <=? 23) = true) as Heh
    by (apply andb_true_iff; split; apply Z.leb_le; lia).
  rewrite Hsh, Heh in Hw. revert Hw.
  destruct (in_range (utc s)); cbn [mbind result_bind]; [|by intros [= <-]].
  destruct (in_range (utc e)); cbn [mbind result_bind]; [|by intros [= <-]].
  done.
Qed.

Section ViewOutcomes.
Context `{PyStdlib}.

Ltac unfold_handler H :=
  unfold mbind, mret, handler_bind, handler_ret, result_bind, perform,
    return_response, lift in H;
  lazy beta iota zeta in H.

Ltac destruct_scrutinee H :=
  match type of H with
  | context [match ?x with _ => _ end] =>
      lazymatch x with
      | context [match _ with _ => _ end] => fail
      | _ => destruct x eqn:?
      end
  end; lazy beta iota zeta in H.

Ltac collect_facts :=
  repeat match goal with
  | Hv : is_valid _ = ValidatedData _ |- _ =>
      apply is_valid_accepts in Hv as (-> & ? & ? & ? & ?)
  | Hd : dt_add _ _ = Ok _ |- _ => apply dt_add_Ok in Hd as (? & ? & ? & ?)
  | Hd : dt_add _ _ = Raise _ |- _ => apply dt_add_exn in Hd
  | Ha : astimezone_utc _ = Ok _ |- _ =>
      apply astimezone_utc_Ok in Ha as (? & ? & ? & ?)
  | Ha : astimezone_utc _ = Raise _ |- _ => apply astimezone_utc_exn in Ha
  | Ht : timedelta_of_minutes _ = Ok _ |- _ =>
      apply timedelta_of_minutes_Ok in Ht; subst
  | Ht : timedelta_of_minutes _ = Raise _ |- _ =>
      apply timedelta_of_minutes_exn in Ht
  end.

Lemma to_iso8601_utc_raises d x : to_iso8601_utc d = Raise x → x = OverflowError.
Proof.
  unfold to_iso8601_utc, astimezone_utc. destruct (in_range _); cbn; [done|].
  by intros [= <-].
Qed.

Lemma slot_loop_raises fuel : ∀ slot_start last_valid_start duration_delta
    workday_start_hour workday_end_hour available_slots x,
  slot_loop fuel slot_start last_valid_start duration_delta
    workday_start_hour workday_end_hour available_slots = Raise x →
  0 <= workday_start_hour <= 23 → 0 <= workday_end_hour <= 23 →
  x = OverflowError ∨ x = Diverged.
Proof.
  induction fuel as [|fuel IH]; intros slot_start last dur wsh weh acc x;
    cbn [slot_loop].
  { destruct (dt_leb slot_start last); [|done]. intros [= <-] _ _. by right. }
  destruct (dt_leb slot_start last); [|done].
  destruct (dt_add slot_start dur) as [slot_end|] eqn:Hend; cbn [mbind result_bind];
    [|intros [= <-] _ _; apply dt_add_exn in Hend as ->; by left].
  destruct (is_within_workday_utc slot_start slot_end wsh weh) as [within|] eqn:Hw;
    cbn [mbind result_bind];
    [|intros [= <-] ? ?; left; by eapply is_within_workday_utc_raises].
  destruct within.
  - destruct (to_iso8601_utc slot_start) as [start|] eqn:Hs; cbn [mbind result_bind];
      [|intros [= <-] _ _; left; by eapply to_iso8601_utc_raises].
    destruct (to_iso8601_utc slot_end) as [end_|] eqn:He; cbn [mbind result_bind];
      [|intros [= <-] _ _; left; by eapply to_iso8601_utc_raises].
    destruct (dt_add slot_start HALF_HOUR) as [next|] eqn:Hnext;
      cbn [mbind result_bind];
      [|intros [= <-] _ _; apply dt_add_exn in Hnext as ->; by left].
    apply IH.
  - cbn [mbind result_bind].
    destruct (dt_add slot_start HALF_HOUR) as [next|] eqn:Hnext;
      cbn [mbind result_bind];
      [|intros [= <-] _ _; apply dt_add_exn in Hnext as ->; by left].
    apply IH.
Qed.

Lemma expand_free_windows_raises free_windows : ∀ min_slot_start duration_delta
    workday_start_hour workday_end_hour available_slots x,
  expand_free_windows free_windows min_slot_start duration_delta
    workday_start_hour workday_end_hour available_slots = Raise x →
  0 <= workday_start_hour <= 23 → 0 <= workday_end_hour <= 23 →
  x = OverflowError.
Proof.
  intros mss dur wsh weh acc x Hx Hsh Heh.
  pose proof (expand_free_windows_exn _ _ _ _ _ _ _ Hx) as Hnd.
  revert acc Hx.
  induction free_windows as [|[window_start window_end] rest IH];
    intros acc; cbn [expand_free_windows]; [done|].
  destruct (ceil_to_half_hour_boundary (py_max window_start mss))
    as [slot_start|] eqn:Hceil; cbn [mbind result_bind];
    [|intros [= <-]; by apply ceil_raises in Hceil as [-> _]].
  unfold dt_sub.
  destruct (dt_add window_end (- dur)) as [last|] eqn:Hlast; cbn [mbind result_bind];
    [|intros [= <-]; by apply dt_add_exn in Hlast as ->].
  destruct (slot_loop (slot_fuel slot_start last) slot_start last dur wsh weh acc)
    as [acc'|] eqn:Hloop; cbn [mbind result_bind].
  - apply IH.
  - intros [= <-]. by destruct (slot_loop_raises _ _ _ _ _ _ _ _ Hloop Hsh Heh).
Qed.

Lemma human_readable_slots_of_raises slots x :
  human_readable_slots_of slots = Raise x → x = ValueError.
Proof.
  induction slots as [|s slots IH]; cbn [human_readable_slots_of]; [done|].
  unfold format_datetime_human_readable.
  destruct (parse_iso8601 (PyStr s.1)) eqn:H1; cbn [mbind result_bind];
    [|intros [= <-]; by eapply parse_iso8601_exn].
  destruct (parse_iso8601 (PyStr s.2)) eqn:H2; cbn [mbind result_bind];
    [|intros [= <-]; by eapply parse_iso8601_exn].
  destruct (human_readable_slots_of slots); cbn [mbind result_bind]; [done|].
  intros [= <-]. by apply IH.
Qed.

Lemma get_payload_valid w request id r trace p :
  run (get w request id) = (Ok r, trace) → data r = PayloadBody p →
  is_valid request = ValidatedData request.
Proof.
  unfold run, get. intros Hrun Hp.
  unfold_handler Hrun.
  repeat (destruct_scrutinee Hrun; try discriminate);
    injection Hrun as <- <-; cbn in Hp; try discriminate.
  all: match goal with
       | Hv : is_valid _ = ValidatedData ?vd |- _ =>
           by rewrite (is_valid_ValidatedData _ _ Hv)
       end.
Qed.

(** X17. The work hours of a payload are those of the request, 9 and 17 where it
    sends none, and are proper hours: [0 <= startHour < endHour <= 23]. *)
Theorem payload_work_hours (w : world) (request : query_params) (id : Z)
    (r : response) (trace : list call) (p : payload) :
  run (get w request id) = (Ok r, trace) → data r = PayloadBody p →
  workHours p = (default 9 (q_start_hour request), default 17 (q_end_hour request))
  ∧ 0 <= (workHours p).1 < (workHours p).2 ∧ (workHours p).2 <= 23.
Proof.
  intros Hrun Hp.
  pose proof (get_payload_valid _ _ _ _ _ _ Hrun Hp) as Hv.
  apply is_valid_accepts in Hv as (_ & Hsh & Heh & _ & _).
  destruct (get_payload_full _ _ _ _ _ _ Hrun Hp)
    as (template & ea & ss & se & mss & fw & _ & _ & _ & _ & _ & _
        & _ & _ & _ & _ & Hlt & _ & _ & _ & _ & Hwh & _).
  rewrite Hwh. split; [done|]. cbn [fst snd].
  unfold resolved_start_hour, resolved_end_hour in *.
  destruct (q_start_hour request) as [sh|], (q_end_hour request) as [eh|];
    cbn [default] in *; unfold Datatypes.id in *;
    try specialize (Hsh _ eq_refl); try specialize (Heh _ eq_refl); lia.
Qed.

(** X18. The payload names the template's interviewers, in the template's
    order, each with the name of the last entry of the provider's answer
    that carries its id, and [Unknown] when that entry has no name or no
    entry carries the id. *)
Theorem payload_interviewers (w : world) (request : query_params) (id : Z)
    (r : response) (trace : list call) (p : payload) :
  run (get w request id) = (Ok r, trace) → data r = PayloadBody p →
  ∃ template,
    templates w !! id = Some template
    ∧ interviewId p = template_id template
    ∧ payload_name p = template_name template
    ∧ durationMinutes p = template_duration template
    ∧ interviewers p
      = (λ i, (i, provider_name
                    (get_free_busy_data w (template_interviewers template)) i))
        <$> template_interviewers template.
Proof.
  intros Hrun Hp.
  destruct (get_payload_full _ _ _ _ _ _ Hrun Hp)
    as (template & ea & ss & se & mss & fw & Ht & _ & _ & _ & _ & _
        & _ & _ & _ & _ & _ & Hid & Hname & Hdur & Hint & _).
  exists template. do 4 (split; [done|]). rewrite Hint.
  apply list_fmap_ext. intros _ i _. f_equal.
  rewrite interviewer_names_of_lookup. unfold provider_name.
  by destruct (last _).
Qed.

End ViewOutcomes.

(** The first happy-path test sends hours 9 and 17. *)
Lemma payload_work_hours_witness :
  ∃ r trace p,
    run (get Fixture.the_world (Fixture.request_day 9 17) 1) = (Ok r, trace)
    ∧ data r = PayloadBody p
    ∧ workHours p = (default 9 (q_start_hour (Fixture.request_day 9 17)),
                     default 17 (q_end_hour (Fixture.request_day 9 17)))
    ∧ 0 <= (workHours p).1 < (workHours p).2 ∧ (workHours p).2 <= 23.
Proof.
  eexists _, _, _. split; [vm_compute; reflexivity|]. split; [reflexivity|].
  eapply (payload_work_hours Fixture.the_world (Fixture.request_day 9 17) 1);
    [vm_compute; reflexivity | reflexivity].
Defined.

Lemma payload_interviewers_witness :
  ∃ r trace p,
    run (get Fixture.the_world (Fixture.request_day 9 17) 1) = (Ok r, trace)
    ∧ data r = PayloadBody p
    ∧ interviewers p = [(1, "Alice"); (2, "Bob")]%string
    ∧ ∃ template,
        templates Fixture.the_world !! 1 = Some template
        ∧ interviewId p = template_id template
        ∧ payload_name p = template_name template
        ∧ durationMinutes p = template_duration template
        ∧ interviewers p
          = (λ i, (i, provider_name
                        (get_free_busy_data Fixture.the_world
                           (template_interviewers template)) i))
            <$> template_interviewers template.
Proof.
  eexists _, _, _. split; [vm_compute; reflexivity|]. split; [reflexivity|].
  split; [reflexivity|].
  eapply (payload_interviewers Fixture.the_world (Fixture.request_day 9 17) 1);
    [vm_compute; reflexivity | reflexivity].
Defined.

(** * Further properties: the ISO-8601 helpers *)

Lemma str_endswith_Z_app body : str_endswith_Z (body ++ "Z") = true.
Proof. induction body as [|c b IH]; [done|]. destruct b; [done|]. exact IH. Qed.

Lemma str_drop_last_app body : str_drop_last (body ++ "Z") = body.
Proof.
  induction body as [|c b IH]; [done|]. destruct b; [done|].
  change (String c (str_drop_last (String a b ++ "Z")) = String c (String a b)).
  by rewrite IH.
Qed.

Lemma str_endswith_Z_utc_suffix body : str_endswith_Z (body ++ "+00:00") = false.
Proof. induction body as [|c b IH]; [done|]. destruct b; [done|]. exact IH. Qed.

Lemma str_length_utc_suffix body :
  (String.length body < String.length (body ++ "+00:00"))%nat.
Proof. induction body as [|c b IH]; simpl in *; lia. Qed.

Lemma str_replace_utc_suffix_cons fuel c s :
  Ascii.eqb "+" c = false →
  str_replace_utc_suffix (S fuel) (String c s)
  = String c (str_replace_utc_suffix fuel s).
Proof. intros Hc. cbn [str_replace_utc_suffix str_startswith]. by rewrite Hc. Qed.

Lemma str_replace_utc_suffix_body body : ∀ fuel,
  (String.length body < fuel)%nat →
  str_contains_char "+" body = false →
  str_replace_utc_suffix fuel (body ++ "+00:00") = (body ++ "Z")%string.
Proof.
  induction body as [|c b IH]; intros fuel Hfuel Hplus.
  - destruct fuel as [|fuel]; [cbn in Hfuel; lia|]. by destruct fuel.
  - destruct fuel as [|fuel]; [cbn in Hfuel; lia|].
    cbn [str_contains_char] in Hplus. apply orb_false_iff in Hplus as [Hc Hb].
    change (String c b +:+ "+00:00") with (String c (b +:+ "+00:00")).
    rewrite str_replace_utc_suffix_cons by done.
    rewrite IH; [done| |done]. cbn in Hfuel. lia.
Qed.

Section Iso8601.
Context `{PyStdlib}.

(** X20. A trailing [Z] is read as the offset [+00:00]. *)
Theorem parse_trailing_Z (s : string) :
  parse_iso8601 (PyStr (s ++ "Z")) = parse_iso8601 (PyStr (s ++ "+00:00")).
Proof.
  unfold parse_iso8601.
  by rewrite str_endswith_Z_app, str_drop_last_app, str_endswith_Z_utc_suffix.
Qed.

(** X21. Writing and reading back: when [isoformat] of the UTC datetime ends in
    [+00:00] and has no other plus sign, [to_iso8601_utc] puts [Z] for that
    suffix, and [parse_iso8601] reads the result as it reads the
    [isoformat] string itself. *)
Theorem iso8601_round_trip (d : datetime) (s body : string) :
  to_iso8601_utc d = Ok s →
  isoformat (mkdatetime (utc d) 0) = (body ++ "+00:00")%string →
  str_contains_char "+" body = false →
  s = (body ++ "Z")%string
  ∧ parse_iso8601 (PyStr s)
    = parse_iso8601 (PyStr (isoformat (mkdatetime (utc d) 0))).
Proof.
  unfold to_iso8601_utc, astimezone_utc. intros Hs Hiso Hplus.
  destruct (in_range (utc d)); cbn [mbind result_bind] in Hs; [|done].
  injection Hs as <-. rewrite Hiso.
  rewrite str_replace_utc_suffix_body;
    [|apply str_length_utc_suffix|done].
  split; [done|]. unfold parse_iso8601.
  by rewrite str_endswith_Z_app, str_drop_last_app, str_endswith_Z_utc_suffix.
Qed.

End Iso8601.

(** 2030-01-01T13:00+02:00 is written as 11:00Z. *)
Lemma iso8601_round_trip_witness :
  "2030-01-01T11:00:00Z"%string = ("2030-01-01T11:00:00" ++ "Z")%string
  ∧ parse_iso8601 (PyStr "2030-01-01T11:00:00Z")
    = parse_iso8601
        (PyStr (isoformat
                  (mkdatetime
                     (utc (mkdatetime (wall (at_time 741077 13 0 0 0))
                                      (2 * US_PER_HOUR))) 0))).
Proof.
  apply (iso8601_round_trip
           (mkdatetime (wall (at_time 741077 13 0 0 0)) (2 * US_PER_HOUR))
           "2030-01-01T11:00:00Z" "2030-01-01T11:00:00").
  - vm_compute. reflexivity.
  - vm_compute. reflexivity.
  - vm_compute. reflexivity.
Defined.

(** * Further properties: the mock schedule provider *)

Lemma insert_block_Permutation x l : mock_availability.insert_block x l ≡ₚ x :: l.
Proof.
  induction l as [|y l IH]; cbn; [done|].
  destruct (String.ltb _ _); [|done]. rewrite IH. apply Permutation_swap.
Qed.

Lemma sort_blocks_Permutation l : mock_availability.sort_blocks l ≡ₚ l.
Proof.
  induction l as [|x l IH]; cbn; [done|].
  rewrite insert_block_Permutation. by rewrite IH.
Qed.

Lemma str_ltb_leb a b : String.ltb a b = true → String.leb a b = true.
Proof. unfold String.ltb, String.leb. by destruct (String.compare a b). Qed.

Lemma str_ltb_false_leb a b : String.ltb a b = false → String.leb b a = true.
Proof.
  unfold String.ltb, String.leb. rewrite (String.compare_antisym a b).
  by destruct (String.compare b a).
Qed.

Lemma insert_block_HdRel a x l :
  HdRel start_key_le a l → start_key_le a x →
  HdRel start_key_le a (mock_availability.insert_block x l).
Proof.
  destruct l as [|y l]; cbn; [by constructor|].
  intros Hhd Hx. destruct (String.ltb _ _); constructor; [|done].
  by inversion Hhd.
Qed.

Lemma insert_block_Sorted x l :
  Sorted start_key_le l → Sorted start_key_le (mock_availability.insert_block x l).
Proof.
  induction l as [|y l IH]; cbn; [by repeat constructor|].
  intros Hs. inversion_clear Hs as [|?? Hl Hhd].
  destruct (String.ltb _ _) eqn:Hlt.
  - constructor; [by apply IH|]. apply insert_block_HdRel; [done|].
    by apply str_ltb_leb.
  - constructor; [by constructor|]. constructor. by apply str_ltb_false_leb.
Qed.

Lemma sort_blocks_Sorted l : Sorted start_key_le (mock_availability.sort_blocks l).
Proof.
  induction l as [|x l IH]; cbn; [constructor|]. by apply insert_block_Sorted.
Qed.

Section MockBlocks.
Variable raw : nat → nat.
Variable isoformat_naive : Z → string.

Import mock_availability.

Lemma randint_spec a b st :
  a <= b →
  ∃ v, randint raw a b st = (Ok v, mkrng (S (random_pos st)) (faker_pos st))
       ∧ a <= v <= b.
Proof.
  intros Hab. unfold randint.
  assert ((b <? a) = false) as -> by (apply Z.ltb_ge; lia).
  eexists. split; [done|].
  pose proof (Z.mod_pos_bound (Z.of_nat (raw (random_pos st))) (b - a + 1)).
  lia.
Qed.

Lemma choice_minute_spec st :
  ∃ v, choice raw [0; 5; 10; 15; 20; 25; 30; 35; 40; 45; 50; 55] st
       = (Ok v, mkrng (S (random_pos st)) (faker_pos st))
       ∧ 0 <= v <= 55 ∧ v `mod` 5 = 0.
Proof.
  unfold choice. eexists. split; [done|]. cbn [length].
  pose proof (Nat.mod_upper_bound (raw (random_pos st)) 12 ltac:(lia)) as Hk.
  revert Hk. generalize (Nat.modulo (raw (random_pos st)) 12). intros k Hk.
  do 12 (destruct k as [|k]; [cbn; split; [lia|reflexivity]|]). lia.
Qed.

Lemma generate_loop_spec start_date days n : ∀ busy_blocks st,
  1 <= days → 0 <= start_date → start_date + days <= 3652059 →
  Forall (mock_block isoformat_naive start_date days) busy_blocks →
  Sorted start_key_le busy_blocks →
  ∃ out,
    generate_loop raw isoformat_naive n start_date days busy_blocks st
    = (Ok out, mkrng (random_pos st + 4 * n) (faker_pos st))
    ∧ length out = (length busy_blocks + n)%nat
    ∧ Forall (mock_block isoformat_naive start_date days) out
    ∧ Sorted start_key_le out.
Proof.
  induction n as [|n IH]; intros blocks st Hdays Hstart Hmax Hall Hsorted.
  { exists blocks. cbn. rewrite !Nat.add_0_r. by destruct st. }
  cbn [generate_loop]. unfold mbind, rand_bind, lift_result.
  destruct (randint_spec 0 (days - 1) st ltac:(lia)) as (off & -> & Hoff).
  assert (date_add start_date off = Ok (start_date + off)) as ->.
  { unfold date_add.
    assert ((Z.abs off <=? 999999999) && (0 <=? start_date + off)
            && (start_date + off <? 3652059) = true) as ->; [|done].
    repeat (apply andb_true_intro; split);
      first [apply Z.leb_le | apply Z.ltb_lt]; lia. }
  match goal with |- context [randint raw 9 (17 - 1) ?s] =>
    destruct (randint_spec 9 (17 - 1) s ltac:(lia)) as (hour & -> & Hhour) end.
  match goal with |- context [choice raw _ ?s] =>
    destruct (choice_minute_spec s) as (minute & -> & Hminute & Hgrid) end.
  match goal with |- context [randint raw 6 30 ?s] =>
    destruct (randint_spec 6 30 s ltac:(lia)) as (inc & -> & Hinc) end.
  cbn [random_pos faker_pos].
  assert (combine (start_date + off) hour minute
          = Ok ((start_date + off) * US_PER_DAY + hour * US_PER_HOUR
                + minute * US_PER_MINUTE)) as ->.
  { unfold combine.
    assert ((0 <=? hour) && (hour <=? 23) && (0 <=? minute) && (minute <=? 59)
            = true) as ->; [|done].
    repeat (apply andb_true_intro; split); apply Z.leb_le; lia. }
  assert (timedelta_of_minutes (inc * 5) = Ok (inc * 5 * US_PER_MINUTE)) as ->.
  { unfold timedelta_of_minutes.
    assert ((-999999999 * US_PER_DAY <=? inc * 5 * US_PER_MINUTE)
            && (inc * 5 * US_PER_MINUTE <? 1000000000 * US_PER_DAY) = true)
      as ->; [|done].
    apply andb_true_intro; split; [apply Z.leb_le|apply Z.ltb_lt];
      unfold_units; lia. }
  set (start_dt := (start_date + off) * US_PER_DAY + hour * US_PER_HOUR
                   + minute * US_PER_MINUTE).
  assert (naive_add start_dt (inc * 5 * US_PER_MINUTE)
          = Ok (start_dt + inc * 5 * US_PER_MINUTE)) as ->.
  { unfold naive_add, in_range.
    assert ((0 <=? start_dt + inc * 5 * US_PER_MINUTE)
            && (start_dt + inc * 5 * US_PER_MINUTE <? MAX_WALL) = true)
      as ->; [|done].
    apply andb_true_intro; split; [apply Z.leb_le|apply Z.ltb_lt];
      subst start_dt; unfold_units; lia. }
  assert (combine (start_date + off) 17 0
          = Ok ((start_date + off) * US_PER_DAY + 17 * US_PER_HOUR
                + 0 * US_PER_MINUTE)) as -> by done.
  set (max_end_time := (start_date + off) * US_PER_DAY + 17 * US_PER_HOUR
                       + 0 * US_PER_MINUTE).
  set (end_dt := if max_end_time <? start_dt + inc * 5 * US_PER_MINUTE
                 then max_end_time else start_dt + inc * 5 * US_PER_MINUTE).
  assert (mock_block isoformat_naive start_date days
            (busy_block isoformat_naive start_dt end_dt)) as Hblock.
  { exists (start_date + off), start_dt, end_dt. split; [done|].
    subst end_dt max_end_time start_dt.
    destruct (_ <? _) eqn:Hcap; bool_to_Prop; revert Hcap; unfold_units;
      intros Hcap; repeat split; try lia;
      Z.div_mod_to_equations; lia. }
  match goal with |- context [generate_loop raw isoformat_naive n _ _ ?bs ?s] =>
    destruct (IH bs s Hdays Hstart Hmax) as (out & -> & Hlen & Hout & Hs) end.
  { eapply Permutation_Forall; [symmetry; apply sort_blocks_Permutation|].
    apply Forall_app. split; [done|]. by constructor. }
  { apply sort_blocks_Sorted. }
  exists out. cbn [random_pos faker_pos]. split; [f_equal; f_equal; lia|].
  split; [|done].
  rewrite Hlen, sort_blocks_Permutation, length_app. cbn. lia.
Qed.

Lemma generate_busy_blocks_spec start_date days st :
  1 <= days → 0 <= start_date → start_date + days <= 3652059 →
  ∃ busy_blocks st',
    generate_busy_blocks raw isoformat_naive start_date days st
    = (Ok busy_blocks, st')
    ∧ (3 ≤ length busy_blocks ≤ 6)%nat
    ∧ Forall (mock_block isoformat_naive start_date days) busy_blocks
    ∧ Sorted start_key_le busy_blocks
    ∧ random_pos st' = (random_pos st + 1 + 4 * length busy_blocks)%nat
    ∧ faker_pos st' = faker_pos st.
Proof.
  intros Hdays Hstart Hmax. unfold generate_busy_blocks, mbind, rand_bind.
  destruct (randint_spec 3 6 st ltac:(lia)) as (n & -> & Hn).
  match goal with |- context [generate_loop raw isoformat_naive ?k _ _ [] ?s] =>
    destruct (generate_loop_spec start_date days k [] s Hdays Hstart Hmax)
      as (out & -> & Hlen & Hout & Hs) end; [constructor..|].
  exists out. eexists. split; [done|]. cbn [length] in Hlen.
  split; [lia|]. split; [done|]. split; [done|]. cbn. split; [lia|done].
Qed.

(** X22. The mock generator on a range of at least one day inside the calendar:
    it returns three to six blocks, in the order of their start strings;
    each lies on one of the [days] days from [start_date], starts and ends
    on the five-minute grid with 09:00 <= start < end <= 17:00, and lasts
    at most two and a half hours.  It makes one draw and four more per
    block. *)
Theorem generate_busy_blocks_shape (start_date days : Z)
    (st : rng_state) :
  1 <= days → 0 <= start_date → start_date + days <= 3652059 →
  ∃ busy_blocks st',
    generate_busy_blocks raw isoformat_naive start_date days st
    = (Ok busy_blocks, st')
    ∧ (3 ≤ length busy_blocks ≤ 6)%nat
    ∧ Forall (mock_block isoformat_naive start_date days) busy_blocks
    ∧ Sorted start_key_le busy_blocks
    ∧ random_pos st' = (random_pos st + 1 + 4 * length busy_blocks)%nat
    ∧ faker_pos st' = faker_pos st.
Proof. apply generate_busy_blocks_spec. Qed.

(** X23. With [days <= 0] the generator raises ValueError at its first day
    draw, whatever the start date. *)
Theorem generate_busy_blocks_no_days (start_date days : Z) (st : rng_state) :
  days <= 0 →
  (generate_busy_blocks raw isoformat_naive start_date days st).1
  = Raise ValueError.
Proof.
  intros Hdays. unfold generate_busy_blocks, mbind, rand_bind.
  destruct (randint_spec 3 6 st ltac:(lia)) as (n & -> & Hn).
  destruct (Z.to_nat n) as [|k] eqn:Hk; [lia|].
  cbn [generate_loop]. unfold mbind, rand_bind, randint.
  assert ((days - 1 <? 0) = true) as -> by (apply Z.ltb_lt; lia). done.
Qed.

End MockBlocks.

Section MockProvider.
Variable raw : nat → nat.
Variable fake_names : nat → string.
Variable isoformat_naive : Z → string.

Import mock_availability.

Lemma get_free_busy_data_from_spec today interviewer_ids : ∀ data st,
  0 <= today → today + 7 <= 3652059 →
  ∃ new st',
    get_free_busy_data_from raw fake_names isoformat_naive interviewer_ids
      today data st = (Ok (data ++ new), st')
    ∧ interviewerId <$> new = interviewer_ids
    ∧ Forall (λ p, is_Some (name p)
                   ∧ ∃ busy_blocks,
                       busy p = Some busy_blocks
                       ∧ (3 ≤ length busy_blocks ≤ 6)%nat
                       ∧ Forall (mock_block isoformat_naive today 7) busy_blocks)
        new
    ∧ faker_pos st' = (faker_pos st + length interviewer_ids)%nat.
Proof.
  induction interviewer_ids as [|id_ rest IH]; intros data st Hstart Hmax.
  { exists [], st. rewrite app_nil_r. cbn. split; [done|]. split; [done|].
    split; [constructor|lia]. }
  cbn [get_free_busy_data_from]. unfold mbind, rand_bind, fake_name.
  match goal with
  | |- context [generate_busy_blocks raw isoformat_naive today 7 ?s] =>
      destruct (generate_busy_blocks_spec raw isoformat_naive today 7 s ltac:(lia)
                  Hstart Hmax)
        as (blocks & st1 & -> & Hlen & Hblocks & _ & _ & Hf)
  end.
  match goal with
  | |- context [get_free_busy_data_from _ _ _ rest today ?d ?s] =>
      destruct (IH d s Hstart Hmax) as (new & st' & -> & Hids & Hnew & Hf')
  end.
  eexists (_ :: new), st'. rewrite <- app_assoc. split; [done|].
  cbn. split; [by rewrite Hids|]. split.
  - constructor; [|done]. cbn. split; [by eexists|]. by exists blocks.
  - cbn in Hf. lia.
Qed.

(** X24. The mock provider answers with one entry per id asked, in the order
    asked, each with a name and three to six blocks of the seven days from
    today; it asks Faker for one name per id. *)
Theorem get_free_busy_data_entries (today : Z) (interviewer_ids : list Z)
    (st : rng_state) :
  0 <= today → today + 7 <= 3652059 →
  ∃ data st',
    get_free_busy_data raw fake_names isoformat_naive today interviewer_ids st
    = (Ok data, st')
    ∧ interviewerId <$> data = interviewer_ids
    ∧ Forall (λ p, is_Some (name p)
                   ∧ ∃ busy_blocks,
                       busy p = Some busy_blocks
                       ∧ (3 ≤ length busy_blocks ≤ 6)%nat
                       ∧ Forall (mock_block isoformat_naive today 7) busy_blocks)
        data
    ∧ faker_pos st' = (faker_pos st + length interviewer_ids)%nat.
Proof.
  intros Hstart Hmax. unfold get_free_busy_data.
  destruct (get_free_busy_data_from_spec today interviewer_ids [] st Hstart Hmax)
    as (new & st' & Hrun & ?). rewrite app_nil_l in Hrun. by exists new, st'.
Qed.

End MockProvider.

(** A run of the generator from 2030-01-01, with draws 3, 10, 17, ... *)
Lemma generate_busy_blocks_shape_witness :
  ∃ busy_blocks st',
    mock_availability.generate_busy_blocks (λ n, (7 * n + 3)%nat)
      Reference.isoformat_naive_ref 741077 7 (mock_availability.mkrng 0 0)
    = (Ok busy_blocks, st')
    ∧ (3 ≤ length busy_blocks ≤ 6)%nat
    ∧ Forall (mock_block Reference.isoformat_naive_ref 741077 7) busy_blocks
    ∧ Sorted start_key_le busy_blocks
    ∧ mock_availability.random_pos st'
      = (mock_availability.random_pos (mock_availability.mkrng 0 0) + 1
         + 4 * length busy_blocks)%nat
    ∧ mock_availability.faker_pos st'
      = mock_availability.faker_pos (mock_availability.mkrng 0 0).
Proof.
  apply (generate_busy_blocks_shape (λ n, (7 * n + 3)%nat)
           Reference.isoformat_naive_ref 741077 7 (mock_availability.mkrng 0 0));
    lia.
Defined.

Lemma generate_busy_blocks_no_days_witness :
  (mock_availability.generate_busy_blocks (λ n, (7 * n + 3)%nat)
     Reference.isoformat_naive_ref 741077 0 (mock_availability.mkrng 0 0)).1
  = Raise ValueError.
Proof.
  apply (generate_busy_blocks_no_days (λ n, (7 * n + 3)%nat)
           Reference.isoformat_naive_ref 741077 0 (mock_availability.mkrng 0 0)).
  lia.
Defined.

Lemma get_free_busy_data_entries_witness :
  ∃ data st',
    mock_availability.get_free_busy_data (λ n, (7 * n + 3)%nat)
      (λ n, if decide (n = 0%nat) then "Alice" else "Bob")%string
      Reference.isoformat_naive_ref 741077 [1; 2] (mock_availability.mkrng 0 0)
    = (Ok data, st')
    ∧ interviewerId <$> data = [1; 2]
    ∧ Forall (λ p, is_Some (name p)
                   ∧ ∃ busy_blocks,
                       busy p = Some busy_blocks
                       ∧ (3 ≤ length busy_blocks ≤ 6)%nat
                       ∧ Forall (mock_block Reference.isoformat_naive_ref 741077 7)
                           busy_blocks)
        data
    ∧ mock_availability.faker_pos st'
      = (mock_availability.faker_pos (mock_availability.mkrng 0 0)
         + length [1; 2])%nat.
Proof.
  apply (get_free_busy_data_entries (λ n, (7 * n + 3)%nat)
           (λ n, if decide (n = 0%nat) then "Alice" else "Bob")%string
           Reference.isoformat_naive_ref 741077 [1; 2]
           (mock_availability.mkrng 0 0)); lia.
Defined.

(** The blocks of that run. *)
Example generate_busy_blocks_run :
  match (mock_availability.generate_busy_blocks (λ n, (7 * n + 3)%nat)
           Reference.isoformat_naive_ref 741077 7 (mock_availability.mkrng 0 0)).1
  with
  | Ok busy_blocks =>
      busy_blocks
      = [Fixture.block "2030-01-04T10:00:00Z" "2030-01-04T11:00:00Z";
         Fixture.block "2030-01-04T10:20:00Z" "2030-01-04T12:20:00Z";
         Fixture.block "2030-01-04T10:40:00Z" "2030-01-04T12:10:00Z";
         Fixture.block "2030-01-04T14:00:00Z" "2030-01-04T15:45:00Z";
         Fixture.block "2030-01-04T14:20:00Z" "2030-01-04T15:35:00Z";
         Fixture.block "2030-01-04T14:40:00Z" "2030-01-04T16:55:00Z"]
  | Raise _ => False
  end.
Proof. vm_compute. reflexivity. Qed.

(** * Malformed and legacy blocks: what the merger and the formatter return *)

Section BlockTolerance.
Context `{PyStdlib}.

(** The merger's windows hold exactly the instants of the search window at
    which nobody is busy. *)
Lemma merger_covered_spec busy_schedules search_start search_end ws :
  utc search_start < utc search_end →
  compute_common_free_windows busy_schedules search_start search_end = Ok ws →
  ∀ x, covered ws x ↔
       (utc search_start <= x < utc search_end ∧ ¬ busy_at busy_schedules x).
Proof.
  intros Hlt Hcompute.
  pose proof (compute_common_free_windows_Ok _ _ _ _ Hcompute) as Hparse.
  destruct (merger_spec busy_schedules search_start search_end Hlt Hparse)
    as (ws0 & Hc0 & _ & _ & _ & Hcov & _).
  rewrite Hcompute in Hc0. injection Hc0 as <-.
  intros x. unfold covered. rewrite Hcov. split.
  - intros [Hx Hno]. split; [done|]. intros (p & a & b & Hp & Hiv & Hab).
    apply (Hno p a b Hp Hiv). lia.
  - intros [Hx Hno]. split; [done|]. intros p a b Hp Hiv Hclip.
    apply Hno. exists p, a, b. repeat split; [done..|lia|lia].
Qed.

(** A block that is not malformed and meets the input contract is a valid
    busy interval. *)
Lemma not_malformed_block_interval block :
  is_malformed block = false → parseable_block block →
  ∃ a b, block_interval block a b.
Proof.
  unfold is_malformed. intros Hok Hp.
  destruct (truthy (raw_start_of block)) eqn:Hs; [|done].
  destruct (truthy (raw_end_of block)) eqn:He; [|done].
  destruct (Hp Hs He) as (a & b & Ha & Hb).
  rewrite Ha, Hb in Hok. cbn in Hok. unfold dt_leb in Hok. bool_to_Prop.
  exists a, b. repeat split; [done..|lia].
Qed.

Lemma malformed_parseable_block block :
  is_malformed block = true → parseable_block block.
Proof.
  unfold is_malformed, parseable_block. intros Hbad Hs He.
  rewrite Hs, He in Hbad. cbn in Hbad.
  destruct (parse_iso8601 (raw_start_of block)) as [a|]; [|done].
  destruct (parse_iso8601 (raw_end_of block)) as [b|]; [|done].
  by exists a, b.
Qed.

Lemma parseable_without_malformed busy_schedules :
  parseable (without_malformed busy_schedules) → parseable busy_schedules.
Proof.
  unfold parseable, without_malformed. rewrite Forall_fmap.
  intros Hall. eapply Forall_impl; [exact Hall|]. clear Hall.
  intros p. cbn.
  destruct (busy p) as [blocks|]; cbn; [|done].
  induction blocks as [|block blocks IH]; [done|].
  rewrite filter_cons.
  destruct (decide (is_malformed block = false)) as [Hok|Hbad].
  - intros Hall. apply Forall_cons in Hall as [? ?]. constructor; [done|by apply IH].
  - intros Hall. constructor; [|by apply IH].
    apply malformed_parseable_block. by apply not_false_is_true.
Qed.

(** C8. Malformed-interval tolerance: when the blocks that are left after
    taking out those with a missing value or with [start >= end] carry
    ISO-8601 strings, the merger returns, whatever the malformed blocks
    hold; it returns what it returns on the remaining blocks alone; each
    remaining block is a valid busy interval; and for a search window that
    is not empty the windows hold exactly the instants of the search window
    that lie in no remaining interval. *)
Theorem malformed_blocks_skipped (busy_schedules : list person)
    (search_start search_end : datetime) :
  parseable (without_malformed busy_schedules) →
  ∃ free_windows,
    compute_common_free_windows busy_schedules search_start search_end
    = Ok free_windows
    ∧ compute_common_free_windows (without_malformed busy_schedules)
        search_start search_end = Ok free_windows
    ∧ (∀ p block, p ∈ without_malformed busy_schedules →
                  block ∈ default [] (busy p) →
                  ∃ a b, block_interval block a b)
    ∧ (utc search_start < utc search_end →
       ∀ x, covered free_windows x ↔
            (utc search_start <= x < utc search_end
             ∧ ¬ busy_at (without_malformed busy_schedules) x)).
Proof.
  intros Hp.
  pose proof (parseable_without_malformed _ Hp) as Hp'.
  pose proof (compute_common_free_windows_outcome busy_schedules
                search_start search_end) as Hout.
  destruct (compute_common_free_windows busy_schedules search_start search_end)
    as [free_windows|e] eqn:Hc; [|by destruct Hout].
  exists free_windows. split; [done|].
  assert (compute_common_free_windows (without_malformed busy_schedules)
            search_start search_end = Ok free_windows) as Hc'
    by (by rewrite <- compute_common_free_windows_without_malformed).
  split; [done|]. split.
  - intros p block Hin Hblock. unfold without_malformed in Hin.
    apply list_elem_of_fmap in Hin as (q & -> & Hq). cbn in Hblock.
    unfold parseable, without_malformed in Hp. rewrite Forall_fmap in Hp.
    rewrite Forall_forall in Hp. specialize (Hp q Hq). cbn in Hp.
    destruct (busy q) as [blocks|]; cbn in *; [|by apply elem_of_nil in Hblock].
    rewrite Forall_forall in Hp. specialize (Hp block Hblock).
    apply list_elem_of_filter in Hblock as [Hok _].
    by apply not_malformed_block_interval.
  - intros Hlt. by apply merger_covered_spec.
Qed.

End BlockTolerance.

Lemma with_malformed_parseable :
  parseable (without_malformed Fixture.with_malformed).
Proof.
  repeat constructor. intros _ _. eexists _, _. split; vm_compute; reflexivity.
Qed.

(** An inverted block and a block with no [end] whose start is not a date
    leave the one valid block, 10:00-11:00. *)
Lemma malformed_blocks_skipped_witness :
  ∃ free_windows,
    compute_common_free_windows Fixture.with_malformed
      (at_time 741077 9 0 0 0) (at_time 741077 17 0 0 0) = Ok free_windows
    ∧ compute_common_free_windows (without_malformed Fixture.with_malformed)
        (at_time 741077 9 0 0 0) (at_time 741077 17 0 0 0) = Ok free_windows
    ∧ (∀ p block, p ∈ without_malformed Fixture.with_malformed →
                  block ∈ default [] (busy p) →
                  ∃ a b, block_interval block a b)
    ∧ (utc (at_time 741077 9 0 0 0) < utc (at_time 741077 17 0 0 0) →
       ∀ x, covered free_windows x ↔
            (utc (at_time 741077 9 0 0 0) <= x < utc (at_time 741077 17 0 0 0)
             ∧ ¬ busy_at (without_malformed Fixture.with_malformed) x)).
Proof.
  apply (malformed_blocks_skipped Fixture.with_malformed
           (at_time 741077 9 0 0 0) (at_time 741077 17 0 0 0)).
  apply with_malformed_parseable.
Defined.

(** The windows of that run. *)
Example with_malformed_windows :
  compute_common_free_windows Fixture.with_malformed
    (at_time 741077 9 0 0 0) (at_time 741077 17 0 0 0)
  = Ok [(at_time 741077 9 0 0 0, at_time 741077 10 0 0 0);
        (at_time 741077 11 0 0 0, at_time 741077 17 0 0 0)].
Proof. vm_compute. reflexivity. Qed.

Section BlockLegacy.
Context `{PyStdlib}.




End BlockLegacy.



(** What the two functions return on the legacy blocks. *)
Example legacy_blocks_accepted :
  compute_common_free_windows Fixture.touching_legacy
    (at_time 741077 9 0 0 0) (at_time 741077 17 0 0 0)
  = Ok [(at_time 741077 9 0 0 0, at_time 741077 10 0 0 0);
        (at_time 741077 12 0 0 0, at_time 741077 17 0 0 0)]
  ∧ format_interviewer_busy_times_human_readable Fixture.touching_legacy
    = Ok [mkdisplay 1 "A"
            [("Tuesday, January 01, 2030 at 10:00 AM",
              "Tuesday, January 01, 2030 at 11:00 AM")];
          mkdisplay 2 "B"
            [("Tuesday, January 01, 2030 at 11:00 AM",
              "Tuesday, January 01, 2030 at 12:00 PM")]]%string.
Proof. split; vm_compute; reflexivity. Qed.

(** * Invalid ranges and other refused requests: what the view answers *)

Lemma dt_add_raises d td e :
  dt_add d td = Raise e →
  e = OverflowError ∧ ¬ (0 <= wall d + td < MAX_WALL).
Proof.
  unfold dt_add, in_range.
  destruct ((0 <=? wall d + td) && (wall d + td <? MAX_WALL)) eqn:E; [done|].
  intros [= <-]. split; [done|]. intros ?.
  bool_to_Prop. destruct E; bool_to_Prop; lia.
Qed.

Lemma astimezone_utc_raises d e :
  astimezone_utc d = Raise e →
  e = OverflowError ∧ ¬ (0 <= utc d < MAX_WALL).
Proof.
  unfold astimezone_utc, in_range.
  destruct ((0 <=? utc d) && (utc d <? MAX_WALL)) eqn:E; [done|].
  intros [= <-]. split; [done|]. intros ?.
  bool_to_Prop. destruct E; bool_to_Prop; lia.
Qed.

Lemma timedelta_of_minutes_raises m e :
  timedelta_of_minutes m = Raise e →
  e = OverflowError
  ∧ ¬ (-999999999 * US_PER_DAY <= timedelta_minutes m < 1000000000 * US_PER_DAY).
Proof.
  unfold timedelta_of_minutes, timedelta_minutes.
  destruct ((-999999999 * US_PER_DAY <=? m * US_PER_MINUTE)
            && (m * US_PER_MINUTE <? 1000000000 * US_PER_DAY)) eqn:E; [done|].
  intros [= <-]. split; [done|]. intros ?.
  bool_to_Prop. destruct E; bool_to_Prop; lia.
Qed.

Section ViewRejections.
Context `{PyStdlib}.

Ltac unfold_handler H :=
  unfold mbind, mret, handler_bind, handler_ret, result_bind, perform,
    return_response, lift in H;
  lazy beta iota zeta in H.

Ltac destruct_scrutinee H :=
  match type of H with
  | context [match ?x with _ => _ end] =>
      lazymatch x with
      | context [match _ with _ => _ end] => fail
      | _ => destruct x eqn:?
      end
  end; lazy beta iota zeta in H.

Ltac collect_range_facts :=
  repeat match goal with
  | Hv : is_valid _ = ValidatedData _ |- _ =>
      apply is_valid_accepts in Hv as (-> & ? & ? & ? & ?)
  | Hd : dt_add _ _ = Ok _ |- _ => apply dt_add_Ok in Hd as (? & ? & ? & ?)
  | Hd : dt_add _ _ = Raise _ |- _ => apply dt_add_raises in Hd as [-> ?]
  | Ha : astimezone_utc _ = Ok _ |- _ =>
      apply astimezone_utc_Ok in Ha as (? & ? & ? & ?)
  | Ha : astimezone_utc _ = Raise _ |- _ =>
      apply astimezone_utc_raises in Ha as [-> ?]
  | Ht : timedelta_of_minutes _ = Ok _ |- _ =>
      apply timedelta_of_minutes_Ok in Ht; subst
  | Ht : timedelta_of_minutes _ = Raise _ |- _ =>
      apply timedelta_of_minutes_raises in Ht as [-> ?]
  end.

(** Brings the search window and the hours after defaults down to
    arithmetic. *)
Ltac window_arith :=
  unfold arithmetic_in_range, invalid_range, resolved_search_end,
    resolved_search_start, resolved_start_hour, resolved_end_hour, dt_leb in *;
  bool_to_Prop;
  repeat match goal with
  | Hc : _ ∧ _ |- _ => destruct Hc
  | Hq : q_end _ = _ |- _ => rewrite Hq in *
  | Ht : templates _ !! _ = Some _, Hd : ∀ t, templates _ !! _ = Some t → _ |- _ =>
      specialize (Hd _ Ht)
  end;
  destruct (q_start _); cbn [default wall utcoffset] in *;
  unfold Datatypes.id in *; rewrite ?utc_mkdatetime_0 in *;
  unfold DEFAULT_START_HOUR, DEFAULT_END_HOUR, DEFAULT_SEARCH_DAYS,
    timedelta_hours, timedelta_days, timedelta_minutes in *;
  try lia.

(** C7. InvalidRange short-circuit: when, after defaults, [searchEnd <=
    searchStart] or [workdayStartHour >= workdayEndHour], the run never
    calls [get_free_busy_data]; whenever the datetime arithmetic of the
    request stays in range it answers, with status 400 (404 when the
    template does not exist) and without a payload; and it raises only
    OverflowError, and only when that arithmetic leaves the range. *)
Theorem invalid_range_rejected (w : world) (request : query_params) (id : Z)
    (outcome : result response) (trace : list call) :
  invalid_range request (clock w) →
  run (get w request id) = (outcome, trace) →
  (∀ interviewer_ids, GetFreeBusyData interviewer_ids ∉ trace)
  ∧ (arithmetic_in_range w request id → ∃ r, outcome = Ok r)
  ∧ match outcome with
    | Ok r =>
        (status r = HTTP_400_BAD_REQUEST
         ∨ (status r = HTTP_404_NOT_FOUND ∧ templates w !! id = None))
        ∧ (templates w !! id = None ↔ status r = HTTP_404_NOT_FOUND)
        ∧ ∀ p, data r ≠ PayloadBody p
    | Raise e => e = OverflowError ∧ ¬ arithmetic_in_range w request id
    end.
Proof.
  unfold run, get. intros Hinvalid Hrun.
  unfold_handler Hrun.
  repeat destruct_scrutinee Hrun;
    injection Hrun as <- <-; collect_range_facts.
  all: try (exfalso; window_arith; fail).
  all: split;
    [ intros ids Hin; cbn in Hin;
      repeat (apply elem_of_cons in Hin as [Hin|Hin]; [discriminate|]);
      by apply elem_of_nil in Hin| ].
  all: split;
    [ first [ by intros _; eexists
            | intros Hrange; exfalso; window_arith; fail ]| ].
  all: first
    [ split; [done|]; intros Hrange; window_arith; fail
    | split; [first [by left | by right]|];
      split; [cbn [status]; split; [congruence|discriminate]
             |by intros ?]
    | split; [first [by left | by right]|];
      split; [cbn [status]; split; done|by intros ?] ].
Qed.

(** X16. The error answers, as a decision table.  A missing template is
    answered with 404.  With a template whose duration fits a timedelta, a
    request the serializer refuses is answered with 400 and the
    serializer's detail, before the clock is read.  A request it accepts,
    with datetime arithmetic in range, is answered with 400 and [end must
    be after start] exactly when the search window after defaults is empty
    or inverted, which happens only when [end] is sent without [start] and
    is not later than 24 hours from now; otherwise with 400 and [end_hour
    must be after start_hour] exactly when the hours after defaults are not
    in order, which happens only when exactly one hour is sent; and
    otherwise every answer is a 200 with a payload. *)
Theorem error_responses (w : world) (request : query_params) (id : Z) :
  match templates w !! id with
  | None =>
      run (get w request id)
      = (Ok (mkresponse (ErrorBody "Interview template not found")
                        HTTP_404_NOT_FOUND), [TemplateGet id])
  | Some template =>
      -999999999 * US_PER_DAY <= timedelta_minutes (template_duration template)
      < 1000000000 * US_PER_DAY →
      match is_valid request with
      | ValidationError detail =>
          run (get w request id)
          = (Ok (mkresponse (ErrorDetail detail) HTTP_400_BAD_REQUEST),
             [TemplateGet id])
      | ValidatedData _ =>
          arithmetic_in_range w request id →
          if decide (resolved_search_end request (clock w)
                     <= resolved_search_start request (clock w))
          then
            run (get w request id)
            = (Ok (mkresponse (ErrorBody "end must be after start")
                              HTTP_400_BAD_REQUEST), [TemplateGet id; ClockNow])
            ∧ q_start request = None
            ∧ ∃ end_, q_end request = Some end_
                      ∧ utc end_ <= clock w + timedelta_hours 24
          else if decide (resolved_end_hour request
                          <= resolved_start_hour request)
          then
            run (get w request id)
            = (Ok (mkresponse (ErrorBody "end_hour must be after start_hour")
                              HTTP_400_BAD_REQUEST), [TemplateGet id; ClockNow])
            ∧ ((∃ h, q_start_hour request = Some h
                     ∧ q_end_hour request = None ∧ 17 <= h <= 23)
               ∨ (∃ h, q_start_hour request = None
                       ∧ q_end_hour request = Some h ∧ 0 <= h <= 9))
          else
            ∀ r trace, run (get w request id) = (Ok r, trace) →
                       status r = HTTP_200_OK ∧ ∃ p, data r = PayloadBody p
      end
  end.
Proof.
  destruct (templates w !! id) as [template|] eqn:Ht.
  2: { unfold run, get, mbind, mret, handler_bind, handler_ret, perform,
         return_response. by rewrite Ht. }
  intros Hdur.
  destruct (run (get w request id)) as [outcome trace] eqn:Hrun0.
  pose proof Hrun0 as Hrun. unfold run, get in Hrun. unfold_handler Hrun.
  rewrite Ht in Hrun. lazy beta iota zeta in Hrun.
  repeat destruct_scrutinee Hrun; injection Hrun as <- <-;
    collect_range_facts; try done.
  all: try (intros Hrange).
  all: repeat case_decide.
  all: try (exfalso; window_arith; fail).
  all: try (intros r0 trace0 [= <- <-]; split; [done|by eexists]).
  all: try (intros r0 trace0 [=]; fail).
  all: split; [done|].
  all: pose proof (error_responses_classified _ _ _ _ _ Hrun0) as Hcases;
    cbn [data] in Hcases;
    destruct Hcases as [(Habs & _)|[Hcases|Hcases]]; [discriminate|..].
  all: first [ by destruct Hcases as (_ & _ & ? & ? & _)
             | by destruct Hcases as (_ & _ & ? & _)
             | by destruct Hcases as (Habs & _) ].
Qed.

(** X19. What the view can raise: OverflowError, from datetime arithmetic
    at the edges of the supported range, or ValueError.  A ValueError comes
    only after the schedule provider was asked, and from one of two steps:
    the merger, on an answer of the provider that holds a block with two
    values that are not both ISO-8601 strings; or, after the merger and the
    slot expansion of this run have both returned, the re-parsing of the
    slot strings the expansion has emitted.  So the slot expansion, and
    with it [replace] on the workday hours, never raises ValueError, and no
    loop runs on for ever. *)
Theorem view_exceptions (w : world) (request : query_params) (id : Z)
    (x : exn) (trace : list call) :
  run (get w request id) = (Raise x, trace) →
  x = OverflowError
  ∨ (x = ValueError
     ∧ ∃ template earliest_allowed search_start search_end min_slot_start,
         templates w !! id = Some template
         ∧ trace = full_call_log id template
         ∧ ceil_to_half_hour_boundary (py_max search_start earliest_allowed)
           = Ok min_slot_start
         ∧ utc earliest_allowed = clock w + timedelta_hours 24
         ∧ utc search_start = resolved_search_start request (clock w)
         ∧ utc search_end = resolved_search_end request (clock w)
         ∧ ((compute_common_free_windows
               (get_free_busy_data w (template_interviewers template))
               search_start search_end = Raise ValueError
             ∧ ¬ parseable (get_free_busy_data w (template_interviewers template)))
            ∨ ∃ free_windows slots,
                compute_common_free_windows
                  (get_free_busy_data w (template_interviewers template))
                  search_start search_end = Ok free_windows
                ∧ expand_free_windows free_windows min_slot_start
                    (timedelta_minutes (template_duration template))
                    (resolved_start_hour request) (resolved_end_hour request) []
                  = Ok slots
                ∧ human_readable_slots_of slots = Raise ValueError)).
Proof.
  unfold run, get. intros Hrun.
  unfold_handler Hrun.
  repeat (destruct_scrutinee Hrun; try discriminate);
    injection Hrun as <- <-; collect_range_facts; subst; auto.
  all: try (left; match goal with
                  | Hc : ceil_to_half_hour_boundary _ = Raise _ |- _ =>
                      by apply ceil_raises in Hc as [-> _]
                  end).
  all: try (left; match goal with
                  | Hc : expand_free_windows _ _ _ _ _ _ = Raise _ |- _ =>
                      eapply expand_free_windows_raises; [exact Hc| |]
                  end;
            unfold DEFAULT_START_HOUR, DEFAULT_END_HOUR;
            destruct (q_start_hour request) as [sh|], (q_end_hour request) as [eh|];
            cbn [default]; unfold Datatypes.id;
            repeat match goal with
                   | Hr : ∀ h, Some ?a = Some h → _ |- _ => specialize (Hr _ eq_refl)
                   end; lia).
  all: try (exfalso;
            match goal with
            | Hc : compute_common_free_windows ?bs ?ss ?se = Ok _,
              Hf : format_interviewer_busy_times_human_readable ?bs = Raise _ |- _ =>
                unfold format_interviewer_busy_times_human_readable in Hf;
                pose proof (format_interviewer_busy_times_human_readable_from_spec
                              bs []) as Ho;
                rewrite Hf in Ho; destruct Ho as [_ Hno];
                apply Hno; by eapply compute_common_free_windows_Ok
            end).
  all: right.
  all: match goal with
       | Hc : compute_common_free_windows ?bs ?ss ?se = Raise _ |- _ =>
           pose proof (compute_common_free_windows_outcome bs ss se) as Ho;
           rewrite Hc in Ho; destruct Ho as [-> Hno]
       | Hc : human_readable_slots_of ?slots = Raise ?e |- _ =>
           pose proof (human_readable_slots_of_raises _ _ Hc) as ->
       end.
  all: match goal with
       | Ht : templates _ !! _ = Some ?t,
         Hceil : ceil_to_half_hour_boundary (py_max ?ss ?ea) = Ok ?mss,
         Hc : compute_common_free_windows _ ?ss ?se = _ |- _ =>
           split; [done|]; exists t, ea, ss, se, mss
       end;
    split; [done|]; split; [done|]; split; [done|].
  all: (split; [window_arith; fail|]); (split; [window_arith; fail|]);
    (split; [window_arith; fail|]).
  all: first [ by left
             | right; eexists _, _; split; [eassumption|];
               split; [eassumption|done] ].
Qed.

End ViewRejections.

(** ** Runs of the fixture that are refused *)

Lemma fixture_arithmetic_in_range (request : query_params) (id : Z) :
  0 <= resolved_search_start request (clock Fixture.the_world) < MAX_WALL →
  0 <= resolved_search_end request (clock Fixture.the_world) < MAX_WALL →
  arithmetic_in_range Fixture.the_world request id.
Proof.
  intros Hs He. split; [|split; [|done]].
  - intros template Ht. cbn in Ht.
    destruct (decide (id = 1)) as [->|Hne].
    + rewrite lookup_singleton_eq in Ht. injection Ht as <-. by vm_compute.
    + by rewrite lookup_singleton_ne in Ht.
  - by vm_compute.
Qed.

(** Three refused requests: [end] alone and twelve hours from now (the
    view's guard), [end] before [start] (the serializer, as in tests.py),
    and [start_hour=18] alone (the view's hour guard).  Each is answered
    with 400 and nothing is fetched. *)
Lemma invalid_range_rejected_witness :
  (run (get Fixture.the_world Fixture.request_lone_end 1)
   = (Ok (mkresponse (ErrorBody "end must be after start") HTTP_400_BAD_REQUEST),
      [TemplateGet 1; ClockNow])
   ∧ (∀ interviewer_ids, GetFreeBusyData interviewer_ids ∉ [TemplateGet 1; ClockNow])
   ∧ (arithmetic_in_range Fixture.the_world Fixture.request_lone_end 1 →
      ∃ r, Ok (mkresponse (ErrorBody "end must be after start") HTTP_400_BAD_REQUEST)
           = Ok r)
   ∧ (status (mkresponse (ErrorBody "end must be after start") HTTP_400_BAD_REQUEST)
      = HTTP_400_BAD_REQUEST
      ∨ (status (mkresponse (ErrorBody "end must be after start") HTTP_400_BAD_REQUEST)
         = HTTP_404_NOT_FOUND
         ∧ templates Fixture.the_world !! 1 = None))
   ∧ (templates Fixture.the_world !! 1 = None
      ↔ status (mkresponse (ErrorBody "end must be after start") HTTP_400_BAD_REQUEST)
        = HTTP_404_NOT_FOUND)
   ∧ ∀ p, data (mkresponse (ErrorBody "end must be after start") HTTP_400_BAD_REQUEST)
          ≠ PayloadBody p)
  ∧
  (run (get Fixture.the_world Fixture.request_end_before_start 1)
   = (Ok (mkresponse (ErrorDetail [("end", "end must be after start")%string])
                         HTTP_400_BAD_REQUEST),
      [TemplateGet 1])
   ∧ (∀ interviewer_ids, GetFreeBusyData interviewer_ids ∉ [TemplateGet 1])
   ∧ (arithmetic_in_range Fixture.the_world Fixture.request_end_before_start 1 →
      ∃ r, Ok (mkresponse (ErrorDetail [("end", "end must be after start")%string])
                         HTTP_400_BAD_REQUEST)
           = Ok r)
   ∧ (status (mkresponse (ErrorDetail [("end", "end must be after start")%string])
                         HTTP_400_BAD_REQUEST)
      = HTTP_400_BAD_REQUEST
      ∨ (status (mkresponse (ErrorDetail [("end", "end must be after start")%string])
                         HTTP_400_BAD_REQUEST)
         = HTTP_404_NOT_FOUND
         ∧ templates Fixture.the_world !! 1 = None))
   ∧ (templates Fixture.the_world !! 1 = None
      ↔ status (mkresponse (ErrorDetail [("end", "end must be after start")%string])
                         HTTP_400_BAD_REQUEST)
        = HTTP_404_NOT_FOUND)
   ∧ ∀ p, data (mkresponse (ErrorDetail [("end", "end must be after start")%string])
                         HTTP_400_BAD_REQUEST)
          ≠ PayloadBody p)
  ∧
  (run (get Fixture.the_world Fixture.request_late_start_hour 1)
   = (Ok (mkresponse (ErrorBody "end_hour must be after start_hour")
                         HTTP_400_BAD_REQUEST),
      [TemplateGet 1; ClockNow])
   ∧ (∀ interviewer_ids, GetFreeBusyData interviewer_ids ∉ [TemplateGet 1; ClockNow])
   ∧ (arithmetic_in_range Fixture.the_world Fixture.request_late_start_hour 1 →
      ∃ r, Ok (mkresponse (ErrorBody "end_hour must be after start_hour")
                         HTTP_400_BAD_REQUEST)
           = Ok r)
   ∧ (status (mkresponse (ErrorBody "end_hour must be after start_hour")
                         HTTP_400_BAD_REQUEST)
      = HTTP_400_BAD_REQUEST
      ∨ (status (mkresponse (ErrorBody "end_hour must be after start_hour")
                         HTTP_400_BAD_REQUEST)
         = HTTP_404_NOT_FOUND
         ∧ templates Fixture.the_world !! 1 = None))
   ∧ (templates Fixture.the_world !! 1 = None
      ↔ status (mkresponse (ErrorBody "end_hour must be after start_hour")
                         HTTP_400_BAD_REQUEST)
        = HTTP_404_NOT_FOUND)
   ∧ ∀ p, data (mkresponse (ErrorBody "end_hour must be after start_hour")
                         HTTP_400_BAD_REQUEST)
          ≠ PayloadBody p).
Proof.
  split; [|split].
  - split; [vm_compute; reflexivity|].
    apply (invalid_range_rejected Fixture.the_world Fixture.request_lone_end 1
             (Ok (mkresponse (ErrorBody "end must be after start") HTTP_400_BAD_REQUEST))
             [TemplateGet 1; ClockNow]);
      [left; vm_compute; discriminate|vm_compute; reflexivity].
  - split; [vm_compute; reflexivity|].
    apply (invalid_range_rejected Fixture.the_world Fixture.request_end_before_start 1
             (Ok (mkresponse (ErrorDetail [("end", "end must be after start")%string])
                         HTTP_400_BAD_REQUEST))
             [TemplateGet 1]);
      [left; vm_compute; discriminate|vm_compute; reflexivity].
  - split; [vm_compute; reflexivity|].
    apply (invalid_range_rejected Fixture.the_world Fixture.request_late_start_hour 1
             (Ok (mkresponse (ErrorBody "end_hour must be after start_hour")
                         HTTP_400_BAD_REQUEST))
             [TemplateGet 1; ClockNow]);
      [right; vm_compute; discriminate|vm_compute; reflexivity].
Defined.

(** The 404 of tests.py, the serializer's 400 of tests.py, and the two
    guards of the view. *)
Lemma error_responses_witness :
  run (get Fixture.the_world (Fixture.request_day 9 17) 999999)
  = (Ok (mkresponse (ErrorBody "Interview template not found")
                    HTTP_404_NOT_FOUND), [TemplateGet 999999])
  ∧ run (get Fixture.the_world Fixture.request_end_before_start 1)
    = (Ok (mkresponse (ErrorDetail [("end", "end must be after start")%string])
                      HTTP_400_BAD_REQUEST), [TemplateGet 1])
  ∧ (run (get Fixture.the_world Fixture.request_lone_end 1)
     = (Ok (mkresponse (ErrorBody "end must be after start")
                       HTTP_400_BAD_REQUEST), [TemplateGet 1; ClockNow])
     ∧ q_start Fixture.request_lone_end = None
     ∧ ∃ end_, q_end Fixture.request_lone_end = Some end_
               ∧ utc end_ <= clock Fixture.the_world + timedelta_hours 24)
  ∧ (run (get Fixture.the_world Fixture.request_late_start_hour 1)
     = (Ok (mkresponse (ErrorBody "end_hour must be after start_hour")
                       HTTP_400_BAD_REQUEST), [TemplateGet 1; ClockNow])
     ∧ ((∃ h, q_start_hour Fixture.request_late_start_hour = Some h
              ∧ q_end_hour Fixture.request_late_start_hour = None
              ∧ 17 <= h <= 23)
        ∨ (∃ h, q_start_hour Fixture.request_late_start_hour = None
                ∧ q_end_hour Fixture.request_late_start_hour = Some h
                ∧ 0 <= h <= 9))).
Proof.
  assert (-999999999 * US_PER_DAY
          <= timedelta_minutes (template_duration Fixture.tech_interview)
          < 1000000000 * US_PER_DAY) as Hduration by (by vm_compute).
  assert (arithmetic_in_range Fixture.the_world Fixture.request_lone_end 1)
    as Hlone by (apply fixture_arithmetic_in_range; by vm_compute).
  assert (arithmetic_in_range Fixture.the_world Fixture.request_late_start_hour 1)
    as Hlate by (apply fixture_arithmetic_in_range; by vm_compute).
  split; [|split; [|split]].
  - exact (error_responses Fixture.the_world (Fixture.request_day 9 17) 999999).
  - exact (error_responses Fixture.the_world Fixture.request_end_before_start 1
             Hduration).
  - exact (error_responses Fixture.the_world Fixture.request_lone_end 1
             Hduration Hlone).
  - exact (error_responses Fixture.the_world Fixture.request_late_start_hour 1
             Hduration Hlate).
Defined.

(** A block that starts [tomorrow] makes the merger, and so the view,
    raise ValueError after the provider was asked. *)
Lemma view_exceptions_witness :
  ValueError = OverflowError
  ∨ (ValueError = ValueError
     ∧ ∃ template earliest_allowed search_start search_end min_slot_start,
         templates Fixture.broken_world !! 1 = Some template
         ∧ full_call_log 1 Fixture.tech_interview = full_call_log 1 template
         ∧ ceil_to_half_hour_boundary (py_max search_start earliest_allowed)
           = Ok min_slot_start
         ∧ utc earliest_allowed = clock Fixture.broken_world + timedelta_hours 24
         ∧ utc search_start
           = resolved_search_start (Fixture.request_day 9 17)
               (clock Fixture.broken_world)
         ∧ utc search_end
           = resolved_search_end (Fixture.request_day 9 17)
               (clock Fixture.broken_world)
         ∧ ((compute_common_free_windows
               (get_free_busy_data Fixture.broken_world
                  (template_interviewers template))
               search_start search_end = Raise ValueError
             ∧ ¬ parseable (get_free_busy_data Fixture.broken_world
                              (template_interviewers template)))
            ∨ ∃ free_windows slots,
                compute_common_free_windows
                  (get_free_busy_data Fixture.broken_world
                     (template_interviewers template))
                  search_start search_end = Ok free_windows
                ∧ expand_free_windows free_windows min_slot_start
                    (timedelta_minutes (template_duration template))
                    (resolved_start_hour (Fixture.request_day 9 17))
                    (resolved_end_hour (Fixture.request_day 9 17)) []
                  = Ok slots
                ∧ human_readable_slots_of slots = Raise ValueError)).
Proof.
  apply (view_exceptions Fixture.broken_world (Fixture.request_day 9 17) 1
           ValueError (full_call_log 1 Fixture.tech_interview)).
  vm_compute. reflexivity.
Defined.
